(** * Fashion-MNIST classification notebook: train / validate / checkpoint loop

    A shallow embedding of [imageclassification_nn_dropout.py].  The numerical
    framework (tensors, layers, autograd, optimizer, random generator) is an
    external collaborator: its tensor operations are the fields of the class
    [Framework], while the control flow of the notebook's own functions
    ([create_model], [create_model_with_dropout], [train_one_epoch],
    [validate], [train], [print_loss_every_n_epochs],
    [save_model_if_improved], [load_model], [plot_train_and_val_loss],
    [visualize_first_4]) and of the cells that call them is written out.
    Python floats are IEEE binary64 values, that is Rocq's primitive
    floats. *)

From Stdlib Require Import ZArith List Bool Lia.
From Stdlib Require Import Floats Uint63.
From stdpp Require Import base option list gmap strings.

Local Open Scope Z_scope.
Local Set Warnings "-inexact-float,-register-all".

(** ** Python exceptions and results *)

Inductive exn : Type :=
| IndexError
| ValueError
| ZeroDivisionError
| RuntimeError
| FileNotFoundError.

Inductive result (A : Type) : Type :=
| Ok (a : A)
| Raise (e : exn).

Arguments Ok {A} a.
Arguments Raise {A} e.

Global Instance result_ret : MRet result := fun A a => Ok a.

Global Instance result_bind : MBind result := fun A B k r =>
  match r with
  | Ok a => k a
  | Raise e => Raise e
  end.

(** ** Python built-ins: indexing, [range], [min], [sum], division *)

Module Py.

Definition nan : float := PrimFloat.nan.

(** [float(n)] for a Python int; exact for [|n| < 2^53], which covers every
    length and count of this program. *)
Definition of_int (n : Z) : float :=
  if (n <? 0)%Z then (- PrimFloat.of_uint63 (Uint63.of_Z (- n)))%float
  else PrimFloat.of_uint63 (Uint63.of_Z n).

(** Python's [min(l)]: the first element is kept until a strictly smaller
    one ([x < m]) comes; [ValueError] on the empty list. *)
Fixpoint min_from (m : float) (l : list float) : float :=
  match l with
  | [] => m
  | x :: l' => min_from (if (x <? m)%float then x else m) l'
  end.

Definition min (l : list float) : result float :=
  match l with
  | [] => Raise ValueError
  | x :: l' => Ok (min_from x l')
  end.

(** Python's [l[0]]; [IndexError] on the empty list. *)
Definition first_item {A : Type} (l : list A) : result A :=
  match l with
  | [] => Raise IndexError
  | x :: _ => Ok x
  end.

(** Python's [l[-1]]; [IndexError] on the empty list. *)
Definition last_item {A : Type} (l : list A) : result A :=
  match List.rev l with
  | [] => Raise IndexError
  | x :: _ => Ok x
  end.

(** Python's [sum(l)]: the items added left to right to the int [0], as
    CPython up to 3.11 does; CPython from 3.12 on adds a compensation term
    at the end, see [arithmetic_mean] below. *)
Definition sum (l : list float) : float :=
  fold_left PrimFloat.add l (of_int 0).

(** [x / n] for a float [x] and an int [n]. *)
Definition div_int (x : float) (n : Z) : result float :=
  if (n =? 0)%Z then Raise ZeroDivisionError
  else Ok (x / of_int n)%float.

(** [a / b] for two ints (true division). *)
Definition int_truediv (a b : Z) : result float :=
  if (b =? 0)%Z then Raise ZeroDivisionError
  else Ok (of_int a / of_int b)%float.

(** [sum(l) / len(l)] *)
Definition mean (l : list float) : result float :=
  div_int (sum l) (Z.of_nat (length l)).

(** [a % b] on ints *)
Definition int_mod (a b : Z) : result Z :=
  if (b =? 0)%Z then Raise ZeroDivisionError else Ok (a mod b).

(** [range(n)] *)
Definition range (n : Z) : list Z :=
  map Z.of_nat (seq 0 (Z.to_nat n)).

(** A float other than NaN equals itself. *)
Definition not_nan (x : float) : Prop := (x =? x)%float = true.

End Py.

(** ** The arithmetic mean, for the statements

    The mean of a list of floats written out without the built-ins above:
    the items are added one by one, from the left, to 0, and the total is
    divided by the number of items.  CPython up to 3.11 adds just so;
    CPython from 3.12 on carries Neumaier's compensation term along and adds
    it to the total at the end, which can change the last bits where an
    addition rounds.  [compensated] selects between the two. *)
Fixpoint add_up (total : float) (l : list float) : float :=
  match l with
  | [] => total
  | x :: l' => add_up (total + x) l'
  end.

Fixpoint add_up_compensated (total c : float) (l : list float) : float :=
  match l with
  | [] =>
      if negb (c =? 0)%float && (abs c <? infinity)%float
      then (total + c)%float else total
  | x :: l' =>
      let t := (total + x)%float in
      add_up_compensated t
        (if (abs x <=? abs total)%float
         then (c + ((total - t) + x))%float
         else (c + ((x - t) + total))%float) l'
  end.

Definition float_of_nat (n : nat) : float :=
  PrimFloat.of_uint63 (Uint63.of_Z (Z.of_nat n)).

Definition arithmetic_mean (compensated : bool) (l : list float) : float :=
  ((if compensated
    then match l with
         | [] => 0
         | x :: l' => add_up_compensated (0 + x) 0 l'
         end
    else add_up 0 l) / float_of_nat (length l))%float.

(** ** Tensors, layers and models *)

(** A parameter tensor: its shape and its contents (left to the framework). *)
Record tensor (V : Type) : Type := Tensor { shape : list Z; data : V }.
Arguments Tensor {V} shape data.
Arguments shape {V} t.
Arguments data {V} t.

(** Entries of a [state_dict] are named by the position of the layer in the
    nesting of [nn.Sequential] containers and by the parameter: the key
    ["3.0.weight"] is [([3; 0], Weight)]. *)
Inductive pname : Type := Weight | Bias.

Global Instance pname_eq_dec : EqDecision pname.
Proof. solve_decision. Defined.

Global Instance pname_countable : Countable pname :=
  inj_countable'
    (fun n => match n with Weight => true | Bias => false end)
    (fun b : bool => if b then Weight else Bias)
    (fun n => match n with Weight => eq_refl | Bias => eq_refl end).

Definition pkey : Type := list nat * pname.

(** A model is a tree of layers; an affine layer owns its weight and bias. *)
Inductive module (V : Type) : Type :=
| Flatten
| Linear (in_features out_features : Z) (weight bias : tensor V)
| ReLU
| Dropout (p : float)
| Sequential (children : list (module V)).

Arguments Flatten {V}.
Arguments Linear {V} in_features out_features weight bias.
Arguments ReLU {V}.
Arguments Dropout {V} p.
Arguments Sequential {V} children.

(** The numerical framework, as far as the notebook calls into it. *)
Class Framework : Type := {
  act : Type;      (** activations: image batches, features, logits *)
  labels : Type;   (** a batch of integer labels *)
  values : Type;   (** contents of a parameter tensor *)
  grad : Type;     (** the [.grad] fields of the parameters *)
  optim : Type;    (** internal state of the optimizer *)
  gen : Type;      (** state of the global random generator *)
  (** initial weight and bias of [nn.Linear(i, o)] *)
  init_linear : Z -> Z -> gen -> values * values * gen;
  flatten_op : act -> act;
  linear_op : tensor values -> tensor values -> act -> act;
  relu_op : act -> act;
  (** the zeroing of an active [nn.Dropout(p)] *)
  dropout_op : float -> gen -> act -> act * gen;
  (** [cross_entropy(preds, labels).item()] *)
  cross_entropy : act -> labels -> float;
  (** [torch.sum(torch.argmax(preds, dim=-1) == labels).item()] *)
  n_correct : act -> labels -> Z;
  (** [len(labels)]: a batch yielded by a [DataLoader] holds at least one
      sample *)
  len_labels : labels -> positive;
  (** [loss.backward()]: the gradients after the call from those before it,
      for the loss of the forward pass on the given net, mode, generator
      state, batch and labels *)
  backward_op : module values -> bool -> gen -> act -> labels ->
                option grad -> grad;
  (** [optimizer.step()]: the new contents of one parameter, and the new
      internal state *)
  step_op : optim -> option grad -> pkey -> values -> values;
  step_optim : optim -> option grad -> optim;
}.

Section Model.
Context {V : Type}.

(** The layers of a model in the order a forward pass applies them. *)
Fixpoint leaves (m : module V) : list (module V) :=
  match m with
  | Sequential ms => flat_map leaves ms
  | _ => [m]
  end.

(** Input and output width of every affine layer, in order. *)
Definition affine_dims (m : module V) : list (Z * Z) :=
  flat_map (fun l => match l with
                     | Linear i o _ _ => [(i, o)]
                     | _ => []
                     end) (leaves m).

(** [model.state_dict()] *)
Fixpoint state_dict_at (prefix : list nat) (m : module V)
  : gmap pkey (tensor V) :=
  match m with
  | Linear _ _ w b => <[(prefix, Weight) := w]> (<[(prefix, Bias) := b]> ∅)
  | Sequential ms =>
      (fix children (i : nat) (ms : list (module V)) :=
         match ms with
         | [] => ∅
         | c :: ms' => state_dict_at (prefix ++ [i]) c ∪ children (S i) ms'
         end) 0%nat ms
  | _ => ∅
  end.

Definition state_dict (m : module V) : gmap pkey (tensor V) :=
  state_dict_at [] m.

(** The parameters of [m] overwritten by the entries of [sd]. *)
Definition assign_tensor (sd : gmap pkey (tensor V)) (k : pkey)
    (t : tensor V) : tensor V :=
  match sd !! k with
  | Some t' => t'
  | None => t
  end.

Fixpoint assign_at (sd : gmap pkey (tensor V)) (prefix : list nat)
    (m : module V) : module V :=
  match m with
  | Linear i o w b =>
      Linear i o (assign_tensor sd (prefix, Weight) w)
                 (assign_tensor sd (prefix, Bias) b)
  | Sequential ms =>
      Sequential
        ((fix children (i : nat) (ms : list (module V)) :=
            match ms with
            | [] => []
            | c :: ms' =>
                assign_at sd (prefix ++ [i]) c :: children (S i) ms'
            end) 0%nat ms)
  | _ => m
  end.

(** [model.load_state_dict(sd)] (strict): a missing key, an unexpected
    key or a parameter of another shape is a [RuntimeError]. *)
Definition load_state_dict (sd : gmap pkey (tensor V)) (m : module V)
  : result (module V) :=
  if bool_decide ((shape <$> sd) = (shape <$> state_dict m))
  then Ok (assign_at sd [] m)
  else Raise RuntimeError.

(** Every parameter rewritten in place by [f]. *)
Fixpoint map_params (f : pkey -> V -> V) (prefix : list nat)
    (m : module V) : module V :=
  match m with
  | Linear i o w b =>
      Linear i o (Tensor (shape w) (f (prefix, Weight) (data w)))
                 (Tensor (shape b) (f (prefix, Bias) (data b)))
  | Sequential ms =>
      Sequential
        ((fix children (i : nat) (ms : list (module V)) :=
            match ms with
            | [] => []
            | c :: ms' =>
                map_params f (prefix ++ [i]) c :: children (S i) ms'
            end) 0%nat ms)
  | _ => m
  end.

(** The three traversals above on the children of a container, from
    position [i] on. *)
Fixpoint state_dict_children (prefix : list nat) (i : nat)
    (ms : list (module V)) : gmap pkey (tensor V) :=
  match ms with
  | [] => ∅
  | c :: ms' =>
      state_dict_at (prefix ++ [i]) c ∪ state_dict_children prefix (S i) ms'
  end.

Fixpoint assign_children (sd : gmap pkey (tensor V)) (prefix : list nat)
    (i : nat) (ms : list (module V)) : list (module V) :=
  match ms with
  | [] => []
  | c :: ms' =>
      assign_at sd (prefix ++ [i]) c :: assign_children sd prefix (S i) ms'
  end.

Fixpoint map_params_children (f : pkey -> V -> V) (prefix : list nat)
    (i : nat) (ms : list (module V)) : list (module V) :=
  match ms with
  | [] => []
  | c :: ms' =>
      map_params f (prefix ++ [i]) c :: map_params_children f prefix (S i) ms'
  end.

(** The architecture of a model: its layers with their widths and the
    shapes of their parameters, without the parameter contents. *)
Inductive arch : Type :=
| AFlatten
| ALinear (in_features out_features : Z) (weight_shape bias_shape : list Z)
| AReLU
| ADropout (p : float)
| ASequential (children : list arch).

Fixpoint skeleton (m : module V) : arch :=
  match m with
  | Flatten => AFlatten
  | Linear i o w b => ALinear i o (shape w) (shape b)
  | ReLU => AReLU
  | Dropout p => ADropout p
  | Sequential ms => ASequential (map skeleton ms)
  end.

(** Width of the input of the first affine layer, width of the output of
    the last one, and the last layer applied. *)
Definition first_affine_in (m : module V) : option Z :=
  fst <$> head (affine_dims m).

Definition final_affine_out (m : module V) : option Z :=
  snd <$> last (affine_dims m).

Definition final_layer (m : module V) : option (module V) :=
  last (leaves m).

End Model.

(** ** The notebook *)

(** A parameter snapshot, and the sequence of batches a data loader
    yields in one pass, in the order of that pass.  What a [DataLoader]
    does when a pass begins -- it draws a seed from the global generator,
    and shuffles if asked to -- is outside the embedding. *)
Abbreviation snapshot := (gmap pkey (tensor values)).
Abbreviation dataloader := (list (act * labels)).

Section Notebook.
Context {FW : Framework}.

(** What [print] writes: the two formatted lines of the notebook. *)
Inductive message : Type :=
| MsgEpoch (epoch : Z) (train_loss val_loss val_acc : float)
| MsgNewBest (epoch : Z) (val_loss : float).

(** Everything the notebook's functions and an observer can mutate. *)
Record state : Type := State {
  net : module values;             (** the model's layers and parameters *)
  training : bool;                 (** [model.training], set on all layers
                                       alike by [eval()] and [train()] *)
  grads : option grad;             (** the parameters' [.grad] *)
  opt : optim;                     (** the optimizer *)
  rng : gen;                       (** the global random generator *)
  files : gmap string snapshot;    (** files written by [torch.save] *)
  stdout : list message;
}.

(** Calls into the framework, in the order they happen. *)
Inductive event : Type :=
| EvZeroGrad
| EvForward (batch : act)
| EvBackward
| EvStep
| EvEvalMode
| EvTrainMode
| EvObserver (epoch : Z).

Record world : Type := World { st : state; trace : list event }.

Definition emit (e : event) (w : world) : world :=
  World (st w) (trace w ++ [e]).

Definition on_state (f : state -> state) (w : world) : world :=
  World (f (st w)) (trace w).

(** *** Model factories *)

(** [nn.Linear(i, o)]; a negative width is refused by the framework.  Its
    upper limits (a width beyond the index type, a tensor beyond the
    memory) are outside the embedding. *)
Definition nn_Linear (i o : Z) (g : gen) : result (module values * gen) :=
  if (i <? 0) || (o <? 0) then Raise RuntimeError
  else let '(w, b, g') := init_linear i o g in
       Ok (Linear i o (Tensor [o; i] w) (Tensor [o] b), g').

(** [nn.Dropout(p)]; the framework refuses [p < 0 or p > 1]. *)
Definition nn_Dropout (p : float) : result (module values) :=
  if ((p <? 0) || (1 <? p))%float then Raise ValueError
  else Ok (Dropout p).

(** [zip(hidden_dims[:-1], hidden_dims[1:])] *)
Definition width_pairs (hidden_dims : list Z) : list (Z * Z) :=
  combine (removelast hidden_dims) (tl hidden_dims).

(** [[nn.Sequential(nn.Linear(i, o), nn.ReLU()) for i, o in pairs]] *)
Fixpoint hidden_blocks (pairs : list (Z * Z)) (g : gen)
  : result (list (module values) * gen) :=
  match pairs with
  | [] => Ok ([], g)
  | (in_feats, out_feats) :: pairs' =>
      '(lin, g) ← nn_Linear in_feats out_feats g;
      '(rest, g) ← hidden_blocks pairs' g;
      Ok (Sequential [lin; ReLU] :: rest, g)
  end.

(** Moving the model to [DEVICE] changes none of what is modelled here. *)
Definition create_model (hidden_dims : list Z) (g : gen)
  : result (module values * gen) :=
  h0 ← Py.first_item hidden_dims;
  '(lin0, g) ← nn_Linear (28 * 28) h0 g;
  '(blocks, g) ← hidden_blocks (width_pairs hidden_dims) g;
  hl ← Py.last_item hidden_dims;
  '(out, g) ← nn_Linear hl 10 g;
  Ok (Sequential ([Flatten; lin0; ReLU] ++ blocks ++ [out]), g).

(** [[nn.Sequential(nn.Linear(i, o), nn.ReLU(), nn.Dropout(p)) for ...]] *)
Fixpoint hidden_blocks_with_dropout (pairs : list (Z * Z)) (p : float)
    (g : gen) : result (list (module values) * gen) :=
  match pairs with
  | [] => Ok ([], g)
  | (in_feats, out_feats) :: pairs' =>
      '(lin, g) ← nn_Linear in_feats out_feats g;
      drop ← nn_Dropout p;
      '(rest, g) ← hidden_blocks_with_dropout pairs' p g;
      Ok (Sequential [lin; ReLU; drop] :: rest, g)
  end.

Definition create_model_with_dropout (hidden_dims : list Z) (p : float)
    (g : gen) : result (module values * gen) :=
  h0 ← Py.first_item hidden_dims;
  '(lin0, g) ← nn_Linear (28 * 28) h0 g;
  drop ← nn_Dropout p;
  '(blocks, g) ← hidden_blocks_with_dropout (width_pairs hidden_dims) p g;
  hl ← Py.last_item hidden_dims;
  '(out, g) ← nn_Linear hl 10 g;
  Ok (Sequential ([Flatten; lin0; ReLU; drop] ++ blocks ++ [out]), g).

(** *** Forward pass *)

(** [model(x)]: a dropout layer draws from the generator in training mode
    and is the identity otherwise.  The operations of the framework are
    total here: a model whose widths do not fit its input, on which the
    framework raises [RuntimeError], is outside the embedding. *)
Fixpoint forward (mode : bool) (m : module values) (x : act) (g : gen)
  : act * gen :=
  match m with
  | Flatten => (flatten_op x, g)
  | Linear _ _ w b => (linear_op w b x, g)
  | ReLU => (relu_op x, g)
  | Dropout p => if mode then dropout_op p g x else (x, g)
  | Sequential ms =>
      (fix children (ms : list (module values)) (x : act) (g : gen) :=
         match ms with
         | [] => (x, g)
         | c :: ms' => let '(y, g') := forward mode c x g in
                       children ms' y g'
         end) ms x g
  end.

(** The forward pass with dropout inactive, as a function of the
    parameters and the input alone. *)
Fixpoint infer (m : module values) (x : act) : act :=
  match m with
  | Flatten => flatten_op x
  | Linear _ _ w b => linear_op w b x
  | ReLU => relu_op x
  | Dropout _ => x
  | Sequential ms => fold_left (fun y c => infer c y) ms x
  end.

Definition call_model (batch : act) (w : world) : act * world :=
  let s := st w in
  let '(preds, g') := forward (training s) (net s) batch (rng s) in
  (preds,
   emit (EvForward batch)
     (on_state (fun s => State (net s) (training s) (grads s) (opt s) g'
                               (files s) (stdout s)) w)).

Definition set_training (mode : bool) (s : state) : state :=
  State (net s) mode (grads s) (opt s) (rng s) (files s) (stdout s).

(** [model.eval()] and [model.train()] *)
Definition model_eval (w : world) : world :=
  emit EvEvalMode (on_state (set_training false) w).
Definition model_train (w : world) : world :=
  emit EvTrainMode (on_state (set_training true) w).

(** [optimizer.zero_grad()] *)
Definition zero_grad (w : world) : world :=
  emit EvZeroGrad
    (on_state (fun s => State (net s) (training s) None (opt s) (rng s)
                              (files s) (stdout s)) w).

(** [loss.backward()], for the forward pass started at generator state
    [g0]. *)
Definition loss_backward (g0 : gen) (batch : act) (y : labels) (w : world)
  : world :=
  emit EvBackward
    (on_state (fun s =>
       State (net s) (training s)
             (Some (backward_op (net s) (training s) g0 batch y (grads s)))
             (opt s) (rng s) (files s) (stdout s)) w).

(** [optimizer.step()] *)
Definition optimizer_step (w : world) : world :=
  emit EvStep
    (on_state (fun s =>
       State (map_params (step_op (opt s) (grads s)) [] (net s))
             (training s) (grads s) (step_optim (opt s) (grads s))
             (rng s) (files s) (stdout s)) w).

(** *** Epoch runner *)

(** The body of the [for] loop of [train_one_epoch]. *)
Definition train_batch (batch : act) (y : labels) (w : world)
  : float * world :=
  let w := zero_grad w in
  let g0 := rng (st w) in
  let '(preds, w) := call_model batch w in
  let loss := cross_entropy preds y in
  let w := loss_backward g0 batch y w in
  let w := optimizer_step w in
  (loss, w).

Fixpoint train_loop (dl : dataloader) (w : world) (losses : list float)
  : list float * world :=
  match dl with
  | [] => (losses, w)
  | (batch, y) :: dl' =>
      let '(loss, w) := train_batch batch y w in
      train_loop dl' w (losses ++ [loss])
  end.

Definition train_one_epoch (w : world) (dl : dataloader)
  : result (float * world) :=
  let '(losses, w) := train_loop dl w [] in
  avg_loss ← Py.mean losses;
  Ok (avg_loss, w).

(** *** Evaluator *)

(** The body of the [for] loop of [validate]. *)
Definition validate_batch (batch : act) (y : labels) (w : world)
  : result (float * float * world) :=
  let '(preds, w) := call_model batch w in
  let loss := cross_entropy preds y in
  accuracy ← Py.int_truediv (n_correct preds y) (Z.pos (len_labels y));
  Ok (loss, accuracy, w).

Fixpoint validate_loop (dl : dataloader) (w : world)
    (losses accuracies : list float)
  : result (list float * list float * world) :=
  match dl with
  | [] => Ok (losses, accuracies, w)
  | (batch, y) :: dl' =>
      '(loss, accuracy, w) ← validate_batch batch y w;
      validate_loop dl' w (losses ++ [loss]) (accuracies ++ [accuracy])
  end.

Definition validate (w : world) (dl : dataloader)
  : result (float * float * world) :=
  let w := model_eval w in
  '(losses, accuracies, w) ← validate_loop dl w [] [];
  let w := model_train w in
  avg_loss ← Py.mean losses;
  avg_acc ← Py.mean accuracies;
  Ok (avg_loss, avg_acc, w).

(** *** Training orchestrator *)

(** An observer receives the model (in the state), the epoch, the two
    history lists themselves and the last validation accuracy; it may
    raise, and it may change the state and the lists it was handed. *)
Definition observer : Type :=
  Z -> list float -> list float -> float -> state ->
  result (state * (list float * list float)).

Fixpoint train_epochs (callback : observer)
    (train_loader val_loader : dataloader) (epochs : list Z) (w : world)
    (train_losses val_losses : list float)
  : result (list float * list float * world) :=
  match epochs with
  | [] => Ok (train_losses, val_losses, w)
  | epoch :: epochs' =>
      '(train_loss, w) ← train_one_epoch w train_loader;
      '(val_loss, val_acc, w) ← validate w val_loader;
      let train_losses := train_losses ++ [train_loss] in
      let val_losses := val_losses ++ [val_loss] in
      '(s, (train_losses, val_losses)) ←
        callback epoch train_losses val_losses val_acc (st w);
      train_epochs callback train_loader val_loader epochs'
        (World s (trace w ++ [EvObserver epoch])) train_losses val_losses
  end.

Definition train (w : world) (train_loader val_loader : dataloader)
    (n_epochs : Z) (callback : observer)
  : result (list float * list float * world) :=
  train_epochs callback train_loader val_loader (Py.range n_epochs) w [] [].

(** *** Observers *)

Definition print (m : message) (s : state) : state :=
  State (net s) (training s) (grads s) (opt s) (rng s) (files s)
        (stdout s ++ [m]).

Definition print_loss_every_n_epochs (n : Z) : observer :=
  fun epoch train_losses val_losses val_acc s =>
    r ← Py.int_mod epoch n;
    if (r =? 0)%Z then
      tl ← Py.last_item train_losses;
      vl ← Py.last_item val_losses;
      Ok (print (MsgEpoch epoch tl vl val_acc) s,
          (train_losses, val_losses))
    else Ok (s, (train_losses, val_losses)).

(** [torch.save(sd, filename)] *)
Definition torch_save (sd : snapshot) (filename : string) (s : state)
  : state :=
  State (net s) (training s) (grads s) (opt s) (rng s)
        (<[filename := sd]> (files s)) (stdout s).

(** [val_losses[-1] == min(val_losses)] *)
Definition improved (val_losses : list float) : result bool :=
  last ← Py.last_item val_losses;
  best ← Py.min val_losses;
  Ok (last =? best)%float.

Definition save_model_if_improved (filename : string) : observer :=
  fun epoch train_losses val_losses val_acc s =>
    b ← improved val_losses;
    if b : bool then
      last ← Py.last_item val_losses;
      let s := print (MsgNewBest epoch last) s in
      Ok (torch_save (state_dict (net s)) filename s,
          (train_losses, val_losses))
    else Ok (s, (train_losses, val_losses)).

(** [torch.load(path)] *)
Definition torch_load (path : string) (s : state) : result snapshot :=
  match files s !! path with
  | Some sd => Ok sd
  | None => Raise FileNotFoundError
  end.

Definition load_model (model_file_path : string) (s : state)
  : result state :=
  sd ← torch_load model_file_path s;
  m ← load_state_dict sd (net s);
  Ok (State m (training s) (grads s) (opt s) (rng s) (files s) (stdout s)).

(** *** Reference definitions for the statements *)

(** Loss and accuracy of one batch under the parameters of [m], dropout
    inactive. *)
Definition batch_loss (m : module values) (b : act * labels) : float :=
  cross_entropy (infer m (fst b)) (snd b).

Definition batch_accuracy (m : module values) (b : act * labels) : float :=
  (Py.of_int (n_correct (infer m (fst b)) (snd b))
   / Py.of_int (Z.pos (len_labels (snd b))))%float.

(** The world after the update on one batch, and the losses met along a
    sequence of such updates. *)
Definition train_step (w : world) (b : act * labels) : world :=
  snd (train_batch (fst b) (snd b) w).

Fixpoint epoch_losses (w : world) (dl : dataloader) : list float :=
  match dl with
  | [] => []
  | b :: dl' =>
      fst (train_batch (fst b) (snd b) w) :: epoch_losses (train_step w b) dl'
  end.

(** The framework calls of one training batch, of one evaluation, and of
    one epoch of the orchestrator. *)
Definition batch_events (b : act * labels) : list event :=
  [EvZeroGrad; EvForward (fst b); EvBackward; EvStep].

Definition validate_events (dl : dataloader) : list event :=
  [EvEvalMode] ++ map (fun b => EvForward (fst b)) dl ++ [EvTrainMode].

Definition epoch_events (train_loader val_loader : dataloader) (epoch : Z)
  : list event :=
  flat_map batch_events train_loader ++ validate_events val_loader
  ++ [EvObserver epoch].


(** Accuracy with every sample weighted equally: all correct predictions
    over all samples.  (Not what [validate] returns.) *)
Definition sample_weighted_accuracy (m : module values) (dl : dataloader)
  : result float :=
  Py.int_truediv
    (fold_right Z.add 0 (map (fun b => n_correct (infer m (fst b)) (snd b)) dl))
    (fold_right Z.add 0 (map (fun b => Z.pos (len_labels (snd b))) dl)).

(** What a caller of [validate] gets: the pair of averages, or the
    exception. *)
Definition outcome (r : result (float * float * world))
  : result (float * float) :=
  '(avg_loss, avg_acc, _) ← r; Ok (avg_loss, avg_acc).

(** An observer that returns normally and hands back the history lists as
    it got them, whenever they are not empty. *)
Definition well_behaved (callback : observer) : Prop :=
  forall epoch train_losses val_losses val_acc s,
    train_losses <> [] -> val_losses <> [] ->
    exists s', callback epoch train_losses val_losses val_acc s
               = Ok (s', (train_losses, val_losses)).

End Notebook.

(** ** The rest of the notebook: plots, cells of the script, data *)

(** *** Plots *)

(** Calls into the plotting library; [T] is what the title shows. *)
Inductive plot_call (T : Type) : Type :=
| PltClf
| PltPlot (ys : list float) (label : string)
| PltAxhline (y : float)
| PltLegend
| PltTitle (title : T)
| PltShow.

Arguments PltClf {T}.
Arguments PltPlot {T} ys label.
Arguments PltAxhline {T} y.
Arguments PltLegend {T}.
Arguments PltTitle {T} title.
Arguments PltShow {T}.

(** [plot_train_and_val_loss]: the calls it made, and whether it returned;
    [min(val_l)] raises on an empty history, after the figure was cleared
    and the two curves were drawn. *)
Definition plot_train_and_val_loss {T : Type} (train_l val_l : list float)
    (title : T) : list (plot_call T) * result unit :=
  let curves := [PltClf; PltPlot train_l "Train loss";
                 PltPlot val_l "Validation loss"] in
  match Py.min val_l with
  | Raise e => (curves, Raise e)
  | Ok lowest =>
      (curves ++ [PltAxhline lowest; PltLegend; PltTitle title; PltShow],
       Ok tt)
  end.

(** [plot_train_and_val_loss(train_losses, val_losses,
    title=f"min. validation loss: {min(val_losses):.4f}")]: the title is
    computed before the call; the result is the figure. *)
Definition plot_losses (train_losses val_losses : list float)
  : result (list (plot_call float)) :=
  lowest ← Py.min val_losses;
  let '(calls, r) := plot_train_and_val_loss train_losses val_losses lowest in
  _ ← r;
  Ok calls.

(** *** The first four samples *)

(** A batch of images is a list of samples along its first dimension, a
    sample the list of its channels; the labels of a batch are a list.
    What [visualize_first_4] can raise: an exception of the list above, or
    [UnboundLocalError]. *)
Inductive viz_exn : Type :=
| Builtin (e : exn)
| UnboundLocalError.

(** What it prints and draws; [VizPrintShape] carries the batch whose shape
    is printed. *)
Inductive viz_call (I L : Type) : Type :=
| VizPrintShape (batch : list (list I))
| VizSubplots (rows cols : Z)
| VizImshow (i j : Z) (picture : I)
| VizSetTitle (i j : Z) (label : L)
| VizTickParams (i j : Z)
| VizShow.

Arguments VizPrintShape {I L} batch.
Arguments VizSubplots {I L} rows cols.
Arguments VizImshow {I L} i j picture.
Arguments VizSetTitle {I L} i j label.
Arguments VizTickParams {I L} i j.
Arguments VizShow {I L}.

(** [l[k]] on a list or along the first dimension of a tensor. *)
Definition item {A : Type} (l : list A) (k : Z) : result A :=
  let i := if k <? 0 then Z.of_nat (length l) + k else k in
  if i <? 0 then Raise IndexError
  else match nth_error l (Z.to_nat i) with
       | Some x => Ok x
       | None => Raise IndexError
       end.

(** [itertools.product(xs, ys)] *)
Definition product {A B : Type} (xs : list A) (ys : list B) : list (A * B) :=
  flat_map (fun x => map (fun y => (x, y)) ys) xs.

(** The [for i, j in ...] loop of [visualize_first_4]: the calls made, and
    the exception that ended them, if any. *)
Fixpoint visualize_panels {I L : Type} (batch : list (list I))
    (labels : list L) (cells : list (Z * Z))
  : list (viz_call I L) * option viz_exn :=
  match cells with
  | [] => ([], None)
  | (i, j) :: cells' =>
      match item batch (2 * i + j) with
      | Raise e => ([], Some (Builtin e))
      | Ok sample =>
          match item sample 0 with
          | Raise e => ([], Some (Builtin e))
          | Ok picture =>
              match item labels (2 * i + j) with
              | Raise e => ([VizImshow i j picture], Some (Builtin e))
              | Ok label =>
                  let '(calls, r) := visualize_panels batch labels cells' in
                  (VizImshow i j picture :: VizSetTitle i j label
                   :: VizTickParams i j :: calls, r)
              end
          end
      end
  end.

(** [for batch, labels in dataloader: break] binds nothing on an empty
    loader. *)
Definition visualize_first_4 {I L : Type}
    (dataloader : list (list (list I) * list L))
  : list (viz_call I L) * option viz_exn :=
  match dataloader with
  | [] => ([], Some UnboundLocalError)
  | (batch, labels) :: _ =>
      let '(calls, r) :=
        visualize_panels batch labels (product [0; 1] [0; 1]) in
      (VizPrintShape batch :: VizSubplots 2 2 :: calls
       ++ match r with None => [VizShow] | Some _ => [] end, r)
  end.

Section Script.
Context {FW : Framework}.

(** *** Cells of the script *)

(** [model = factory(...); optimizer = SGD(model.parameters(), lr=LR)]: a
    new model in training mode, without gradients, with a new optimizer;
    generator, files and output are those of the session. *)
Definition new_learner (model : module values) (optimizer : optim) (g : gen)
    (s : state) : state :=
  State model true None optimizer g (files s) (stdout s).

(** The cell that trains with the reporting observer and plots the losses
    (the notebook has [n = 1] and ten epochs). *)
Definition reporting_cell (hidden_dims : list Z) (optimizer : optim)
    (train_loader val_loader : dataloader) (n_epochs n : Z) (s : state)
  : result (list float * list float * list (plot_call float) * world) :=
  '(model, g) ← create_model hidden_dims (rng s);
  '(train_losses, val_losses, w) ←
    train (World (new_learner model optimizer g s) []) train_loader
      val_loader n_epochs (print_loss_every_n_epochs n);
  figure ← plot_losses train_losses val_losses;
  Ok (train_losses, val_losses, figure, w).

(** The cells that train with the checkpoint policy, plot the losses, build
    a second model with the same factory, load the file into it and
    evaluate it on the test loader.  The result is the pair the notebook
    prints, with the figure and the world after the evaluation. *)
Definition checkpoint_cells (factory : gen -> result (module values * gen))
    (optimizer : optim) (filename : string)
    (train_loader val_loader test_loader : dataloader) (n_epochs : Z)
    (s : state)
  : result (float * float * list (plot_call float) * world) :=
  '(model, g) ← factory (rng s);
  '(train_losses, val_losses, w) ←
    train (World (new_learner model optimizer g s) []) train_loader
      val_loader n_epochs (save_model_if_improved filename);
  figure ← plot_losses train_losses val_losses;
  '(pretrained_model, g) ← factory (rng (st w));
  s1 ← load_model filename
         (new_learner pretrained_model (opt (st w)) g (st w));
  '(test_loss, test_accuracy, w1) ← validate (World s1 (trace w)) test_loader;
  Ok (test_loss, test_accuracy, figure, w1).

Definition early_stopping_cells (hidden_dims : list Z) :=
  checkpoint_cells (create_model hidden_dims).






(** *** Reference definitions for the statements *)

(** The loss [validate] returns for the parameters of [m] on a non-empty
    sequence. *)
Definition val_loss (m : module values) (dl : dataloader) : float :=
  (Py.sum (map (batch_loss m) dl) / Py.of_int (Z.of_nat (length dl)))%float.

Definition val_accuracy (m : module values) (dl : dataloader) : float :=
  (Py.sum (map (batch_accuracy m) dl)
   / Py.of_int (Z.of_nat (length dl)))%float.

(** States that agree on the model, its mode and gradients, the optimizer
    and the generator; they may differ in files and output. *)
Definition same_learner (s s' : state) : Prop :=
  net s = net s' /\ training s = training s' /\ grads s = grads s'
  /\ opt s = opt s' /\ rng s = rng s'.

(** An observer that returns normally on non-empty histories, hands them
    back as it got them and leaves the learner as it was. *)
Definition passive (callback : observer) : Prop :=
  forall epoch train_losses val_losses val_acc s,
    train_losses <> [] -> val_losses <> [] ->
    exists s', callback epoch train_losses val_losses val_acc s
               = Ok (s', (train_losses, val_losses))
               /\ same_learner s s'.

(** The epochs reported by the reporting observer and the losses reported
    by the checkpoint policy, read off the output. *)
Definition printed_epochs (out : list message) : list Z :=
  flat_map (fun m => match m with MsgEpoch e _ _ _ => [e] | _ => [] end) out.

Definition reported_losses (out : list message) : list float :=
  flat_map (fun m => match m with MsgNewBest _ v => [v] | _ => [] end) out.

(** Each float of the list is at most the one before it. *)
Fixpoint non_increasing (l : list float) : Prop :=
  match l with
  | x :: (y :: _) as l' => (y <=? x)%float = true /\ non_increasing l'
  | _ => True
  end.

(** What holds of the state [s] after each call of the checkpoint policy
    for the file [filename], once a first loss that is not NaN was seen:
    [val_losses] is the history so far and [out0] the output before the
    run.  The file holds the parameters of a model of the current
    architecture whose validation loss equals ([==]) the minimum of the
    history, and that loss is the last one of the run's reports, which
    never go up. *)
Definition checkpoint_invariant (filename : string) (val_loader : dataloader)
    (out0 : list message) (s : state) (val_losses : list float) : Prop :=
  exists (m : module values) (best : float) (msgs : list message),
    files s !! filename = Some (state_dict m)
    /\ skeleton m = skeleton (net s)
    /\ Py.min val_losses = Ok best
    /\ (val_loss m val_loader =? best)%float = true
    /\ stdout s = out0 ++ msgs
    /\ non_increasing (reported_losses msgs)
    /\ last (reported_losses msgs) = Some (val_loss m val_loader).

(** What the run keeps of the state and the validation history [b] so far,
    for the output [out0] before the run. *)
Definition checkpoint_progress (filename : string) (val_loader : dataloader)
    (out0 : list message) (files0 : gmap string snapshot) (s : state)
    (b : list float) : Prop :=
  (b = [] -> stdout s = out0 /\ files s = files0)
  /\ (forall v0 rest, b = v0 :: rest ->
      (Py.not_nan v0 -> checkpoint_invariant filename val_loader out0 s b)
      /\ (~ Py.not_nan v0 -> stdout s = out0 /\ files s = files0)).

(** Each affine layer takes the width the one before it gives. *)
Fixpoint chained (dims : list (Z * Z)) : Prop :=
  match dims with
  | (_, o) :: ((i, _) :: _) as dims' => o = i /\ chained dims'
  | _ => True
  end.

(** The layers the two factories build, in the order they are applied:
    [dropout] is what follows each ReLU, nothing or one dropout layer. *)
Definition hidden_layers (dropout : list arch) (io : Z * Z) : list arch :=
  [ALinear (fst io) (snd io) [snd io; fst io] [snd io]; AReLU] ++ dropout.

Definition factory_layers (dropout : list arch) (hidden_dims : list Z)
  : list arch :=
  AFlatten
  :: hidden_layers dropout (28 * 28, default 0 (head hidden_dims))
  ++ flat_map (hidden_layers dropout) (width_pairs hidden_dims)
  ++ [ALinear (default 0 (last hidden_dims)) 10
        [10; default 0 (last hidden_dims)] [10]].

(** Input and output width of the affine layers of a list of layers. *)
Definition arch_dims (layers : list arch) : list (Z * Z) :=
  flat_map (fun a => match a with
                     | ALinear i o _ _ => [(i, o)]
                     | _ => []
                     end) layers.

(** A model without dropout layers. *)
Definition no_dropout (m : module values) : Prop :=
  Forall (fun l => match l with Dropout _ => False | _ => True end) (leaves m).

End Script.

(** ** A small framework instance to run the notebook on *)

Module Toy.

(** Activations are floats; an affine layer outputs its weight, the loss is
    the logit, a batch of labels is its length with the number of correct
    predictions, and the optimizer installs the next value of a schedule in
    every parameter. *)
Definition framework : Framework := {|
  act := float;
  labels := positive * Z;
  values := float;
  grad := unit;
  optim := list float;
  gen := nat;
  init_linear := fun _ _ g => (Py.of_int (Z.of_nat g), 0%float, S g);
  flatten_op := fun x => x;
  linear_op := fun w _ _ => data w;
  relu_op := fun x => x;
  dropout_op := fun _ g x => (x, S g);
  cross_entropy := fun preds _ => preds;
  n_correct := fun _ y => snd y;
  len_labels := fun y => fst y;
  backward_op := fun _ _ _ _ _ _ => tt;
  step_op := fun o _ _ v => hd v o;
  step_optim := fun o _ => tl o;
|}.

#[local] Existing Instance framework.

(** [create_model([64, 32])], an empty model when the factory raises. *)
Definition model : module float :=
  match create_model [64; 32] 0%nat with
  | Ok (m, _) => m
  | Raise _ => Sequential []
  end.

Definition model_with_dropout : module float :=
  match create_model_with_dropout [64; 32] 0.8%float 0%nat with
  | Ok (m, _) => m
  | Raise _ => Sequential []
  end.

Definition small_model : module float :=
  match create_model [64] 0%nat with
  | Ok (m, _) => m
  | Raise _ => Sequential []
  end.

(** A fresh world: the model in the given mode, an optimizer with the given
    schedule, no file, nothing printed. *)
Definition init (m : module float) (mode : bool) (schedule : list float)
  : world :=
  World (State m mode None schedule 0%nat ∅ []) [].

(** The model in training mode, before any training. *)
Definition start : world := init model true [].

(** One batch of four samples, two of them classified correctly. *)
Definition loader : dataloader := [(1%float, (4%positive, 2))].

(** A batch of one sample, classified correctly, and a batch of three
    samples, none classified correctly. *)
Definition uneven_loader : dataloader :=
  [(1%float, (1%positive, 1)); (1%float, (3%positive, 0))].

(** The state after one epoch of training towards the value 0.9, and a
    fresh model of the same architecture next to the file saved from it. *)
Definition trained : state :=
  st (fold_left train_step loader (init model true [0.9%float])).

Definition reloading : state :=
  State model true None [] 0%nat
        (files (torch_save (state_dict (net trained)) "early_stopping.pth"
                  trained)) [].


(** A run of three epochs: the optimizer installs 0.9, then 0.7, then 0.8,
    so that the second epoch is the best one. *)
Definition schedule : list float := [0.9; 0.7; 0.8]%float.

Definition scheduled : world := init model true schedule.

(** The model with dropout layers, in evaluation mode. *)
Definition evaluating : world := init model_with_dropout false [].

(** Three samples of one channel each, with their labels. *)
Definition short_batch : list (list Z) * list Z :=
  ([[10]; [11]; [12]], [7; 8; 9]).

(** The fresh model after the file was loaded into it; a learner of the
    same architecture with other parameters, mode, optimizer and generator
    next to the same file; and the model with dropout layers next to a file
    saved from the model without. *)
Definition reloaded : state :=
  State (net trained) true None [] 0%nat (files reloading) [].

Definition other_learner : state :=
  State (net trained) false None [0.5%float] 7%nat (files reloading) [].

Definition mismatched : state :=
  torch_save (state_dict model) "dropout.pth" (st evaluating).

End Toy.

(** * Properties *)

(** ** Results *)

Lemma bind_Ok {A B : Type} (r : result A) (k : A -> result B) (b : B) :
  r ≫= k = Ok b -> exists a, r = Ok a /\ k a = Ok b.
Proof. destruct r as [a|e]; simpl; intros H; [eauto | discriminate]. Qed.

(** ** The order of floats, through the specification of the primitives *)

Module PyFacts.
Import Py.

Ltac cmp_cases :=
  repeat match goal with
  | |- context [Z.compare ?a ?b] => destruct (Z.compare_spec a b)
  | H : context [Z.compare ?a ?b] |- _ => destruct (Z.compare_spec a b)
  | |- context [Pos.compare_cont Eq ?a ?b] =>
      change (Pos.compare_cont Eq a b) with (Pos.compare a b);
      destruct (Pos.compare_spec a b)
  | H : context [Pos.compare_cont Eq ?a ?b] |- _ =>
      change (Pos.compare_cont Eq a b) with (Pos.compare a b) in H;
      destruct (Pos.compare_spec a b)
  end.

Ltac sf_cases x := destruct x as [[]|[]| |[] ? ?].

Ltac sf_order :=
  simpl; try discriminate; try reflexivity; intros;
  cmp_cases; simpl in *; subst; try discriminate; try reflexivity; try lia.

Lemma SFleb_trans (x y z : spec_float) :
  SFleb x y = true -> SFleb y z = true -> SFleb x z = true.
Proof. unfold SFleb. sf_cases x; sf_cases y; sf_cases z; sf_order. Qed.

Lemma SFleb_antisym (x y : spec_float) :
  SFleb x y = true -> SFleb y x = true -> SFeqb x y = true.
Proof. unfold SFleb, SFeqb. sf_cases x; sf_cases y; sf_order. Qed.

Lemma SFeqb_leb (x y : spec_float) : SFeqb x y = true -> SFleb x y = true.
Proof. unfold SFleb, SFeqb. sf_cases x; sf_cases y; sf_order. Qed.

Lemma SFltb_leb (x y : spec_float) : SFltb x y = true -> SFleb x y = true.
Proof. unfold SFleb, SFltb. sf_cases x; sf_cases y; sf_order. Qed.

Lemma SFleb_not_ltb (x y : spec_float) :
  SFleb x y = true -> SFltb y x = false.
Proof. unfold SFleb, SFltb. sf_cases x; sf_cases y; sf_order. Qed.

Lemma SFltb_not_ltb (x y : spec_float) :
  SFltb x y = true -> SFltb y x = false.
Proof. unfold SFltb. sf_cases x; sf_cases y; sf_order. Qed.

Lemma SFnot_ltb_leb (x y : spec_float) :
  SFeqb x x = true -> SFeqb y y = true ->
  SFltb x y = false -> SFleb y x = true.
Proof. unfold SFleb, SFltb, SFeqb. sf_cases x; sf_cases y; sf_order. Qed.

Lemma leb_trans (x y z : float) :
  (x <=? y)%float = true -> (y <=? z)%float = true -> (x <=? z)%float = true.
Proof. rewrite !FloatAxioms.leb_spec. apply SFleb_trans. Qed.

Lemma leb_antisym (x y : float) :
  (x <=? y)%float = true -> (y <=? x)%float = true -> (x =? y)%float = true.
Proof.
  rewrite !FloatAxioms.leb_spec, FloatAxioms.eqb_spec. apply SFleb_antisym.
Qed.

Lemma eqb_leb (x y : float) :
  (x =? y)%float = true -> (x <=? y)%float = true.
Proof. rewrite FloatAxioms.leb_spec, FloatAxioms.eqb_spec. apply SFeqb_leb. Qed.

Lemma ltb_leb (x y : float) :
  (x <? y)%float = true -> (x <=? y)%float = true.
Proof. rewrite FloatAxioms.leb_spec, FloatAxioms.ltb_spec. apply SFltb_leb. Qed.

Lemma leb_not_ltb (x y : float) :
  (x <=? y)%float = true -> (y <? x)%float = false.
Proof.
  rewrite FloatAxioms.leb_spec, FloatAxioms.ltb_spec. apply SFleb_not_ltb.
Qed.

Lemma ltb_not_ltb (x y : float) :
  (x <? y)%float = true -> (y <? x)%float = false.
Proof. rewrite !FloatAxioms.ltb_spec. apply SFltb_not_ltb. Qed.

Lemma not_ltb_leb (x y : float) :
  not_nan x -> not_nan y -> (x <? y)%float = false -> (y <=? x)%float = true.
Proof.
  unfold not_nan.
  rewrite !FloatAxioms.eqb_spec, FloatAxioms.ltb_spec, FloatAxioms.leb_spec.
  apply SFnot_ltb_leb.
Qed.

Lemma leb_refl (x : float) : not_nan x -> (x <=? x)%float = true.
Proof. intros H. apply eqb_leb, H. Qed.

Lemma SFnan_ltb (x y : spec_float) :
  SFeqb y y = false -> SFltb x y = false.
Proof. unfold SFltb, SFeqb. sf_cases x; sf_cases y; sf_order. Qed.

Lemma SFnan_eqb (x y : spec_float) :
  SFeqb y y = false -> SFeqb x y = false.
Proof. unfold SFeqb. sf_cases x; sf_cases y; sf_order. Qed.

Lemma nan_ltb (x m : float) : ~ not_nan m -> (x <? m)%float = false.
Proof.
  unfold not_nan. rewrite FloatAxioms.eqb_spec, FloatAxioms.ltb_spec. intros H.
  apply SFnan_ltb. destruct (SFeqb (Prim2SF m) (Prim2SF m)); congruence.
Qed.

Lemma nan_eqb (x m : float) : ~ not_nan m -> (x =? m)%float = false.
Proof.
  unfold not_nan. rewrite !FloatAxioms.eqb_spec. intros H.
  apply SFnan_eqb. destruct (SFeqb (Prim2SF m) (Prim2SF m)); congruence.
Qed.

Lemma min_from_nan (l : list float) (m : float) :
  ~ not_nan m -> min_from m l = m.
Proof.
  intros H. induction l as [|x l IH]; simpl; [reflexivity | ].
  rewrite (nan_ltb x m H). exact IH.
Qed.

Lemma min_from_spec (l : list float) : forall m : float,
  Forall not_nan (m :: l) ->
  not_nan (min_from m l) /\ min_from m l ∈ m :: l
  /\ Forall (fun x => (min_from m l <=? x)%float = true) (m :: l).
Proof.
  induction l as [|x l IH]; intros m Hn; simpl.
  - inversion Hn; subst. repeat split; [assumption | left | ].
    constructor; [now apply leb_refl | constructor].
  - inversion Hn as [|? ? Hm Hxl]; subst. inversion Hxl as [|? ? Hx Hl]; subst.
    set (m' := if (x <? m)%float then x else m).
    assert (Hm' : not_nan m')
      by (unfold m'; destruct (x <? m)%float; assumption).
    assert (Hle : (m' <=? m)%float = true /\ (m' <=? x)%float = true).
    { unfold m'. destruct (x <? m)%float eqn:E.
      - split; [now apply ltb_leb | now apply leb_refl].
      - split; [now apply leb_refl | now apply not_ltb_leb]. }
    destruct (IH m') as (Hr & Hin & Hall); [constructor; assumption | ].
    inversion Hall as [|? ? Hrm' Hrl]; subst.
    repeat split; [assumption | | ].
    + apply elem_of_cons in Hin as [-> | Hin].
      * unfold m'. destruct (x <? m)%float; [right; left | left].
      * right; right; assumption.
    + destruct Hle as [H1 H2].
      constructor; [eapply leb_trans; eauto | ].
      constructor; [eapply leb_trans; eauto | assumption].
Qed.

Lemma last_item_app {A : Type} (l : list A) (x : A) :
  last_item (l ++ [x]) = Ok x.
Proof. unfold last_item. rewrite rev_unit. reflexivity. Qed.

Lemma last_item_nonempty {A : Type} (l : list A) :
  l <> [] -> exists l' x, l = l' ++ [x] /\ last_item l = Ok x.
Proof.
  intros H. destruct (exists_last H) as (l' & x & ->).
  exists l', x. split; [reflexivity | apply last_item_app].
Qed.

Lemma last_item_nil {A : Type} : last_item (@nil A) = Raise IndexError.
Proof. reflexivity. Qed.

Lemma mean_nonempty (l : list float) :
  l <> [] ->
  mean l = Ok (sum l / of_int (Z.of_nat (length l)))%float.
Proof.
  intros H. unfold mean, div_int.
  destruct (Z.eqb_spec (Z.of_nat (length l)) 0) as [E|E]; [ | reflexivity].
  destruct l; [congruence | simpl in E; lia].
Qed.

Lemma mean_nil : mean [] = Raise ZeroDivisionError.
Proof. reflexivity. Qed.

Lemma fold_add_up (l : list float) :
  forall total : float, fold_left PrimFloat.add l total = add_up total l.
Proof. induction l as [|x l IH]; intros total; [reflexivity | apply IH]. Qed.

Lemma of_int_nat (n : nat) : of_int (Z.of_nat n) = float_of_nat n.
Proof.
  unfold of_int, float_of_nat.
  destruct (Z.ltb_spec (Z.of_nat n) 0) as [H|_]; [lia | reflexivity].
Qed.

(** The mean of the code is the arithmetic mean, added up without
    compensation. *)
Lemma mean_arithmetic (l : list float) :
  l <> [] -> mean l = Ok (arithmetic_mean false l).
Proof.
  intros H. rewrite (mean_nonempty l H). unfold arithmetic_mean, sum.
  rewrite fold_add_up, of_int_nat. reflexivity.
Qed.

End PyFacts.

(** ** Models *)

(** Structural induction on models, through the children of a container. *)
Lemma module_ind' {V : Type} (P : module V -> Prop) :
  P Flatten ->
  (forall i o w b, P (Linear i o w b)) ->
  P ReLU ->
  (forall p, P (Dropout p)) ->
  (forall ms, Forall P ms -> P (Sequential ms)) ->
  forall m, P m.
Proof.
  intros HF HL HR HD HS.
  fix IH 1. intros [ | i o w b | | p | ms].
  - exact HF.
  - apply HL.
  - exact HR.
  - apply HD.
  - apply HS.
    induction ms as [|c ms IHms]; constructor; [apply IH | exact IHms].
Qed.

Section ModelFacts.
Context {V : Type}.
Implicit Types (m : module V) (sd : gmap pkey (tensor V)).

Lemma state_dict_at_Sequential (prefix : list nat) (ms : list (module V)) :
  state_dict_at prefix (Sequential ms) = state_dict_children prefix 0 ms.
Proof.
  simpl. generalize 0%nat.
  induction ms as [|c ms IH]; intros i; simpl; [ | rewrite IH]; reflexivity.
Qed.

Lemma assign_at_Sequential sd (prefix : list nat) (ms : list (module V)) :
  assign_at sd prefix (Sequential ms)
  = Sequential (assign_children sd prefix 0 ms).
Proof.
  simpl. f_equal. generalize 0%nat.
  induction ms as [|c ms IH]; intros i; simpl; [ | rewrite IH]; reflexivity.
Qed.

Lemma map_params_Sequential (f : pkey -> V -> V) (prefix : list nat)
    (ms : list (module V)) :
  map_params f prefix (Sequential ms)
  = Sequential (map_params_children f prefix 0 ms).
Proof.
  simpl. f_equal. generalize 0%nat.
  induction ms as [|c ms IH]; intros i; simpl; [ | rewrite IH]; reflexivity.
Qed.

(** Every key of a layer's entries starts with the position of the layer. *)
Lemma state_dict_at_prefix m :
  forall (prefix : list nat) (k : pkey) (t : tensor V),
    state_dict_at prefix m !! k = Some t -> prefix `prefix_of` k.1.
Proof.
  induction m as [ | i o w b | | p | ms IH] using module_ind';
    intros prefix k t; try (simpl; rewrite lookup_empty; discriminate).
  - simpl. intros H.
    apply lookup_insert_Some in H as [[<- _] | [_ H]]; [reflexivity | ].
    apply lookup_insert_Some in H as [[<- _] | [_ H]]; [reflexivity | ].
    rewrite lookup_empty in H. discriminate.
  - rewrite state_dict_at_Sequential. generalize 0%nat.
    induction IH as [|c ms Hc _ IHms]; intros i; simpl.
    + rewrite lookup_empty. discriminate.
    + intros H. apply lookup_union_Some_raw in H as [H | [_ H]].
      * apply Hc in H. etransitivity; [ | exact H]. now apply prefix_app_r.
      * eapply IHms, H.
Qed.

Lemma state_dict_children_prefix (ms : list (module V)) :
  forall (prefix : list nat) (i : nat) (k : pkey) (t : tensor V),
    state_dict_children prefix i ms !! k = Some t ->
    exists j : nat, (i <= j)%nat /\ (prefix ++ [j]) `prefix_of` k.1.
Proof.
  induction ms as [|c ms IH]; intros prefix i k t; simpl.
  - rewrite lookup_empty. discriminate.
  - intros H. apply lookup_union_Some_raw in H as [H | [_ H]].
    + exists i. split; [lia | ]. eapply state_dict_at_prefix, H.
    + destruct (IH _ _ _ _ H) as (j & Hj & Hp).
      exists j. split; [lia | exact Hp].
Qed.

Lemma state_dict_children_disjoint (prefix : list nat) (i : nat) (c : module V)
    (ms : list (module V)) :
  state_dict_at (prefix ++ [i]) c ##ₘ state_dict_children prefix (S i) ms.
Proof.
  apply map_disjoint_spec. intros k t1 t2 H1 H2.
  apply state_dict_at_prefix in H1.
  destruct (state_dict_children_prefix _ _ _ _ _ H2) as (j & Hj & Hp).
  destruct H1 as [r1 E1]. destruct Hp as [r2 E2]. rewrite E1 in E2.
  rewrite <- !app_assoc in E2. apply app_inv_head in E2.
  simpl in E2. inversion E2. lia.
Qed.

Lemma assign_tensor_lookup sd (k : pkey) (t t0 : tensor V) :
  sd !! k = Some t -> assign_tensor sd k t0 = t.
Proof. unfold assign_tensor. intros ->. reflexivity. Qed.

(** Loading the state dict of [m] into a model of the same architecture
    gives [m]. *)
Lemma assign_at_state_dict m :
  forall (m0 : module V) (prefix : list nat) sd,
    skeleton m0 = skeleton m -> state_dict_at prefix m ⊆ sd ->
    assign_at sd prefix m0 = m.
Proof.
  induction m as [ | i o w b | | p | ms IH] using module_ind';
    intros m0 prefix sd Hsk Hsub;
    destruct m0 as [ | i0 o0 w0 b0 | | p0 | ms0]; try discriminate Hsk;
    try reflexivity.
  - simpl in *. inversion Hsk; subst.
    rewrite (assign_tensor_lookup sd (prefix, Weight) w w0),
      (assign_tensor_lookup sd (prefix, Bias) b b0); [reflexivity | | ].
    + eapply lookup_weaken; [ | exact Hsub].
      rewrite lookup_insert_ne by congruence. apply lookup_insert_eq.
    + eapply lookup_weaken; [ | exact Hsub]. apply lookup_insert_eq.
  - simpl in Hsk. inversion Hsk; subst. reflexivity.
  - rewrite assign_at_Sequential. rewrite state_dict_at_Sequential in Hsub.
    simpl in Hsk. injection Hsk as Hsk. f_equal.
    revert ms0 Hsk Hsub. generalize 0%nat.
    induction IH as [|c ms Hc _ IHms]; intros i ms0 Hsk Hsub;
      destruct ms0 as [|c0 ms0]; try discriminate Hsk; [reflexivity | ].
    simpl in *. injection Hsk as Hc0 Hms0. f_equal.
    + apply Hc; [exact Hc0 | ].
      etransitivity; [apply map_union_subseteq_l | exact Hsub].
    + apply IHms; [exact Hms0 | ].
      etransitivity; [ | exact Hsub].
      apply map_union_subseteq_r, state_dict_children_disjoint.
Qed.

(** Models of one architecture have the same parameter names and shapes. *)
Lemma skeleton_shapes m :
  forall (m0 : module V) (prefix : list nat),
    skeleton m0 = skeleton m ->
    shape <$> state_dict_at prefix m0 = shape <$> state_dict_at prefix m.
Proof.
  induction m as [ | i o w b | | p | ms IH] using module_ind';
    intros m0 prefix Hsk;
    destruct m0 as [ | i0 o0 w0 b0 | | p0 | ms0]; try discriminate Hsk;
    try reflexivity.
  - simpl in *. inversion Hsk as [[Hi Ho Hw Hb]].
    rewrite !fmap_insert, !fmap_empty, Hw, Hb. reflexivity.
  - rewrite !state_dict_at_Sequential. simpl in Hsk. injection Hsk as Hsk.
    revert ms0 Hsk. generalize 0%nat.
    induction IH as [|c ms Hc _ IHms]; intros i ms0 Hsk;
      destruct ms0 as [|c0 ms0]; try discriminate Hsk; [reflexivity | ].
    simpl in *. injection Hsk as Hc0 Hms0.
    rewrite !map_fmap_union, (Hc c0 _ Hc0), (IHms _ _ Hms0). reflexivity.
Qed.

(** An optimizer step rewrites contents, not the architecture. *)
Lemma skeleton_map_params (f : pkey -> V -> V) m :
  forall prefix : list nat, skeleton (map_params f prefix m) = skeleton m.
Proof.
  induction m as [ | i o w b | | p | ms IH] using module_ind';
    intros prefix; try reflexivity.
  rewrite map_params_Sequential. simpl. f_equal. generalize 0%nat.
  induction IH as [|c ms Hc _ IHms]; intros i; simpl; [reflexivity | ].
  rewrite Hc, IHms. reflexivity.
Qed.

Lemma load_state_dict_same_architecture m m0 :
  skeleton m0 = skeleton m ->
  load_state_dict (state_dict m) m0 = Ok m.
Proof.
  intros Hsk. unfold load_state_dict, state_dict.
  rewrite (skeleton_shapes m m0 [] Hsk).
  rewrite bool_decide_eq_true_2 by reflexivity.
  f_equal. apply assign_at_state_dict; [exact Hsk | reflexivity].
Qed.

Lemma load_state_dict_mismatch sd m0 :
  shape <$> sd <> shape <$> state_dict m0 ->
  load_state_dict sd m0 = Raise RuntimeError.
Proof.
  intros H. unfold load_state_dict.
  rewrite bool_decide_eq_false_2 by exact H. reflexivity.
Qed.

End ModelFacts.

Section NotebookFacts.
Context {FW : Framework}.
Import Py PyFacts.

(** With dropout inactive the forward pass leaves the generator alone and
    computes [infer]. *)
Lemma forward_eval (m : module values) :
  forall (x : act) (g : gen), forward false m x g = (infer m x, g).
Proof.
  induction m as [ | i o w b | | p | ms IH] using module_ind'; intros x g;
    try reflexivity.
  simpl. revert x g.
  induction IH as [|c ms Hc _ IHms]; intros x g; [reflexivity | ].
  simpl. rewrite Hc. apply IHms.
Qed.

Lemma state_eta (s : state) :
  State (net s) (training s) (grads s) (opt s) (rng s) (files s) (stdout s) = s.
Proof. destruct s; reflexivity. Qed.

(** *** The model factories *)

Lemma affine_dims_Sequential (ms : list (module values)) :
  affine_dims (Sequential ms) = flat_map affine_dims ms.
Proof.
  unfold affine_dims. simpl.
  induction ms as [|c ms IH]; simpl; [reflexivity | ].
  rewrite flat_map_app, IH. reflexivity.
Qed.

Lemma final_layer_Sequential_snoc (ms : list (module values))
    (i o : Z) (w b : tensor values) :
  final_layer (Sequential (ms ++ [Linear i o w b])) = Some (Linear i o w b).
Proof.
  unfold final_layer. simpl. rewrite flat_map_app. simpl.
  apply last_snoc.
Qed.

Lemma nn_Linear_ok (i o : Z) (g : gen) :
  0 <= i -> 0 <= o ->
  nn_Linear i o g
  = Ok (Linear i o (Tensor [o; i] (fst (fst (init_linear i o g))))
                   (Tensor [o] (snd (fst (init_linear i o g)))),
        snd (init_linear i o g)).
Proof.
  intros Hi Ho. unfold nn_Linear.
  destruct (Z.ltb_spec i 0); [lia | ]. destruct (Z.ltb_spec o 0); [lia | ].
  simpl. destruct (init_linear i o g) as [[w b] g']. reflexivity.
Qed.

Lemma nn_Dropout_ok (p : float) :
  (0 <=? p)%float = true -> (p <? 1)%float = true ->
  nn_Dropout p = Ok (Dropout p).
Proof.
  intros H0 H1. unfold nn_Dropout.
  rewrite (leb_not_ltb _ _ H0), (ltb_not_ltb _ _ H1). reflexivity.
Qed.

Lemma hidden_blocks_ok (pairs : list (Z * Z)) :
  Forall (fun io => 0 <= fst io /\ 0 <= snd io) pairs ->
  forall g : gen, exists bs g',
    hidden_blocks pairs g = Ok (bs, g') /\ flat_map affine_dims bs = pairs.
Proof.
  induction 1 as [|[i o] pairs [Hi Ho] _ IH]; intros g; simpl.
  - eauto.
  - rewrite (nn_Linear_ok i o g Hi Ho). simpl.
    destruct (IH (snd (init_linear i o g))) as (bs & g' & -> & Hbs). simpl.
    do 2 eexists. split; [reflexivity | ].
    simpl. rewrite Hbs. reflexivity.
Qed.

Lemma hidden_blocks_with_dropout_ok (pairs : list (Z * Z)) (p : float) :
  (0 <=? p)%float = true -> (p <? 1)%float = true ->
  Forall (fun io => 0 <= fst io /\ 0 <= snd io) pairs ->
  forall g : gen, exists bs g',
    hidden_blocks_with_dropout pairs p g = Ok (bs, g')
    /\ flat_map affine_dims bs = pairs.
Proof.
  intros H0 H1. induction 1 as [|[i o] pairs [Hi Ho] _ IH]; intros g; simpl.
  - eauto.
  - rewrite (nn_Linear_ok i o g Hi Ho). simpl.
    rewrite (nn_Dropout_ok p H0 H1). simpl.
    destruct (IH (snd (init_linear i o g))) as (bs & g' & -> & Hbs). simpl.
    do 2 eexists. split; [reflexivity | ].
    simpl. rewrite Hbs. reflexivity.
Qed.

Lemma width_pairs_nonneg (hidden_dims : list Z) :
  Forall (fun h => 0 <= h) hidden_dims ->
  Forall (fun io => 0 <= fst io /\ 0 <= snd io) (width_pairs hidden_dims).
Proof.
  intros H. rewrite List.Forall_forall in *. intros [i o] Hin. simpl.
  unfold width_pairs in Hin. split; apply H.
  - apply in_combine_l in Hin.
    clear H. induction hidden_dims as [|a [|b l] IH]; simpl in *;
      [contradiction | contradiction | ].
    destruct Hin as [-> | Hin]; [left; reflexivity | right; apply IH, Hin].
  - apply in_combine_r in Hin. destruct hidden_dims; [contradiction | ].
    right. exact Hin.
Qed.

Lemma create_model_ok (hidden_dims : list Z) (g : gen) :
  hidden_dims <> [] -> Forall (fun h => 0 <= h) hidden_dims ->
  exists m g' h0 hl w b,
    create_model hidden_dims g = Ok (m, g')
    /\ Py.first_item hidden_dims = Ok h0 /\ last_item hidden_dims = Ok hl
    /\ affine_dims m = (784, h0) :: width_pairs hidden_dims ++ [(hl, 10)]
    /\ final_layer m = Some (Linear hl 10 w b).
Proof.
  intros Hne Hpos. unfold create_model.
  destruct (last_item_nonempty hidden_dims Hne) as (pre & hl & Hsplit & Hlast).
  assert (Hhl : 0 <= hl).
  { rewrite List.Forall_forall in Hpos. apply Hpos. rewrite Hsplit.
    apply in_or_app. right. left. reflexivity. }
  destruct hidden_dims as [|h0 rest]; [congruence | ].
  inversion Hpos as [|? ? Hh0 _]; subst. simpl Py.first_item. simpl mbind at 1.
  rewrite (nn_Linear_ok (28 * 28) h0 g) by lia. simpl mbind at 1.
  destruct (hidden_blocks_ok _ (width_pairs_nonneg _ Hpos)
              (snd (init_linear (28 * 28) h0 g))) as (bs & g1 & -> & Hbs).
  simpl mbind at 1. rewrite Hlast. simpl mbind at 1.
  rewrite (nn_Linear_ok hl 10 g1) by lia. simpl mbind at 1.
  do 6 eexists. split; [reflexivity | ].
  split; [reflexivity | ]. split; [reflexivity | ]. split.
  - rewrite affine_dims_Sequential. simpl. rewrite flat_map_app, Hbs.
    reflexivity.
  - change (?a :: ?b :: ?c :: bs ++ [?d]) with ((a :: b :: c :: bs) ++ [d]).
    apply final_layer_Sequential_snoc.
Qed.

Lemma create_model_with_dropout_ok (hidden_dims : list Z) (p : float)
    (g : gen) :
  hidden_dims <> [] -> Forall (fun h => 0 <= h) hidden_dims ->
  (0 <=? p)%float = true -> (p <? 1)%float = true ->
  exists m g' h0 hl w b,
    create_model_with_dropout hidden_dims p g = Ok (m, g')
    /\ Py.first_item hidden_dims = Ok h0 /\ last_item hidden_dims = Ok hl
    /\ affine_dims m = (784, h0) :: width_pairs hidden_dims ++ [(hl, 10)]
    /\ final_layer m = Some (Linear hl 10 w b).
Proof.
  intros Hne Hpos H0 H1. unfold create_model_with_dropout.
  destruct (last_item_nonempty hidden_dims Hne) as (pre & hl & Hsplit & Hlast).
  assert (Hhl : 0 <= hl).
  { rewrite List.Forall_forall in Hpos. apply Hpos. rewrite Hsplit.
    apply in_or_app. right. left. reflexivity. }
  destruct hidden_dims as [|h0 rest]; [congruence | ].
  inversion Hpos as [|? ? Hh0 _]; subst. simpl Py.first_item. simpl mbind at 1.
  rewrite (nn_Linear_ok (28 * 28) h0 g) by lia. simpl mbind at 1.
  rewrite (nn_Dropout_ok p H0 H1). simpl mbind at 1.
  destruct (hidden_blocks_with_dropout_ok _ p H0 H1 (width_pairs_nonneg _ Hpos)
              (snd (init_linear (28 * 28) h0 g))) as (bs & g1 & -> & Hbs).
  simpl mbind at 1. rewrite Hlast. simpl mbind at 1.
  rewrite (nn_Linear_ok hl 10 g1) by lia. simpl mbind at 1.
  do 6 eexists. split; [reflexivity | ].
  split; [reflexivity | ]. split; [reflexivity | ]. split.
  - rewrite affine_dims_Sequential. simpl. rewrite flat_map_app, Hbs.
    reflexivity.
  - change (?a :: ?b :: ?c :: ?e :: bs ++ [?d])
      with ((a :: b :: c :: e :: bs) ++ [d]).
    apply final_layer_Sequential_snoc.
Qed.

(** C1: for a non-empty list of hidden widths and a drop probability in
    [0,1), both factories return a model whose first affine layer takes
    width 784, whose last affine layer gives width 10, and whose last layer
    is that affine layer, with no activation after it. *)
Theorem factories_widths (hidden_dims : list Z) (p : float) (g : gen) :
  hidden_dims <> [] -> Forall (fun h => 0 <= h) hidden_dims ->
  (0 <=? p)%float = true -> (p <? 1)%float = true ->
  (exists m g', create_model hidden_dims g = Ok (m, g')
     /\ first_affine_in m = Some 784 /\ final_affine_out m = Some 10
     /\ exists i w b, final_layer m = Some (Linear i 10 w b))
  /\ (exists m g', create_model_with_dropout hidden_dims p g = Ok (m, g')
     /\ first_affine_in m = Some 784 /\ final_affine_out m = Some 10
     /\ exists i w b, final_layer m = Some (Linear i 10 w b)).
Proof.
  intros Hne Hpos H0 H1. split.
  - destruct (create_model_ok hidden_dims g Hne Hpos)
      as (m & g' & h0 & hl & w & b & Hm & _ & _ & Hdims & Hfin).
    exists m, g'. split; [exact Hm | ].
    unfold first_affine_in, final_affine_out. rewrite Hdims.
    split; [reflexivity | ]. split; [ | eauto].
    change ((784, h0) :: width_pairs hidden_dims ++ [(hl, 10)])
      with (((784, h0) :: width_pairs hidden_dims) ++ [(hl, 10)]).
    rewrite last_snoc. reflexivity.
  - destruct (create_model_with_dropout_ok hidden_dims p g Hne Hpos H0 H1)
      as (m & g' & h0 & hl & w & b & Hm & _ & _ & Hdims & Hfin).
    exists m, g'. split; [exact Hm | ].
    unfold first_affine_in, final_affine_out. rewrite Hdims.
    split; [reflexivity | ]. split; [ | eauto].
    change ((784, h0) :: width_pairs hidden_dims ++ [(hl, 10)])
      with (((784, h0) :: width_pairs hidden_dims) ++ [(hl, 10)]).
    rewrite last_snoc. reflexivity.
Qed.

(** *** The evaluator *)

Lemma validate_loop_eval (dl : dataloader) :
  forall (w : world) (losses accuracies : list float),
    training (st w) = false ->
    validate_loop dl w losses accuracies
    = Ok (losses ++ map (batch_loss (net (st w))) dl,
          accuracies ++ map (batch_accuracy (net (st w))) dl,
          World (st w) (trace w ++ map (fun b => EvForward (fst b)) dl)).
Proof.
  induction dl as [|[x y] dl IH]; intros w losses accuracies Hmode.
  - simpl. rewrite !app_nil_r. destruct w; reflexivity.
  - simpl. unfold validate_batch, call_model.
    rewrite Hmode, forward_eval. simpl.
    rewrite IH by (simpl; exact Hmode). simpl.
    rewrite state_eta, <- !app_assoc. reflexivity.
Qed.

Lemma validate_nonempty (w : world) (dl : dataloader) :
  dl <> [] ->
  validate w dl
  = Ok ((sum (map (batch_loss (net (st w))) dl)
         / of_int (Z.of_nat (length dl)))%float,
        (sum (map (batch_accuracy (net (st w))) dl)
         / of_int (Z.of_nat (length dl)))%float,
        World (set_training true (st w)) (trace w ++ validate_events dl)).
Proof.
  intros Hdl. unfold validate.
  rewrite validate_loop_eval by reflexivity. simpl.
  rewrite !mean_nonempty by (destruct dl; [congruence | discriminate]).
  simpl. rewrite !length_map.
  unfold validate_events, model_train, emit, on_state, set_training. simpl.
  rewrite <- !app_assoc. reflexivity.
Qed.

Lemma validate_empty (w : world) : validate w [] = Raise ZeroDivisionError.
Proof. reflexivity. Qed.

(** *** The epoch runner *)

Lemma train_batch_spec (x : act) (y : labels) (w : world) :
  train_batch x y w
  = let s := st w in
    let out := forward (training s) (net s) x (rng s) in
    let gr := Some (backward_op (net s) (training s) (rng s) x y None) in
    (cross_entropy (fst out) y,
     World (State (map_params (step_op (opt s) gr) [] (net s)) (training s)
                  gr (step_optim (opt s) gr) (snd out) (files s) (stdout s))
           (trace w ++ batch_events (x, y))).
Proof.
  unfold train_batch, call_model, zero_grad, loss_backward, optimizer_step,
    emit, on_state, batch_events. simpl.
  destruct (forward (training (st w)) (net (st w)) x (rng (st w)))
    as [preds g'].
  simpl. rewrite <- !app_assoc. reflexivity.
Qed.

Lemma train_loop_spec (dl : dataloader) :
  forall (w : world) (losses : list float),
    train_loop dl w losses
    = (losses ++ epoch_losses w dl, fold_left train_step dl w).
Proof.
  induction dl as [|[x y] dl IH]; intros w losses; simpl.
  - rewrite app_nil_r. reflexivity.
  - unfold train_step at 2. simpl.
    destruct (train_batch x y w) as [loss w1] eqn:E. simpl.
    rewrite IH, <- app_assoc. unfold train_step. simpl. rewrite E. reflexivity.
Qed.

Lemma train_steps_trace (dl : dataloader) :
  forall w : world,
    trace (fold_left train_step dl w) = trace w ++ flat_map batch_events dl.
Proof.
  induction dl as [|[x y] dl IH]; intros w; simpl.
  - rewrite app_nil_r. reflexivity.
  - rewrite IH. unfold train_step at 1. rewrite train_batch_spec. simpl.
    rewrite <- !app_assoc. reflexivity.
Qed.

Lemma epoch_losses_length (dl : dataloader) :
  forall w : world, length (epoch_losses w dl) = length dl.
Proof.
  induction dl as [|b dl IH]; intros w; simpl; [ | rewrite IH]; reflexivity.
Qed.

Lemma train_one_epoch_nonempty (w : world) (dl : dataloader) :
  dl <> [] ->
  train_one_epoch w dl
  = Ok ((sum (epoch_losses w dl) / of_int (Z.of_nat (length dl)))%float,
        fold_left train_step dl w).
Proof.
  intros Hdl. unfold train_one_epoch. rewrite train_loop_spec. simpl.
  rewrite mean_nonempty.
  - simpl. rewrite epoch_losses_length. reflexivity.
  - intros E. apply (f_equal length) in E.
    rewrite epoch_losses_length in E. destruct dl; [congruence | discriminate].
Qed.

Lemma train_one_epoch_empty (w : world) :
  train_one_epoch w [] = Raise ZeroDivisionError.
Proof. reflexivity. Qed.

(** C4: on a non-empty training sequence the epoch runner performs the
    update of every batch once and in sequence order -- gradients cleared,
    forward pass, backward pass, one optimizer step -- and returns the
    unweighted arithmetic mean of the per-batch losses: their total, added
    up from the left, over their number. *)
Theorem train_one_epoch_visits_batches (w : world) (dl : dataloader) :
  dl <> [] ->
  exists avg : float,
    train_one_epoch w dl = Ok (avg, fold_left train_step dl w)
    /\ mean (epoch_losses w dl) = Ok avg
    /\ (exists compensated : bool,
          avg = arithmetic_mean compensated (epoch_losses w dl))
    /\ length (epoch_losses w dl) = length dl
    /\ trace (fold_left train_step dl w)
       = trace w ++ flat_map batch_events dl
    /\ (forall (w0 : world) (b : act * labels),
          let s := st w0 in
          let out := forward (training s) (net s) (fst b) (rng s) in
          let gr := Some (backward_op (net s) (training s) (rng s)
                            (fst b) (snd b) None) in
          fst (train_batch (fst b) (snd b) w0) = cross_entropy (fst out) (snd b)
          /\ st (train_step w0 b)
             = State (map_params (step_op (opt s) gr) [] (net s)) (training s)
                     gr (step_optim (opt s) gr) (snd out) (files s) (stdout s)).
Proof.
  intros Hdl.
  assert (Hl : epoch_losses w dl <> []).
  { intros E. apply (f_equal length) in E.
    rewrite epoch_losses_length in E.
    destruct dl; [congruence | discriminate]. }
  eexists. split; [apply train_one_epoch_nonempty, Hdl | ].
  split; [rewrite (mean_nonempty _ Hl), epoch_losses_length; reflexivity | ].
  split.
  { exists false. pose proof (mean_arithmetic _ Hl) as E.
    rewrite (mean_nonempty _ Hl), epoch_losses_length in E.
    injection E as E. exact E. }
  split; [apply epoch_losses_length | ].
  split; [apply train_steps_trace | ].
  intros w0 [x y]. unfold train_step. simpl. rewrite train_batch_spec.
  simpl. split; reflexivity.
Qed.

(** C5, as the code has it: after the evaluator returns the model is in
    training mode, whatever its mode on entry; the flag equals its value on
    entry exactly when the model was in training mode on entry. *)
Theorem validate_leaves_training_mode (w : world) (dl : dataloader) :
  dl <> [] ->
  exists (avg_loss avg_acc : float) (w' : world),
    validate w dl = Ok (avg_loss, avg_acc, w')
    /\ training (st w') = true
    /\ (training (st w') = training (st w) <-> training (st w) = true).
Proof.
  intros Hdl. rewrite (validate_nonempty w dl Hdl).
  do 3 eexists. split; [reflexivity | ]. simpl.
  split; [reflexivity | ]. destruct (training (st w)); intuition congruence.
Qed.

(** C6: on a non-empty sequence the evaluator returns the mean over the
    batches of the per-batch losses and the mean over the batches of the
    per-batch accuracies -- the total of one term per batch, whatever its
    size, over the number of batches -- and leaves the layers and their
    parameters as they were. *)
Theorem validate_batch_means (w : world) (dl : dataloader) :
  dl <> [] ->
  exists (avg_loss avg_acc : float) (w' : world),
    validate w dl = Ok (avg_loss, avg_acc, w')
    /\ mean (map (batch_loss (net (st w))) dl) = Ok avg_loss
    /\ mean (map (batch_accuracy (net (st w))) dl) = Ok avg_acc
    /\ (exists compensated : bool,
          avg_loss
          = arithmetic_mean compensated (map (batch_loss (net (st w))) dl)
          /\ avg_acc
             = arithmetic_mean compensated
                 (map (batch_accuracy (net (st w))) dl))
    /\ net (st w') = net (st w)
    /\ state_dict (net (st w')) = state_dict (net (st w)).
Proof.
  intros Hdl. rewrite (validate_nonempty w dl Hdl).
  assert (Hmap : forall f : act * labels -> float, map f dl <> [])
    by (intros f; destruct dl; [congruence | discriminate]).
  do 3 eexists. split; [reflexivity | ].
  split; [rewrite (mean_nonempty _ (Hmap _)), length_map; reflexivity | ].
  split; [rewrite (mean_nonempty _ (Hmap _)), length_map; reflexivity | ].
  split; [ | split; reflexivity].
  exists false. split.
  - pose proof (mean_arithmetic _ (Hmap (batch_loss (net (st w))))) as E.
    rewrite (mean_nonempty _ (Hmap _)), length_map in E.
    injection E as E. exact E.
  - pose proof (mean_arithmetic _ (Hmap (batch_accuracy (net (st w))))) as E.
    rewrite (mean_nonempty _ (Hmap _)), length_map in E.
    injection E as E. exact E.
Qed.

(** C7: on an empty sequence the epoch runner and the evaluator raise
    [ZeroDivisionError] at the mean; on a non-empty one the mean is defined
    and both return. *)
Theorem mean_over_batches_division :
  (forall w : world, train_one_epoch w [] = Raise ZeroDivisionError)
  /\ (forall w : world, validate w [] = Raise ZeroDivisionError)
  /\ (forall (w : world) (dl : dataloader), dl <> [] ->
        exists avg w', train_one_epoch w dl = Ok (avg, w')
                       /\ mean (epoch_losses w dl) = Ok avg)
  /\ (forall (w : world) (dl : dataloader), dl <> [] ->
        exists avg_loss avg_acc w',
          validate w dl = Ok (avg_loss, avg_acc, w')
          /\ mean (map (batch_loss (net (st w))) dl) = Ok avg_loss
          /\ mean (map (batch_accuracy (net (st w))) dl) = Ok avg_acc).
Proof.
  split; [exact train_one_epoch_empty | ].
  split; [exact validate_empty | ].
  split.
  - intros w dl Hdl. rewrite (train_one_epoch_nonempty w dl Hdl).
    do 2 eexists. split; [reflexivity | ].
    rewrite mean_nonempty; [rewrite epoch_losses_length; reflexivity | ].
    intros E. apply (f_equal length) in E.
    rewrite epoch_losses_length in E. destruct dl; [congruence | discriminate].
  - intros w dl Hdl. rewrite (validate_nonempty w dl Hdl).
    do 3 eexists. split; [reflexivity | ].
    rewrite !mean_nonempty by (destruct dl; [congruence | discriminate]).
    rewrite !length_map. split; reflexivity.
Qed.

(** C9: the evaluator's result is a function of the model's layers and
    parameters and of the sequence alone, so a second call on the same model
    and sequence returns the same pair. *)
Theorem validate_deterministic :
  (forall (w w' : world) (dl : dataloader),
      net (st w') = net (st w) ->
      outcome (validate w' dl) = outcome (validate w dl))
  /\ (forall (w : world) (dl : dataloader) avg_loss avg_acc w1,
        validate w dl = Ok (avg_loss, avg_acc, w1) ->
        exists w2, validate w1 dl = Ok (avg_loss, avg_acc, w2)).
Proof.
  split.
  - intros w w' dl Hnet. destruct dl as [|b dl]; [reflexivity | ].
    rewrite !validate_nonempty by discriminate. simpl. rewrite Hnet.
    reflexivity.
  - intros w dl avg_loss avg_acc w1 H.
    destruct dl as [|b dl]; [discriminate | ].
    rewrite validate_nonempty in H by discriminate. inversion H; subst; clear H.
    rewrite validate_nonempty by discriminate. simpl. eauto.
Qed.

(** *** The checkpoint policy *)

Lemma improved_spec (val_losses : list float) :
  val_losses <> [] ->
  exists last best : float,
    last_item val_losses = Ok last /\ Py.min val_losses = Ok best
    /\ last ∈ val_losses /\ best ∈ val_losses
    /\ improved val_losses = Ok (last =? best)%float
    /\ (Forall not_nan val_losses ->
        Forall (fun x => (best <=? x)%float = true) val_losses).
Proof.
  intros Hne.
  destruct (last_item_nonempty val_losses Hne) as (pre & last & Hsplit & Hlast).
  destruct val_losses as [|m l]; [congruence | ].
  exists last, (min_from m l). unfold improved. rewrite Hlast. simpl.
  split; [reflexivity | ]. split; [reflexivity | ].
  split; [rewrite Hsplit; apply elem_of_app; right; left | ].
  assert (Hin : forall l0 m0, min_from m0 l0 ∈ m0 :: l0).
  { induction l0 as [|x l0 IH]; intros m0; simpl; [left | ].
    specialize (IH (if (x <? m0)%float then x else m0)).
    apply elem_of_cons in IH as [-> | IH].
    - destruct (x <? m0)%float; [right; left | left].
    - right; right; exact IH. }
  split; [apply Hin | ]. split; [reflexivity | ].
  intros Hn. apply (min_from_spec l m Hn).
Qed.

Lemma save_model_if_improved_spec (filename : string) (epoch : Z)
    (train_losses val_losses : list float) (val_acc : float) (s : state) :
  val_losses <> [] ->
  exists last best : float,
    last_item val_losses = Ok last /\ Py.min val_losses = Ok best
    /\ save_model_if_improved filename epoch train_losses val_losses val_acc s
       = Ok (if (last =? best)%float
             then torch_save (state_dict (net s)) filename
                    (print (MsgNewBest epoch last) s)
             else s, (train_losses, val_losses)).
Proof.
  intros Hne.
  destruct (improved_spec val_losses Hne)
    as (last & best & Hlast & Hbest & _ & _ & Himp & _).
  exists last, best. split; [exact Hlast | ]. split; [exact Hbest | ].
  unfold save_model_if_improved. rewrite Himp. simpl.
  destruct (last =? best)%float; [rewrite Hlast | ]; reflexivity.
Qed.

(** C2: the checkpoint policy writes the snapshot of the current parameters
    under its file name, replacing what was there, exactly when the last
    validation loss equals ([==]) the minimum of the history; on a history
    without NaN that is when the last loss is at most every loss seen; for
    the history 0.9, 0.7, 0.8, 0.7 it does so at epochs 0, 1 and 3 and not
    at epoch 2. *)
Theorem checkpoint_policy (filename : string) (epoch : Z)
    (train_losses val_losses : list float) (val_acc : float) (s : state) :
  val_losses <> [] ->
  exists last best : float,
    last_item val_losses = Ok last /\ Py.min val_losses = Ok best
    /\ improved val_losses = Ok (last =? best)%float
    /\ ((last =? best)%float = true ->
        exists s',
          save_model_if_improved filename epoch train_losses val_losses
            val_acc s = Ok (s', (train_losses, val_losses))
          /\ files s' = <[filename := state_dict (net s)]> (files s)
          /\ files s' !! filename = Some (state_dict (net s))
          /\ stdout s' = stdout s ++ [MsgNewBest epoch last]
          /\ net s' = net s)
    /\ ((last =? best)%float = false ->
        save_model_if_improved filename epoch train_losses val_losses
          val_acc s = Ok (s, (train_losses, val_losses)))
    /\ (Forall not_nan val_losses ->
        ((last =? best)%float = true
         <-> Forall (fun x => (last <=? x)%float = true) val_losses))
    /\ (let saved e v :=
          torch_save (state_dict (net s)) filename (print (MsgNewBest e v) s) in
        save_model_if_improved filename 0 train_losses [0.9]%float val_acc s
        = Ok (saved 0 0.9%float, (train_losses, [0.9]%float))
        /\ save_model_if_improved filename 1 train_losses [0.9; 0.7]%float
             val_acc s
           = Ok (saved 1 0.7%float, (train_losses, [0.9; 0.7]%float))
        /\ save_model_if_improved filename 2 train_losses
             [0.9; 0.7; 0.8]%float val_acc s
           = Ok (s, (train_losses, [0.9; 0.7; 0.8]%float))
        /\ save_model_if_improved filename 3 train_losses
             [0.9; 0.7; 0.8; 0.7]%float val_acc s
           = Ok (saved 3 0.7%float, (train_losses, [0.9; 0.7; 0.8; 0.7]%float))).
Proof.
  intros Hne.
  destruct (improved_spec val_losses Hne)
    as (last & best & Hlast & Hbest & Hinl & Hinb & Himp & Hmin).
  destruct (save_model_if_improved_spec filename epoch train_losses
              val_losses val_acc s Hne) as (last' & best' & Hl' & Hb' & Hsave).
  rewrite Hlast in Hl'. rewrite Hbest in Hb'.
  inversion Hl'; inversion Hb'; subst last' best'.
  exists last, best. split; [exact Hlast | ]. split; [exact Hbest | ].
  split; [exact Himp | ]. split; [ | split; [ | split]].
  - intros E. rewrite E in Hsave. eexists. split; [exact Hsave | ].
    simpl. split; [reflexivity | ]. split; [apply lookup_insert_eq | ].
    split; reflexivity.
  - intros E. rewrite E in Hsave. exact Hsave.
  - intros Hn. specialize (Hmin Hn). split.
    + intros E. rewrite List.Forall_forall in *. intros x Hx.
      eapply leb_trans; [apply eqb_leb, E | apply Hmin, Hx].
    + intros Hall. rewrite List.Forall_forall in *.
      apply leb_antisym.
      * apply Hall. apply list_elem_of_In, Hinb.
      * apply Hmin. apply list_elem_of_In, Hinl.
  - repeat split; reflexivity.
Qed.

(** *** The training orchestrator *)

Lemma train_steps_io (dl : dataloader) :
  forall w : world,
    files (st (fold_left train_step dl w)) = files (st w)
    /\ stdout (st (fold_left train_step dl w)) = stdout (st w).
Proof.
  induction dl as [|[x y] dl IH]; intros w; simpl; [split; reflexivity | ].
  destruct (IH (train_step w (x, y))) as [-> ->].
  unfold train_step. rewrite train_batch_spec. simpl. split; reflexivity.
Qed.


Lemma range_pos (n : Z) :
  1 <= n -> Py.range n = 0 :: map Z.of_nat (seq 1 (Z.to_nat n - 1)).
Proof.
  intros H. unfold range.
  replace (Z.to_nat n) with (S (Z.to_nat n - 1)) at 1 by lia. reflexivity.
Qed.




Lemma train_epochs_step (callback : observer)
    (train_loader val_loader : dataloader) (e : Z) (es : list Z) (w : world)
    (a b : list float) :
  train_loader <> [] -> val_loader <> [] ->
  exists (l v acc : float) (w2 : world),
    train_one_epoch w train_loader = Ok (l, fold_left train_step train_loader w)
    /\ validate (fold_left train_step train_loader w) val_loader
       = Ok (v, acc, w2)
    /\ st w2 = set_training true (st (fold_left train_step train_loader w))
    /\ trace w2 = trace w ++ flat_map batch_events train_loader
                  ++ validate_events val_loader
    /\ train_epochs callback train_loader val_loader (e :: es) w a b
       = ('(s, (a', b')) ← callback e (a ++ [l]) (b ++ [v]) acc (st w2);
          train_epochs callback train_loader val_loader es
            (World s (trace w2 ++ [EvObserver e])) a' b').
Proof.
  intros Htl Hvl. do 4 eexists.
  split; [apply train_one_epoch_nonempty, Htl | ].
  split; [apply validate_nonempty, Hvl | ].
  split; [reflexivity | ].
  split; [simpl; rewrite train_steps_trace, <- app_assoc; reflexivity | ].
  simpl. rewrite (train_one_epoch_nonempty _ _ Htl). simpl.
  rewrite (validate_nonempty _ _ Hvl). reflexivity.
Qed.

Lemma train_epochs_well_behaved (callback : observer)
    (train_loader val_loader : dataloader) :
  train_loader <> [] -> val_loader <> [] -> well_behaved callback ->
  forall (es : list Z) (w : world) (a b : list float),
  exists (a' b' : list float) (w' : world),
    train_epochs callback train_loader val_loader es w a b
    = Ok (a ++ a', b ++ b', w')
    /\ length a' = length es /\ length b' = length es
    /\ trace w' = trace w ++ flat_map (epoch_events train_loader val_loader) es.
Proof.
  intros Htl Hvl Hcb. induction es as [|e es IH]; intros w a b.
  - exists [], [], w. simpl. rewrite !app_nil_r. repeat split; reflexivity.
  - destruct (train_epochs_step callback train_loader val_loader e es w a b
                Htl Hvl) as (l & v & acc & w2 & _ & _ & _ & Htr & ->).
    destruct (Hcb e (a ++ [l]) (b ++ [v]) acc (st w2)) as (s' & ->);
      [destruct a; discriminate | destruct b; discriminate | ].
    simpl mbind.
    destruct (IH (World s' (trace w2 ++ [EvObserver e])) (a ++ [l]) (b ++ [v]))
      as (a' & b' & w' & -> & Ha & Hb & Htr').
    exists (l :: a'), (v :: b'), w'. rewrite <- !app_assoc. simpl.
    split; [reflexivity | ]. split; [now rewrite Ha | ].
    split; [now rewrite Hb | ].
    rewrite Htr'. simpl. rewrite Htr. unfold epoch_events.
    rewrite <- !app_assoc. reflexivity.
Qed.



Lemma save_model_if_improved_well_behaved (filename : string) :
  well_behaved (save_model_if_improved filename).
Proof.
  intros epoch a b acc s _ Hb.
  destruct (save_model_if_improved_spec filename epoch a b acc s Hb)
    as (last & best & _ & _ & ->). eauto.
Qed.

Lemma train_epochs_checkpoint (filename : string)
    (train_loader val_loader : dataloader) :
  train_loader <> [] -> val_loader <> [] ->
  forall (es : list Z) (w : world) (a b : list float),
  exists (a' b' : list float) (w' : world),
    train_epochs (save_model_if_improved filename) train_loader val_loader
      es w a b = Ok (a ++ a', b ++ b', w')
    /\ (exists msgs, stdout (st w') = stdout (st w) ++ msgs)
    /\ (is_Some (files (st w) !! filename) ->
        is_Some (files (st w') !! filename))
    /\ (forall m rest, b = m :: rest -> ~ not_nan m ->
        stdout (st w') = stdout (st w) /\ files (st w') = files (st w)).
Proof.
  intros Htl Hvl. induction es as [|e es IH]; intros w a b.
  - exists [], [], w. simpl. rewrite !app_nil_r.
    split; [reflexivity | ]. split; [exists []; now rewrite app_nil_r | ].
    split; [tauto | ]. intros; split; reflexivity.
  - destruct (train_epochs_step (save_model_if_improved filename) train_loader
                val_loader e es w a b Htl Hvl)
      as (l & v & acc & w2 & _ & _ & Hst & _ & ->).
    destruct (train_steps_io train_loader w) as [Hfiles Hout].
    assert (Hf2 : files (st w2) = files (st w)) by (rewrite Hst; exact Hfiles).
    assert (Ho2 : stdout (st w2) = stdout (st w)) by (rewrite Hst; exact Hout).
    destruct (save_model_if_improved_spec filename e (a ++ [l]) (b ++ [v])
                acc (st w2)) as (last & best & Hlast & Hbest & ->);
      [destruct b; discriminate | ].
    simpl mbind.
    match goal with
    | |- context [train_epochs _ _ _ es ?w3 _ _] =>
        destruct (IH w3 (a ++ [l]) (b ++ [v]))
          as (a' & b' & w' & -> & (msgs & Hmsgs) & Hfile & Hnan)
    end.
    exists (l :: a'), (v :: b'), w'. rewrite <- !app_assoc. simpl in *.
    split; [reflexivity | ].
    destruct (last =? best)%float eqn:E; simpl in *.
    + split; [exists (MsgNewBest e last :: msgs);
              rewrite Hmsgs, Ho2, <- app_assoc; reflexivity | ].
      split; [intros _; apply Hfile; rewrite lookup_insert_eq; eauto | ].
      intros m rest -> Hm. exfalso.
      rewrite last_item_app in Hlast. inversion Hlast; subst last.
      simpl in Hbest. inversion Hbest; subst best.
      rewrite (min_from_nan _ m Hm), (nan_eqb v m Hm) in E. discriminate.
    + split; [exists msgs; rewrite Hmsgs, Ho2; reflexivity | ].
      split; [intros H; apply Hfile; rewrite Hf2; exact H | ].
      intros m rest -> Hm.
      destruct (Hnan m (rest ++ [v]) eq_refl Hm) as [H1 H2].
      rewrite H1, H2, Ho2, Hf2. split; reflexivity.
Qed.

(** C10, as the code has it: in a run of at least one epoch on non-empty
    loaders with the checkpoint policy attached, the snapshot is written at
    epoch 0 whenever the first validation loss is not NaN; when it is NaN
    ([nan == nan] is false) nothing is written or printed at epoch 0, nor at
    any later epoch. *)
Theorem first_epoch_checkpoint (w : world)
    (train_loader val_loader : dataloader) (n_epochs : Z) (filename : string) :
  1 <= n_epochs -> train_loader <> [] -> val_loader <> [] ->
  exists (train_losses : list float) (v0 : float) (later : list float)
         (w' : world),
    train w train_loader val_loader n_epochs (save_model_if_improved filename)
    = Ok (train_losses, v0 :: later, w')
    /\ (exists acc w2, validate (fold_left train_step train_loader w) val_loader
                       = Ok (v0, acc, w2))
    /\ (not_nan v0 ->
        (exists msgs, stdout (st w') = stdout (st w) ++ MsgNewBest 0 v0 :: msgs)
        /\ is_Some (files (st w') !! filename)
        /\ (n_epochs = 1 ->
            files (st w')
            = <[filename :=
                  state_dict (net (st (fold_left train_step train_loader w)))]>
                (files (st w))))
    /\ (~ not_nan v0 ->
        stdout (st w') = stdout (st w) /\ files (st w') = files (st w)).
Proof.
  intros Hn Htl Hvl. unfold train. rewrite (range_pos n_epochs Hn).
  destruct (train_epochs_step (save_model_if_improved filename) train_loader
              val_loader 0 (map Z.of_nat (seq 1 (Z.to_nat n_epochs - 1)))
              w [] [] Htl Hvl)
    as (l & v & acc & w2 & _ & Hval & Hst & _ & ->).
  destruct (train_steps_io train_loader w) as [Hfiles Hout].
  assert (Hf2 : files (st w2) = files (st w)) by (rewrite Hst; exact Hfiles).
  assert (Ho2 : stdout (st w2) = stdout (st w)) by (rewrite Hst; exact Hout).
  assert (Hn2 : net (st w2) = net (st (fold_left train_step train_loader w)))
    by (rewrite Hst; reflexivity).
  destruct (save_model_if_improved_spec filename 0 ([] ++ [l]) ([] ++ [v])
              acc (st w2)) as (last & best & Hlast & Hbest & ->);
    [discriminate | ].
  simpl in Hlast, Hbest. inversion Hlast; inversion Hbest; subst last best.
  clear Hlast Hbest. simpl mbind.
  match goal with
  | |- context [train_epochs _ _ _ ?es ?w3 _ _] =>
      destruct (train_epochs_checkpoint filename train_loader val_loader
                  Htl Hvl es w3 [l] [v])
        as (a' & b' & w' & Hrun & (msgs & Hmsgs) & Hfile & Hnan)
  end.
  cbn [app] in Hrun |- *. rewrite Hrun. exists (l :: a'), v, b', w'.
  split; [reflexivity | ]. split; [eauto | ].
  destruct (v =? v)%float eqn:E; simpl in *.
  - split; [ | intros Hnot; exfalso; apply Hnot; exact E].
    intros _. split; [exists msgs; rewrite Hmsgs, Ho2, <- app_assoc;
                      reflexivity | ].
    split; [apply Hfile; rewrite lookup_insert_eq; eauto | ].
    intros ->. simpl in Hrun. inversion Hrun; subst. simpl.
    rewrite Hf2, Hn2. reflexivity.
  - split; [unfold not_nan; intros Hv; congruence | ].
    intros Hv. destruct (Hnan v [] eq_refl Hv) as [H1 H2].
    rewrite H1, H2, Ho2, Hf2. split; reflexivity.
Qed.

Lemma print_loss_every_n_epochs_well_behaved (n : Z) :
  n <> 0 -> well_behaved (print_loss_every_n_epochs n).
Proof.
  intros Hn epoch a b acc s Ha Hb. unfold print_loss_every_n_epochs, Py.int_mod.
  destruct (Z.eqb_spec n 0) as [E|_]; [contradiction | ]. simpl.
  destruct (epoch mod n =? 0); [ | eauto].
  destruct (last_item_nonempty a Ha) as (? & la & _ & ->).
  destruct (last_item_nonempty b Hb) as (? & lb & _ & ->). simpl. eauto.
Qed.

(** Two calls of a factory with the same arguments give models of the same
    architecture, whatever the random initial parameters. *)
Lemma nn_Linear_skeleton (i o : Z) (g : gen) (m : module values) (g' : gen) :
  nn_Linear i o g = Ok (m, g') -> skeleton m = ALinear i o [o; i] [o].
Proof.
  unfold nn_Linear. destruct ((i <? 0) || (o <? 0)); [discriminate | ].
  destruct (init_linear i o g) as [[w b] g1]. intros H. inversion H.
  reflexivity.
Qed.


Lemma hidden_blocks_skeleton (pairs : list (Z * Z)) :
  forall (g1 g2 g1' g2' : gen) (bs1 bs2 : list (module values)),
    hidden_blocks pairs g1 = Ok (bs1, g1') ->
    hidden_blocks pairs g2 = Ok (bs2, g2') ->
    map skeleton bs1 = map skeleton bs2.
Proof.
  induction pairs as [|[i o] pairs IH]; intros g1 g2 g1' g2' bs1 bs2 H1 H2;
    simpl in H1, H2.
  - inversion H1; inversion H2; reflexivity.
  - apply bind_Ok in H1 as ([l1 ga] & Hl1 & H1).
    apply bind_Ok in H1 as ([r1 gb] & Hr1 & H1).
    apply bind_Ok in H2 as ([l2 gc] & Hl2 & H2).
    apply bind_Ok in H2 as ([r2 gd] & Hr2 & H2).
    inversion H1; inversion H2; subst. simpl.
    rewrite (nn_Linear_skeleton _ _ _ _ _ Hl1),
      (nn_Linear_skeleton _ _ _ _ _ Hl2), (IH _ _ _ _ _ _ Hr1 Hr2).
    reflexivity.
Qed.


Lemma create_model_same_architecture (hidden_dims : list Z)
    (g1 g2 g1' g2' : gen) (m1 m2 : module values) :
  create_model hidden_dims g1 = Ok (m1, g1') ->
  create_model hidden_dims g2 = Ok (m2, g2') ->
  skeleton m1 = skeleton m2.
Proof.
  unfold create_model. intros H1 H2.
  apply bind_Ok in H1 as (h1 & Hh1 & H1).
  apply bind_Ok in H1 as ([la ga] & Hla & H1).
  apply bind_Ok in H1 as ([ba gb] & Hba & H1).
  apply bind_Ok in H1 as (t1 & Ht1 & H1).
  apply bind_Ok in H1 as ([oa gc] & Hoa & H1).
  apply bind_Ok in H2 as (h2 & Hh2 & H2).
  apply bind_Ok in H2 as ([lb gd] & Hlb & H2).
  apply bind_Ok in H2 as ([bb ge] & Hbb & H2).
  apply bind_Ok in H2 as (t2 & Ht2 & H2).
  apply bind_Ok in H2 as ([ob gf] & Hob & H2).
  inversion H1; inversion H2; subst.
  rewrite Hh1 in Hh2. inversion Hh2; subst.
  rewrite Ht1 in Ht2. inversion Ht2; subst.
  simpl. rewrite !map_app. simpl.
  rewrite (nn_Linear_skeleton _ _ _ _ _ Hla),
    (nn_Linear_skeleton _ _ _ _ _ Hlb), (nn_Linear_skeleton _ _ _ _ _ Hoa),
    (nn_Linear_skeleton _ _ _ _ _ Hob),
    (hidden_blocks_skeleton _ _ _ _ _ _ _ Hba Hbb).
  reflexivity.
Qed.


(** Training rewrites parameter contents and keeps the architecture. *)
Lemma train_steps_skeleton (dl : dataloader) :
  forall w : world,
    skeleton (net (st (fold_left train_step dl w))) = skeleton (net (st w)).
Proof.
  induction dl as [|[x y] dl IH]; intros w; simpl; [reflexivity | ].
  rewrite IH. unfold train_step. rewrite train_batch_spec. simpl.
  apply skeleton_map_params.
Qed.

(** *** Saving and reloading *)

Lemma validate_outcome_net (w w' : world) (dl : dataloader) :
  net (st w') = net (st w) ->
  outcome (validate w' dl) = outcome (validate w dl).
Proof.
  intros Hnet. destruct dl as [|b dl]; [reflexivity | ].
  rewrite !validate_nonempty by discriminate. simpl. rewrite Hnet. reflexivity.
Qed.

(** C8: a snapshot saved from a model and loaded into a model of the same
    architecture gives back the layers and parameters of the first, so the
    evaluator returns the same loss and accuracy on every sequence; loading
    raises when the file is absent and when the parameter names or shapes
    of the snapshot differ from the model's. *)
Theorem checkpoint_round_trip (s s0 : state) (path : string) :
  skeleton (net s0) = skeleton (net s) ->
  files s0 = files (torch_save (state_dict (net s)) path s) ->
  (exists s1 : state,
      load_model path s0 = Ok s1 /\ net s1 = net s
      /\ forall (w w1 : world) (dl : dataloader),
           st w = s -> st w1 = s1 ->
           outcome (validate w1 dl) = outcome (validate w dl))
  /\ (forall s' : state,
        files s' !! path = None ->
        load_model path s' = Raise FileNotFoundError)
  /\ (forall (s' : state) (sd : snapshot),
        files s' !! path = Some sd ->
        shape <$> sd <> shape <$> state_dict (net s') ->
        load_model path s' = Raise RuntimeError).
Proof.
  intros Hsk Hfiles. split; [ | split].
  - unfold load_model, torch_load. rewrite Hfiles. simpl.
    rewrite lookup_insert_eq. simpl.
    rewrite (load_state_dict_same_architecture _ _ Hsk). simpl.
    eexists. split; [reflexivity | ]. split; [reflexivity | ].
    intros w w1 dl Hw Hw1. apply validate_outcome_net.
    rewrite Hw, Hw1. reflexivity.
  - intros s' Hnone. unfold load_model, torch_load. rewrite Hnone. reflexivity.
  - intros s' sd Hsome Hshape. unfold load_model, torch_load. rewrite Hsome.
    simpl. rewrite (load_state_dict_mismatch _ _ Hshape). reflexivity.
Qed.

End NotebookFacts.

(** * Further properties of the notebook's code *)

Section ScriptFacts.
Context {FW : Framework}.
Import Py PyFacts.

(** ** The orchestrator at its edges *)

Lemma range_nonpos (n : Z) : n <= 0 -> Py.range n = [].
Proof.
  intros H. unfold range. replace (Z.to_nat n) with 0%nat by lia. reflexivity.
Qed.

(** X1: for [n_epochs <= 0], negative values included, [train] returns two
    empty histories and leaves the world as it was, whatever the loaders and
    the observer. *)
Theorem train_without_epochs (w : world) (train_loader val_loader : dataloader)
    (n_epochs : Z) (callback : observer) :
  n_epochs <= 0 ->
  train w train_loader val_loader n_epochs callback = Ok ([], [], w).
Proof. intros Hn. unfold train. rewrite (range_nonpos _ Hn). reflexivity. Qed.

(** X2: with at least one epoch to run, an empty training loader or an empty
    validation loader makes [train] raise [ZeroDivisionError] in the first
    epoch, before the observer is consulted. *)
Theorem train_on_empty_loader (w : world) (train_loader val_loader : dataloader)
    (n_epochs : Z) (callback : observer) :
  1 <= n_epochs -> train_loader = [] \/ val_loader = [] ->
  train w train_loader val_loader n_epochs callback = Raise ZeroDivisionError.
Proof.
  intros Hn Hempty. unfold train. rewrite (range_pos _ Hn). simpl.
  destruct train_loader as [|b tl].
  - reflexivity.
  - destruct Hempty as [H | ->]; [discriminate | ].
    rewrite train_one_epoch_nonempty by discriminate. reflexivity.
Qed.

Lemma train_first_call_raises (w : world)
    (train_loader val_loader : dataloader) (n_epochs : Z)
    (callback : observer) (e : exn) :
  1 <= n_epochs -> train_loader <> [] -> val_loader <> [] ->
  (forall train_losses val_losses val_acc s,
      callback 0 train_losses val_losses val_acc s = Raise e) ->
  train w train_loader val_loader n_epochs callback = Raise e.
Proof.
  intros Hn Htl Hvl Hcb. unfold train. rewrite (range_pos _ Hn).
  destruct (train_epochs_step callback train_loader val_loader 0
              (map Z.of_nat (seq 1 (Z.to_nat n_epochs - 1))) w [] [] Htl Hvl)
    as (l & v & acc & w2 & _ & _ & _ & _ & ->).
  rewrite Hcb. reflexivity.
Qed.

(** X3: [train] handles no exception: when the observer raises at epoch 0,
    the run ends with that exception. *)
Theorem train_propagates_observer_exception (w : world)
    (train_loader val_loader : dataloader) (n_epochs : Z)
    (callback : observer) (e : exn) :
  1 <= n_epochs -> train_loader <> [] -> val_loader <> [] ->
  (forall train_losses val_losses val_acc s,
      callback 0 train_losses val_losses val_acc s = Raise e) ->
  train w train_loader val_loader n_epochs callback = Raise e.
Proof.
  intros Hn Htl Hvl Hcb. unfold train. rewrite (range_pos _ Hn).
  destruct (train_epochs_step callback train_loader val_loader 0
              (map Z.of_nat (seq 1 (Z.to_nat n_epochs - 1))) w [] [] Htl Hvl)
    as (l & v & acc & w2 & _ & _ & _ & _ & ->).
  rewrite Hcb. reflexivity.
Qed.

(** ** What the evaluator and the epoch runner leave alone *)

(** X4: on a non-empty sequence [validate] returns and leaves the layers
    and parameters, the gradients, the optimizer, the files and the output as
    they were; the mode flag ends as training.  (Nothing is said of the
    random generator: a pass over a [DataLoader] draws from it.) *)
Theorem validate_leaves_learner_and_files (w : world) (dl : dataloader) :
  dl <> [] ->
  exists (avg_loss avg_acc : float) (w' : world),
    validate w dl = Ok (avg_loss, avg_acc, w')
    /\ training (st w') = true
    /\ net (st w') = net (st w) /\ grads (st w') = grads (st w)
    /\ opt (st w') = opt (st w)
    /\ files (st w') = files (st w) /\ stdout (st w') = stdout (st w).
Proof.
  intros Hdl. rewrite (validate_nonempty w dl Hdl). do 3 eexists.
  split; [reflexivity | ]. repeat split; reflexivity.
Qed.

Lemma train_steps_training (dl : dataloader) :
  forall w : world,
    training (st (fold_left train_step dl w)) = training (st w).
Proof.
  induction dl as [|[x y] dl IH]; intros w; simpl; [reflexivity | ].
  rewrite IH. unfold train_step. rewrite train_batch_spec. reflexivity.
Qed.

(** X5: an epoch of training rewrites parameter contents only: the
    architecture, the parameter names and shapes, the mode flag (the epoch
    runner never calls [model.train()]), the files and the output are as
    before. *)
Theorem train_one_epoch_keeps_architecture (w : world) (dl : dataloader) :
  dl <> [] ->
  exists (avg : float) (w' : world),
    train_one_epoch w dl = Ok (avg, w')
    /\ skeleton (net (st w')) = skeleton (net (st w))
    /\ shape <$> state_dict (net (st w')) = shape <$> state_dict (net (st w))
    /\ training (st w') = training (st w)
    /\ files (st w') = files (st w) /\ stdout (st w') = stdout (st w).
Proof.
  intros Hdl. rewrite (train_one_epoch_nonempty w dl Hdl). do 2 eexists.
  split; [reflexivity | ].
  destruct (train_steps_io dl w) as [Hf Ho].
  split; [apply train_steps_skeleton | ].
  split; [apply skeleton_shapes, train_steps_skeleton | ].
  split; [apply train_steps_training | ]. split; assumption.
Qed.

(** ** The model factories *)

Lemma nn_Linear_inv (i o : Z) (g g' : gen) (m : module values) :
  nn_Linear i o g = Ok (m, g') ->
  0 <= i /\ 0 <= o
  /\ exists w b, m = Linear i o (Tensor [o; i] w) (Tensor [o] b).
Proof.
  unfold nn_Linear. intros H.
  destruct (Z.ltb_spec i 0) as [Hi|Hi]; [discriminate | ].
  destruct (Z.ltb_spec o 0) as [Ho|Ho]; [discriminate | ]. simpl in H.
  destruct (init_linear i o g) as [[w b] g1]. inversion H. eauto.
Qed.

Lemma nn_Dropout_inv (p : float) (m : module values) :
  nn_Dropout p = Ok m ->
  m = Dropout p /\ (p <? 0)%float = false /\ (1 <? p)%float = false.
Proof.
  unfold nn_Dropout. destruct (p <? 0)%float, (1 <? p)%float; simpl;
    intros H; inversion H; auto.
Qed.


Lemma skeleton_leaves_Sequential (ms : list (module values)) :
  map skeleton (leaves (Sequential ms))
  = flat_map (fun c => map skeleton (leaves c)) ms.
Proof.
  simpl. induction ms as [|c ms IH]; simpl; [reflexivity | ].
  rewrite map_app, IH. reflexivity.
Qed.

Lemma hidden_blocks_inv (pairs : list (Z * Z)) :
  forall (g g' : gen) (bs : list (module values)),
    hidden_blocks pairs g = Ok (bs, g') ->
    Forall (fun io => 0 <= fst io /\ 0 <= snd io) pairs
    /\ flat_map (fun c => map skeleton (leaves c)) bs
       = flat_map (hidden_layers []) pairs.
Proof.
  induction pairs as [|[i o] pairs IH]; intros g g' bs H; simpl in H.
  - inversion H. split; [constructor | reflexivity].
  - apply bind_Ok in H as ([lin g1] & Hlin & H).
    apply bind_Ok in H as ([rest g2] & Hrest & H). inversion H; subst.
    apply nn_Linear_inv in Hlin as (Hi & Ho & w & b & ->).
    destruct (IH _ _ _ Hrest) as [Hall Hrest'].
    split; [constructor; [split; assumption | exact Hall] | ].
    simpl. rewrite Hrest'. reflexivity.
Qed.

Lemma hidden_blocks_with_dropout_inv (pairs : list (Z * Z)) (p : float) :
  forall (g g' : gen) (bs : list (module values)),
    hidden_blocks_with_dropout pairs p g = Ok (bs, g') ->
    Forall (fun io => 0 <= fst io /\ 0 <= snd io) pairs
    /\ flat_map (fun c => map skeleton (leaves c)) bs
       = flat_map (hidden_layers [ADropout p]) pairs.
Proof.
  induction pairs as [|[i o] pairs IH]; intros g g' bs H; simpl in H.
  - inversion H. split; [constructor | reflexivity].
  - apply bind_Ok in H as ([lin g1] & Hlin & H).
    apply bind_Ok in H as (d & Hd & H).
    apply bind_Ok in H as ([rest g2] & Hrest & H). inversion H; subst.
    apply nn_Linear_inv in Hlin as (Hi & Ho & w & b & ->).
    apply nn_Dropout_inv in Hd as (-> & _ & _).
    destruct (IH _ _ _ Hrest) as [Hall Hrest'].
    split; [constructor; [split; assumption | exact Hall] | ].
    simpl. rewrite Hrest'. reflexivity.
Qed.


(** A non-empty list is its first item followed by the second components
    of its consecutive pairs. *)
Lemma width_pairs_snd (h0 : Z) (rest : list Z) :
  map snd (width_pairs (h0 :: rest)) = rest.
Proof.
  unfold width_pairs. revert h0.
  induction rest as [|h1 rest IH]; intros h0; [reflexivity | ].
  change (removelast (h0 :: h1 :: rest)) with (h0 :: removelast (h1 :: rest)).
  simpl tl. simpl. f_equal. apply (IH h1).
Qed.

Lemma width_pairs_nonneg_inv (h0 : Z) (rest : list Z) :
  0 <= h0 ->
  Forall (fun io => 0 <= fst io /\ 0 <= snd io) (width_pairs (h0 :: rest)) ->
  Forall (fun h => 0 <= h) (h0 :: rest).
Proof.
  intros Hh0 Hall. constructor; [exact Hh0 | ].
  rewrite <- (width_pairs_snd h0 rest).
  apply List.Forall_map. eapply List.Forall_impl; [ | exact Hall].
  intros [i o] [_ Ho]. exact Ho.
Qed.

Lemma chained_width_pairs (rest : list Z) :
  forall (a h0 hl b : Z),
    last_item (h0 :: rest) = Ok hl ->
    chained ((a, h0) :: width_pairs (h0 :: rest) ++ [(hl, b)]).
Proof.
  induction rest as [|h1 rest IH]; intros a h0 hl b Hlast.
  - inversion Hlast; subst. simpl. auto.
  - unfold width_pairs.
    change (removelast (h0 :: h1 :: rest)) with (h0 :: removelast (h1 :: rest)).
    simpl tl. simpl combine. simpl. split; [reflexivity | ].
    apply (IH h0 h1 hl b).
    destruct (last_item_nonempty (h1 :: rest)) as (pre & x & Hsplit & Hx);
      [discriminate | ].
    rewrite Hx. rewrite <- Hlast.
    change (h0 :: h1 :: rest) with ([h0] ++ h1 :: rest).
    rewrite Hsplit, app_assoc, last_item_app. reflexivity.
Qed.

Lemma last_item_last {A : Type} (l : list A) (x : A) :
  last_item l = Ok x -> last l = Some x.
Proof.
  intros H. destruct l as [|a l]; [discriminate | ].
  destruct (last_item_nonempty (a :: l)) as (pre & y & Hsplit & Hy);
    [discriminate | ].
  rewrite Hy in H. inversion H; subst y. rewrite Hsplit. apply last_snoc.
Qed.

Lemma create_model_inv (hidden_dims : list Z) (g g' : gen)
    (m : module values) :
  create_model hidden_dims g = Ok (m, g') ->
  hidden_dims <> [] /\ Forall (fun h => 0 <= h) hidden_dims
  /\ map skeleton (leaves m) = factory_layers [] hidden_dims.
Proof.
  unfold create_model. intros H.
  apply bind_Ok in H as (h0 & Hh0 & H).
  apply bind_Ok in H as ([lin0 g1] & Hlin0 & H).
  apply bind_Ok in H as ([bs g2] & Hbs & H).
  apply bind_Ok in H as (hl & Hhl & H).
  apply bind_Ok in H as ([out g3] & Hout & H). inversion H; subst; clear H.
  destruct hidden_dims as [|h rest]; [discriminate | ].
  inversion Hh0; subst h.
  apply nn_Linear_inv in Hlin0 as (_ & Hpos0 & w0 & b0 & ->).
  apply nn_Linear_inv in Hout as (Hposl & _ & wl & bl & ->).
  apply hidden_blocks_inv in Hbs as [Hall Hlayers].
  split; [discriminate | ].
  split; [apply width_pairs_nonneg_inv; assumption | ].
  rewrite skeleton_leaves_Sequential. simpl.
  rewrite flat_map_app, Hlayers. unfold factory_layers. simpl.
  rewrite (last_item_last _ _ Hhl). reflexivity.
Qed.

Lemma create_model_with_dropout_inv (hidden_dims : list Z) (p : float)
    (g g' : gen) (m : module values) :
  create_model_with_dropout hidden_dims p g = Ok (m, g') ->
  hidden_dims <> [] /\ Forall (fun h => 0 <= h) hidden_dims
  /\ (p <? 0)%float = false /\ (1 <? p)%float = false
  /\ map skeleton (leaves m) = factory_layers [ADropout p] hidden_dims.
Proof.
  unfold create_model_with_dropout. intros H.
  apply bind_Ok in H as (h0 & Hh0 & H).
  apply bind_Ok in H as ([lin0 g1] & Hlin0 & H).
  apply bind_Ok in H as (d & Hd & H).
  apply bind_Ok in H as ([bs g2] & Hbs & H).
  apply bind_Ok in H as (hl & Hhl & H).
  apply bind_Ok in H as ([out g3] & Hout & H). inversion H; subst; clear H.
  destruct hidden_dims as [|h rest]; [discriminate | ].
  inversion Hh0; subst h.
  apply nn_Linear_inv in Hlin0 as (_ & Hpos0 & w0 & b0 & ->).
  apply nn_Linear_inv in Hout as (Hposl & _ & wl & bl & ->).
  apply nn_Dropout_inv in Hd as (-> & Hp0 & Hp1).
  apply hidden_blocks_with_dropout_inv in Hbs as [Hall Hlayers].
  split; [discriminate | ].
  split; [apply width_pairs_nonneg_inv; assumption | ].
  split; [exact Hp0 | ]. split; [exact Hp1 | ].
  rewrite skeleton_leaves_Sequential. simpl.
  rewrite flat_map_app, Hlayers. unfold factory_layers. simpl.
  rewrite (last_item_last _ _ Hhl). reflexivity.
Qed.


(** X6: The factories raise [IndexError] on the empty list, before anything
    else is looked at; and whenever one of them returns a model, the list of
    widths was not empty, no width was negative, and (for
    [create_model_with_dropout]) the drop probability was neither below 0
    nor above 1. *)
Theorem factories_domain :
  (forall g : gen, create_model [] g = Raise IndexError)
  /\ (forall (p : float) (g : gen),
        create_model_with_dropout [] p g = Raise IndexError)
  /\ (forall (hidden_dims : list Z) (g g' : gen) (m : module values),
        create_model hidden_dims g = Ok (m, g') ->
        hidden_dims <> [] /\ Forall (fun h => 0 <= h) hidden_dims)
  /\ (forall (hidden_dims : list Z) (p : float) (g g' : gen)
             (m : module values),
        create_model_with_dropout hidden_dims p g = Ok (m, g') ->
        hidden_dims <> [] /\ Forall (fun h => 0 <= h) hidden_dims
        /\ (p <? 0)%float = false /\ (1 <? p)%float = false).
Proof.
  split; [reflexivity | ]. split; [reflexivity | ]. split.
  - intros hidden_dims g g' m H.
    apply create_model_inv in H as (H1 & H2 & _). split; assumption.
  - intros hidden_dims p g g' m H.
    apply create_model_with_dropout_inv in H as (H1 & H2 & H3 & H4 & _).
    repeat split; assumption.
Qed.

(** X7: The layers a factory built, in the order they are applied: the
    flattening, then for each hidden width an affine layer (weight of shape
    output x input, bias of shape output) and a ReLU -- followed by a
    dropout layer of probability [p] in [create_model_with_dropout], by
    nothing in [create_model] -- and at the end the affine layer onto 10
    outputs. *)
Theorem factories_layer_sequence (hidden_dims : list Z) (p : float)
    (g g' : gen) (m : module values) :
  (create_model hidden_dims g = Ok (m, g') ->
   map skeleton (leaves m) = factory_layers [] hidden_dims)
  /\ (create_model_with_dropout hidden_dims p g = Ok (m, g') ->
      map skeleton (leaves m) = factory_layers [ADropout p] hidden_dims).
Proof.
  split; intros H.
  - apply create_model_inv in H as (_ & _ & H). exact H.
  - apply create_model_with_dropout_inv in H as (_ & _ & _ & _ & H). exact H.
Qed.

Lemma affine_dims_skeleton (m : module values) :
  affine_dims m = arch_dims (map skeleton (leaves m)).
Proof.
  unfold affine_dims, arch_dims.
  induction (leaves m) as [|l ls IH]; simpl; [reflexivity | ].
  rewrite IH. destruct l; reflexivity.
Qed.

Lemma arch_dims_factory_layers (dropout : list arch)
    (hidden_dims : list Z) :
  arch_dims dropout = [] ->
  arch_dims (factory_layers dropout hidden_dims)
  = (784, default 0 (head hidden_dims))
    :: width_pairs hidden_dims ++ [(default 0 (last hidden_dims), 10)].
Proof.
  intros Hd. unfold factory_layers, arch_dims in *. simpl.
  rewrite !flat_map_app, Hd. simpl. do 2 f_equal.
  induction (width_pairs hidden_dims) as [|[i o] pairs IH]; [reflexivity | ].
  simpl. rewrite flat_map_app, Hd, IH. reflexivity.
Qed.

(** X8: In a model built by either factory the affine layers chain: each
    takes the width the one before it gives; there is one more of them than
    hidden widths. *)
Theorem factories_widths_chain (hidden_dims : list Z) (p : float)
    (g g' : gen) (m : module values) :
  create_model hidden_dims g = Ok (m, g')
  \/ create_model_with_dropout hidden_dims p g = Ok (m, g') ->
  chained (affine_dims m)
  /\ length (affine_dims m) = S (length hidden_dims).
Proof.
  intros H.
  assert (Hdims : hidden_dims <> []
                  /\ affine_dims m
                     = (784, default 0 (head hidden_dims))
                       :: width_pairs hidden_dims
                       ++ [(default 0 (last hidden_dims), 10)]).
  { rewrite affine_dims_skeleton. destruct H as [H | H].
    - apply create_model_inv in H as (H1 & _ & ->).
      split; [exact H1 | ]. apply arch_dims_factory_layers. reflexivity.
    - apply create_model_with_dropout_inv in H as (H1 & _ & _ & _ & ->).
      split; [exact H1 | ]. apply arch_dims_factory_layers. reflexivity. }
  destruct Hdims as [Hne ->].
  destruct hidden_dims as [|h0 rest]; [congruence | ].
  destruct (last_item_nonempty (h0 :: rest)) as (pre & hl & Hs & Hl);
    [discriminate | ].
  rewrite (last_item_last _ _ Hl). simpl head. simpl default.
  split; [apply chained_width_pairs, Hl | ].
  simpl. rewrite length_app. simpl.
  rewrite <- (width_pairs_snd h0 rest) at 2. rewrite length_map. lia.
Qed.

Lemma forward_no_dropout (m : module values) :
  no_dropout m ->
  forall (mode : bool) (x : act) (g : gen),
    forward mode m x g = (infer m x, g).
Proof.
  unfold no_dropout.
  induction m as [ | i o w b | | p | ms IH] using module_ind';
    intros Hno mode x g; try reflexivity.
  - inversion Hno as [|? ? Hp _]. contradiction.
  - simpl in Hno. apply List.Forall_flat_map in Hno. simpl. revert x g.
    induction IH as [|c ms Hc _ IHms]; intros x g; [reflexivity | ].
    inversion Hno as [|? ? Hnc Hnms]; subst. simpl.
    rewrite (Hc Hnc). apply (IHms Hnms).
Qed.

Lemma create_model_no_dropout (hidden_dims : list Z) (g g' : gen)
    (m : module values) :
  create_model hidden_dims g = Ok (m, g') -> no_dropout m.
Proof.
  intros H. apply create_model_inv in H as (_ & _ & H). unfold no_dropout.
  assert (Hq : Forall (fun a => match a with ADropout _ => False | _ => True end)
                 (factory_layers [] hidden_dims)).
  { unfold factory_layers. constructor; [exact I | ]. apply Forall_app. split.
    - repeat constructor.
    - apply Forall_app. split; [ | repeat constructor].
      apply List.Forall_flat_map. apply List.Forall_forall. intros io _.
      repeat constructor. }
  rewrite <- H in Hq. apply List.Forall_map in Hq.
  eapply List.Forall_impl; [ | exact Hq]. intros l Hl. destruct l; exact Hl.
Qed.

(** X9: A model built by [create_model] has no dropout layer: its
    predictions are the same in training and in evaluation mode and draw
    nothing from the random generator, so the loss of a training batch is
    the loss the evaluator would compute for it, and training leaves the
    generator as it was. *)
Theorem create_model_ignores_mode (hidden_dims : list Z) (g g' : gen)
    (m : module values) :
  create_model hidden_dims g = Ok (m, g') ->
  (forall (mode : bool) (x : act) (g0 : gen),
      forward mode m x g0 = (infer m x, g0))
  /\ (forall (w : world) (b : act * labels),
        net (st w) = m ->
        fst (train_batch (fst b) (snd b) w) = batch_loss m b
        /\ rng (st (train_step w b)) = rng (st w)).
Proof.
  intros H. pose proof (create_model_no_dropout _ _ _ _ H) as Hno.
  split; [intros; apply forward_no_dropout, Hno | ].
  intros w [x y] Hnet. unfold train_step. simpl. rewrite train_batch_spec.
  simpl. rewrite Hnet, (forward_no_dropout m Hno). split; reflexivity.
Qed.

(** ** Loading a snapshot *)

Lemma state_dict_at_assign (m : module values) :
  forall (sd : snapshot) (prefix : list nat) (k : pkey),
    state_dict_at prefix (assign_at sd prefix m) !! k
    = (fun t => assign_tensor sd k t) <$> state_dict_at prefix m !! k.
Proof.
  induction m as [ | i o w b | | p | ms IH] using module_ind';
    intros sd prefix k; try (simpl; rewrite !lookup_empty; reflexivity).
  - simpl. rewrite !lookup_insert, !lookup_empty.
    repeat case_decide; simplify_eq; reflexivity.
  - rewrite assign_at_Sequential, !state_dict_at_Sequential.
    generalize 0%nat.
    induction IH as [|c ms Hc _ IHms]; intros i; simpl.
    + rewrite !lookup_empty. reflexivity.
    + rewrite !lookup_union, Hc, IHms.
      destruct (state_dict_at (prefix ++ [i]) c !! k),
        (state_dict_children prefix (S i) ms !! k); reflexivity.
Qed.

Lemma skeleton_assign (m : module values) :
  forall (sd : snapshot) (prefix : list nat),
    (forall k t, state_dict_at prefix m !! k = Some t ->
                 exists t', sd !! k = Some t' /\ shape t' = shape t) ->
    skeleton (assign_at sd prefix m) = skeleton m.
Proof.
  induction m as [ | i o w b | | p | ms IH] using module_ind';
    intros sd prefix Hsd; try reflexivity.
  - simpl.
    destruct (Hsd (prefix, Weight) w) as (w' & Hw & Hsw);
      [apply lookup_insert_eq | ].
    destruct (Hsd (prefix, Bias) b) as (b' & Hb & Hsb);
      [simpl; rewrite lookup_insert_ne by congruence;
       apply lookup_insert_eq | ].
    rewrite (assign_tensor_lookup _ _ _ _ Hw),
      (assign_tensor_lookup _ _ _ _ Hb), Hsw, Hsb. reflexivity.
  - rewrite assign_at_Sequential. simpl. f_equal.
    rewrite state_dict_at_Sequential in Hsd. revert Hsd. generalize 0%nat.
    induction IH as [|c ms Hc _ IHms]; intros i Hsd; simpl; [reflexivity | ].
    f_equal.
    + apply Hc. intros k t Hk. apply Hsd. simpl.
      apply lookup_union_Some_l. exact Hk.
    + apply IHms. intros k t Hk. apply Hsd. simpl.
      apply lookup_union_Some_raw. right. split; [ | exact Hk].
      destruct (state_dict_at (prefix ++ [i]) c !! k) as [t0|] eqn:E;
        [ | reflexivity].
      exfalso.
      eapply (map_disjoint_spec (state_dict_at (prefix ++ [i]) c));
        [apply state_dict_children_disjoint | exact E | exact Hk].
Qed.

Lemma load_state_dict_spec (sd : snapshot) (m m1 : module values) :
  load_state_dict sd m = Ok m1 ->
  state_dict m1 = sd /\ skeleton m1 = skeleton m
  /\ shape <$> sd = shape <$> state_dict m.
Proof.
  unfold load_state_dict. destruct (bool_decide _) eqn:E; [ | discriminate].
  apply bool_decide_eq_true_1 in E. intros H. inversion H; subst m1; clear H.
  assert (Hkey : forall k t, state_dict m !! k = Some t ->
                   exists t', sd !! k = Some t' /\ shape t' = shape t).
  { intros k t Hk. pose proof (f_equal (fun d => d !! k) E) as Ek.
    simpl in Ek. rewrite !lookup_fmap, Hk in Ek.
    destruct (sd !! k) as [t'|]; [ | discriminate].
    inversion Ek. eauto. }
  split; [ | split; [apply skeleton_assign, Hkey | exact E]].
  apply map_eq. intros k. unfold state_dict. rewrite state_dict_at_assign.
  pose proof (f_equal (fun d => d !! k) E) as Ek. simpl in Ek.
  rewrite !lookup_fmap in Ek. fold (state_dict m) in *.
  destruct (state_dict m !! k) as [t|] eqn:Hk; simpl.
  - destruct (Hkey k t Hk) as (t' & Ht' & _).
    rewrite (assign_tensor_lookup _ _ _ _ Ht'). symmetry. exact Ht'.
  - destruct (sd !! k); [discriminate | reflexivity].
Qed.

(** X10: After [load_model] returns, the model's [state_dict] is the
    snapshot that was in the file, the architecture is the one the model
    had, and mode, gradients, optimizer, generator, files and output are
    untouched; loading the file again changes nothing, and saving the loaded
    model under the same name leaves the files as they are. *)
Theorem load_model_installs_snapshot (path : string) (s s1 : state) :
  load_model path s = Ok s1 ->
  files s !! path = Some (state_dict (net s1))
  /\ skeleton (net s1) = skeleton (net s)
  /\ training s1 = training s /\ grads s1 = grads s /\ opt s1 = opt s
  /\ rng s1 = rng s /\ files s1 = files s /\ stdout s1 = stdout s
  /\ load_model path s1 = Ok s1
  /\ torch_save (state_dict (net s1)) path s1 = s1.
Proof.
  unfold load_model, torch_load. intros H.
  destruct (files s !! path) as [sd|] eqn:Hsd; [ | discriminate]. simpl in H.
  apply bind_Ok in H as (m1 & Hm1 & H). inversion H; subst s1; clear H.
  destruct (load_state_dict_spec _ _ _ Hm1) as (Hdict & Hsk & Hshape).
  simpl. rewrite Hdict, Hsd.
  split; [reflexivity | ]. split; [exact Hsk | ].
  do 6 (split; [reflexivity | ]). split.
  - simpl. rewrite <- Hdict at 1.
    rewrite (load_state_dict_same_architecture m1 m1 eq_refl). reflexivity.
  - unfold torch_save. simpl. rewrite (insert_id _ _ _ Hsd). reflexivity.
Qed.

(** X11: What [load_model] puts into the model does not depend on the
    parameter values the model had: two models of one architecture end up
    with the same layers and parameters. *)
Theorem load_model_overwrites_all (path : string) (s s' s1 : state) :
  load_model path s = Ok s1 ->
  skeleton (net s') = skeleton (net s) -> files s' = files s ->
  exists s1', load_model path s' = Ok s1' /\ net s1' = net s1.
Proof.
  unfold load_model, torch_load. intros H Hsk Hfiles. rewrite Hfiles.
  destruct (files s !! path) as [sd|] eqn:Hsd; [ | discriminate]. simpl in *.
  apply bind_Ok in H as (m1 & Hm1 & H). inversion H; subst s1; clear H.
  destruct (load_state_dict_spec _ _ _ Hm1) as (Hdict & Hsk1 & _).
  rewrite <- Hdict.
  rewrite (load_state_dict_same_architecture m1 (net s'));
    [simpl; eauto | congruence].
Qed.

(** ** The checkpoint policy over a whole run *)

Lemma SFeqb_leb_sym (x y : spec_float) :
  SFeqb x y = true -> SFleb y x = true.
Proof. unfold SFleb, SFeqb. sf_cases x; sf_cases y; sf_order. Qed.

Lemma SFltb_not_nan (x y : spec_float) :
  SFltb x y = true -> SFeqb x x = true.
Proof. unfold SFltb, SFeqb. sf_cases x; sf_cases y; sf_order. Qed.

Lemma eqb_leb_sym (x y : float) :
  (x =? y)%float = true -> (y <=? x)%float = true.
Proof.
  rewrite FloatAxioms.leb_spec, FloatAxioms.eqb_spec. apply SFeqb_leb_sym.
Qed.

Lemma ltb_not_nan (x y : float) : (x <? y)%float = true -> not_nan x.
Proof.
  unfold not_nan. rewrite FloatAxioms.ltb_spec, FloatAxioms.eqb_spec.
  apply SFltb_not_nan.
Qed.

Lemma not_nan_dec (x : float) : {not_nan x} + {~ not_nan x}.
Proof.
  unfold not_nan. destruct (x =? x)%float; [left | right]; congruence.
Qed.

Lemma min_from_snoc (l : list float) :
  forall (m x : float),
    min_from m (l ++ [x])
    = if (x <? min_from m l)%float then x else min_from m l.
Proof.
  induction l as [|y l IH]; intros m x; simpl; [reflexivity | apply IH].
Qed.

Lemma min_snoc (b : list float) (best v : float) :
  Py.min b = Ok best ->
  Py.min (b ++ [v]) = Ok (if (v <? best)%float then v else best).
Proof.
  destruct b as [|m l]; [discriminate | ]. simpl. intros H.
  inversion H; subst best. rewrite min_from_snoc. reflexivity.
Qed.

(** From a first item that is not NaN on, [min] is at most every item that
    is not NaN. *)
Lemma min_from_lower_bound (l : list float) :
  forall m : float,
    not_nan m ->
    not_nan (min_from m l)
    /\ Forall (fun x => not_nan x -> (min_from m l <=? x)%float = true)
         (m :: l).
Proof.
  induction l as [|x l IH]; intros m Hm; simpl.
  - split; [exact Hm | ]. constructor; [intros _; now apply leb_refl | ].
    constructor.
  - set (m' := if (x <? m)%float then x else m).
    assert (Hm' : not_nan m').
    { unfold m'. destruct (x <? m)%float eqn:E; [ | exact Hm].
      eapply ltb_not_nan, E. }
    destruct (IH m' Hm') as [Hr Hall]. split; [exact Hr | ].
    inversion Hall as [|? ? Hrm' Hrl]; subst.
    assert (Hle : (m' <=? m)%float = true
                  /\ (not_nan x -> (m' <=? x)%float = true)).
    { unfold m'. destruct (x <? m)%float eqn:E.
      - split; [now apply ltb_leb | intros Hx; now apply leb_refl].
      - split; [now apply leb_refl | intros Hx; now apply not_ltb_leb]. }
    destruct Hle as [H1 H2].
    constructor; [intros _; eapply leb_trans; eauto | ].
    constructor; [intros Hx; eapply leb_trans; eauto | exact Hrl].
Qed.

Lemma non_increasing_snoc (l : list float) (v : float) :
  non_increasing l ->
  (forall r, last l = Some r -> (v <=? r)%float = true) ->
  non_increasing (l ++ [v]).
Proof.
  induction l as [|x [|y l] IH]; intros Hl Hv.
  - exact I.
  - simpl. split; [apply Hv; reflexivity | exact I].
  - destruct Hl as [Hyx Hl]. split; [exact Hyx | ].
    apply IH; [exact Hl | ]. intros r Hr. apply Hv. exact Hr.
Qed.

Lemma reported_losses_app (o1 o2 : list message) :
  reported_losses (o1 ++ o2) = reported_losses o1 ++ reported_losses o2.
Proof. apply flat_map_app. Qed.

Lemma checkpoint_progress_step (filename : string) (val_loader : dataloader)
    (out0 : list message) (files0 : gmap string snapshot) (epoch : Z)
    (a b : list float) (acc : float) (s : state) :
  checkpoint_progress filename val_loader out0 files0 s b ->
  exists s',
    save_model_if_improved filename epoch a
      (b ++ [val_loss (net s) val_loader]) acc s
    = Ok (s', (a, b ++ [val_loss (net s) val_loader]))
    /\ net s' = net s
    /\ checkpoint_progress filename val_loader out0 files0 s'
         (b ++ [val_loss (net s) val_loader]).
Proof.
  set (v := val_loss (net s) val_loader). intros [Hnil Hcons].
  destruct (save_model_if_improved_spec filename epoch a (b ++ [v]) acc s)
    as (last & best' & Hlast & Hbest' & ->); [destruct b; discriminate | ].
  rewrite last_item_app in Hlast. inversion Hlast; subst last; clear Hlast.
  eexists. split; [reflexivity | ].
  destruct b as [|v0 rest].
  - (* the first epoch *)
    destruct (Hnil eq_refl) as [Hout Hfiles].
    simpl in Hbest'. inversion Hbest'; subst best'; clear Hbest'.
    destruct (v =? v)%float eqn:E; simpl.
    + split; [reflexivity | ]. split; [discriminate | ].
      intros v0 rest Hb. inversion Hb; subst v0 rest. split.
      * intros _. exists (net s), v, [MsgNewBest epoch v]. simpl.
        rewrite lookup_insert_eq, Hout.
        repeat split; try reflexivity. exact E.
      * intros Hnan. contradiction.
    + split; [reflexivity | ]. split; [discriminate | ].
      intros v0 rest Hb. inversion Hb; subst v0 rest. split.
      * unfold not_nan. intros Hv. congruence.
      * intros _. split; assumption.
  - (* a later epoch *)
    destruct (Hcons v0 rest eq_refl) as [Hgood Hnan].
    destruct (not_nan_dec v0) as [Hv0 | Hv0].
    + destruct (Hgood Hv0)
        as (m & best & msgs & Hfile & Hsk & Hbest & Hloss & Hout & Hmono
            & Hlastr).
      rewrite (min_snoc _ _ v Hbest) in Hbest'.
      inversion Hbest'; subst best'; clear Hbest'.
      assert (Hcase : (v =? (if (v <? best)%float then v else best))%float
                      = true
                      \/ ((v =? (if (v <? best)%float then v else best))%float
                          = false /\ (v <? best)%float = false)).
      { destruct (v <? best)%float eqn:Elt.
        - left. apply (ltb_not_nan _ _ Elt).
        - destruct (v =? best)%float; [left | right]; auto. }
      destruct Hcase as [E | [E Elt]]; rewrite E; simpl.
      * split; [reflexivity | ]. split; [discriminate | ].
        intros v0' rest' Hb. inversion Hb; subst v0' rest'. split; [ | tauto].
        intros _.
        exists (net s), (if (v <? best)%float then v else best),
          (msgs ++ [MsgNewBest epoch v]). simpl.
        rewrite lookup_insert_eq, Hout, <- app_assoc, reported_losses_app.
        simpl.
        split; [reflexivity | ]. split; [reflexivity | ].
        split; [apply (min_snoc (v0 :: rest) best v Hbest) | ].
        split; [exact E | ]. split; [reflexivity | ].
        split; [ | apply last_snoc].
        apply non_increasing_snoc; [exact Hmono | ].
        intros r Hr. rewrite Hlastr in Hr. inversion Hr; subst r.
        apply leb_trans with best; [ | apply eqb_leb_sym, Hloss].
        destruct (v <? best)%float eqn:Elt;
          [apply ltb_leb, Elt | apply eqb_leb, E].
      * split; [reflexivity | ]. split; [discriminate | ].
        intros v0' rest' Hb. inversion Hb; subst v0' rest'. split; [ | tauto].
        intros _. exists m, best, msgs.
        repeat split; try assumption.
        pose proof (min_snoc (v0 :: rest) best v Hbest) as Hm.
        rewrite Elt in Hm. exact Hm.
    + destruct (Hnan Hv0) as [Hout Hfiles].
      simpl in Hbest'. inversion Hbest'; subst best'; clear Hbest'.
      rewrite (min_from_nan _ v0 Hv0), (nan_eqb v v0 Hv0). simpl.
      split; [reflexivity | ]. split; [discriminate | ].
      intros v0' rest' Hb. inversion Hb; subst v0' rest'. split; [tauto | ].
      intros _. split; assumption.
Qed.

Lemma checkpoint_progress_transfer (filename : string)
    (val_loader : dataloader) (out0 : list message)
    (files0 : gmap string snapshot) (s s2 : state) (b : list float) :
  files s2 = files s -> stdout s2 = stdout s ->
  skeleton (net s2) = skeleton (net s) ->
  checkpoint_progress filename val_loader out0 files0 s b ->
  checkpoint_progress filename val_loader out0 files0 s2 b.
Proof.
  intros Hf Ho Hsk [Hnil Hcons]. split.
  - intros Hb. rewrite Hf, Ho. apply Hnil, Hb.
  - intros v0 rest Hb. destruct (Hcons v0 rest Hb) as [Hgood Hnan]. split.
    + intros Hv. destruct (Hgood Hv)
        as (m & best & msgs & H1 & H2 & H3 & H4 & H5 & H6 & H7).
      exists m, best, msgs. rewrite Hf, Ho, Hsk. repeat split; assumption.
    + intros Hv. rewrite Hf, Ho. apply Hnan, Hv.
Qed.

Lemma train_epochs_progress (filename : string)
    (train_loader val_loader : dataloader) (out0 : list message)
    (files0 : gmap string snapshot) :
  train_loader <> [] -> val_loader <> [] ->
  forall (es : list Z) (w : world) (a b : list float),
    checkpoint_progress filename val_loader out0 files0 (st w) b ->
    exists (a' b' : list float) (w' : world),
      train_epochs (save_model_if_improved filename) train_loader val_loader
        es w a b = Ok (a ++ a', b ++ b', w')
      /\ skeleton (net (st w')) = skeleton (net (st w))
      /\ checkpoint_progress filename val_loader out0 files0 (st w') (b ++ b')
      /\ (forall e es', es = e :: es' ->
          exists later,
            b' = val_loss (net (st (fold_left train_step train_loader w)))
                   val_loader :: later).
Proof.
  intros Htl Hvl. induction es as [|e es IH]; intros w a b Hprog.
  - exists [], [], w. simpl. rewrite !app_nil_r.
    split; [reflexivity | ]. split; [reflexivity | ].
    split; [exact Hprog | ]. intros; discriminate.
  - destruct (train_epochs_step (save_model_if_improved filename) train_loader
                val_loader e es w a b Htl Hvl)
      as (l & v & acc & w2 & _ & Hval & Hst & _ & ->).
    rewrite (validate_nonempty _ _ Hvl) in Hval.
    assert (Hv : val_loss (net (st (fold_left train_step train_loader w)))
                   val_loader = v)
      by (unfold val_loss; congruence).
    clear Hval.
    assert (Hnet2 : net (st w2)
                    = net (st (fold_left train_step train_loader w)))
      by (rewrite Hst; reflexivity).
    destruct (train_steps_io train_loader w) as [Hfiles Hout].
    assert (Hprog2 : checkpoint_progress filename val_loader out0 files0
                       (st w2) b).
    { eapply checkpoint_progress_transfer; [ | | | exact Hprog].
      - rewrite Hst. exact Hfiles.
      - rewrite Hst. exact Hout.
      - rewrite Hnet2. apply train_steps_skeleton. }
    destruct (checkpoint_progress_step filename val_loader out0 files0 e
                (a ++ [l]) b acc (st w2) Hprog2) as (s' & Hcb & Hnet' & Hprog').
    rewrite Hnet2, Hv in Hcb. rewrite Hcb. simpl mbind.
    rewrite Hnet2, Hv in Hprog'.
    destruct (IH (World s' (trace w2 ++ [EvObserver e])) (a ++ [l])
                (b ++ [v]) Hprog') as (a' & b' & w' & -> & Hsk & Hfin & _).
    rewrite <- app_assoc in Hfin.
    exists (l :: a'), (v :: b'), w'. rewrite <- !app_assoc. simpl in *.
    split; [reflexivity | ].
    split; [rewrite Hsk, Hnet', Hnet2; apply train_steps_skeleton | ].
    split; [exact Hfin | ].
    intros e0 es0 _. exists b'. rewrite Hv. reflexivity.
Qed.

Lemma train_checkpoint_run (w : world) (train_loader val_loader : dataloader)
    (n_epochs : Z) (filename : string) :
  1 <= n_epochs -> train_loader <> [] -> val_loader <> [] ->
  exists (train_losses later : list float) (w' : world),
    let v0 := val_loss (net (st (fold_left train_step train_loader w)))
                val_loader in
    train w train_loader val_loader n_epochs (save_model_if_improved filename)
    = Ok (train_losses, v0 :: later, w')
    /\ skeleton (net (st w')) = skeleton (net (st w))
    /\ (not_nan v0 ->
        checkpoint_invariant filename val_loader (stdout (st w)) (st w')
          (v0 :: later))
    /\ (~ not_nan v0 ->
        stdout (st w') = stdout (st w) /\ files (st w') = files (st w)).
Proof.
  intros Hn Htl Hvl. unfold train. rewrite (range_pos _ Hn).
  destruct (train_epochs_progress filename train_loader val_loader
              (stdout (st w)) (files (st w)) Htl Hvl
              (0 :: map Z.of_nat (seq 1 (Z.to_nat n_epochs - 1))) w [] [])
    as (a' & b' & w' & Hrun & Hsk & [_ Hprog] & Hhead).
  { split; [intros _; split; reflexivity | intros; discriminate]. }
  destruct (Hhead _ _ eq_refl) as (later & ->).
  exists a', later, w'. simpl in *.
  split; [exact Hrun | ]. split; [exact Hsk | ].
  exact (Hprog _ _ eq_refl).
Qed.

(** X12: Early stopping: after a run of at least one epoch with the
    checkpoint policy whose first validation loss is not NaN, the file holds
    the parameters of a model of the run's architecture whose validation
    loss equals ([==]) the minimum of the returned validation history and is
    at most every loss of that history that is not NaN. *)
Theorem checkpoint_file_holds_best (w : world)
    (train_loader val_loader : dataloader) (n_epochs : Z)
    (filename : string) :
  1 <= n_epochs -> train_loader <> [] -> val_loader <> [] ->
  exists (train_losses : list float) (v0 : float) (later : list float)
         (w' : world),
    train w train_loader val_loader n_epochs (save_model_if_improved filename)
    = Ok (train_losses, v0 :: later, w')
    /\ (not_nan v0 ->
        exists (m : module values) (best : float),
          files (st w') !! filename = Some (state_dict m)
          /\ skeleton m = skeleton (net (st w))
          /\ Py.min (v0 :: later) = Ok best
          /\ (val_loss m val_loader =? best)%float = true
          /\ Forall (fun x => not_nan x ->
                              (val_loss m val_loader <=? x)%float = true)
               (v0 :: later)).
Proof.
  intros Hn Htl Hvl.
  destruct (train_checkpoint_run w train_loader val_loader n_epochs filename
              Hn Htl Hvl) as (tls & later & w' & Hrun & Hsk & Hgood & _).
  simpl in *. do 4 eexists. split; [exact Hrun | ].
  intros Hv0. destruct (Hgood Hv0)
    as (m & best & msgs & Hfile & Hskm & Hbest & Hloss & _).
  exists m, best. split; [exact Hfile | ].
  split; [rewrite Hskm; exact Hsk | ]. split; [exact Hbest | ].
  split; [exact Hloss | ].
  simpl in Hbest. inversion Hbest; subst best.
  destruct (min_from_lower_bound later _ Hv0) as [_ Hall].
  eapply List.Forall_impl; [ | exact Hall]. simpl. intros x Hx Hnx.
  eapply leb_trans; [apply eqb_leb, Hloss | apply Hx, Hnx].
Qed.

(** X13: The losses reported in the "new best model" lines of a run never go
    up from one line to the next; when the first validation loss is not NaN,
    the last line reports a loss equal ([==]) to the minimum of the returned
    history, and when it is NaN the run reports nothing. *)
Theorem checkpoint_reports_never_go_up (w : world)
    (train_loader val_loader : dataloader) (n_epochs : Z)
    (filename : string) :
  1 <= n_epochs -> train_loader <> [] -> val_loader <> [] ->
  exists (train_losses : list float) (v0 : float) (later : list float)
         (w' : world) (msgs : list message),
    train w train_loader val_loader n_epochs (save_model_if_improved filename)
    = Ok (train_losses, v0 :: later, w')
    /\ stdout (st w') = stdout (st w) ++ msgs
    /\ non_increasing (reported_losses msgs)
    /\ (not_nan v0 ->
        exists r best : float,
          last (reported_losses msgs) = Some r
          /\ Py.min (v0 :: later) = Ok best /\ (r =? best)%float = true)
    /\ (~ not_nan v0 -> msgs = []).
Proof.
  intros Hn Htl Hvl.
  destruct (train_checkpoint_run w train_loader val_loader n_epochs filename
              Hn Htl Hvl) as (tls & later & w' & Hrun & _ & Hgood & Hnan).
  simpl in *.
  destruct (not_nan_dec
              (val_loss (net (st (fold_left train_step train_loader w)))
                 val_loader)) as [Hv0 | Hv0].
  - destruct (Hgood Hv0)
      as (m & best & msgs & _ & _ & Hbest & Hloss & Hout & Hmono & Hlast).
    eexists tls, _, later, w', msgs. split; [exact Hrun | ].
    split; [exact Hout | ]. split; [exact Hmono | ].
    split; [ | contradiction].
    intros _. exists (val_loss m val_loader), best.
    split; [exact Hlast | ]. split; [exact Hbest | exact Hloss].
  - destruct (Hnan Hv0) as [Hout _].
    eexists tls, _, later, w', []. split; [exact Hrun | ].
    split; [rewrite app_nil_r; exact Hout | ]. split; [exact I | ].
    split; [contradiction | reflexivity].
Qed.

(** *** The cells that train, reload the file and evaluate *)

Lemma min_from_elem (l : list float) :
  forall m : float, min_from m l ∈ m :: l.
Proof.
  induction l as [|x l IH]; intros m; simpl; [left | ].
  specialize (IH (if (x <? m)%float then x else m)).
  rewrite !elem_of_cons in *. destruct (x <? m)%float; tauto.
Qed.


(** A factory that builds the same architecture from every generator
    state, whenever it returns from one. *)
Lemma create_model_stable (hidden_dims : list Z) (g1 g1' g2 : gen)
    (m1 : module values) :
  create_model hidden_dims g1 = Ok (m1, g1') ->
  exists m2 g2',
    create_model hidden_dims g2 = Ok (m2, g2') /\ skeleton m2 = skeleton m1.
Proof.
  intros H. pose proof (create_model_inv _ _ _ _ H) as (H1 & H2 & _).
  destruct (create_model_ok hidden_dims g2 H1 H2)
    as (m2 & g2' & _ & _ & _ & _ & H' & _).
  exists m2, g2'. split; [exact H' | ].
  eapply create_model_same_architecture; eassumption.
Qed.


Lemma checkpoint_cells_run (factory : gen -> result (module values * gen))
    (optimizer : optim) (filename : string)
    (train_loader val_loader test_loader : dataloader) (n_epochs : Z)
    (s : state) (model : module values) (g : gen) :
  (forall g1 g1' g2 m1,
      factory g1 = Ok (m1, g1') ->
      exists m2 g2', factory g2 = Ok (m2, g2') /\ skeleton m2 = skeleton m1) ->
  1 <= n_epochs -> train_loader <> [] -> val_loader <> [] ->
  test_loader <> [] ->
  factory (rng s) = Ok (model, g) ->
  exists (train_losses : list float) (v0 : float) (later : list float)
         (w : world),
    train (World (new_learner model optimizer g s) []) train_loader
      val_loader n_epochs (save_model_if_improved filename)
    = Ok (train_losses, v0 :: later, w)
    /\ (not_nan v0 ->
        exists (m : module values) (figure : list (plot_call float))
               (w1 : world),
          checkpoint_cells factory optimizer filename train_loader val_loader
            test_loader n_epochs s
          = Ok (val_loss m test_loader, val_accuracy m test_loader, figure, w1)
          /\ net (st w1) = m
          /\ files (st w1) !! filename = Some (state_dict m)
          /\ skeleton m = skeleton model
          /\ (val_loss m val_loader =? min_from v0 later)%float = true
          /\ In (PltAxhline (min_from v0 later)) figure)
    /\ (~ not_nan v0 -> files s !! filename = None ->
        checkpoint_cells factory optimizer filename train_loader val_loader
          test_loader n_epochs s
        = Raise FileNotFoundError).
Proof.
  intros Hstable Hn Htl Hvl Htest Hfac.
  destruct (train_checkpoint_run (World (new_learner model optimizer g s) [])
              train_loader val_loader n_epochs filename Hn Htl Hvl)
    as (tls & later & w & Hrun & Hsk & Hgood & Hnan).
  simpl in Hrun, Hsk, Hgood, Hnan.
  destruct (Hstable _ _ (rng (st w)) _ Hfac) as (pm & g2 & Hfac2 & Hskpm).
  do 4 eexists. split; [exact Hrun | ].
  assert (Hcells :
    checkpoint_cells factory optimizer filename train_loader val_loader
      test_loader n_epochs s
    = (figure ← plot_losses tls
                  (val_loss
                     (net (st (fold_left train_step train_loader
                                 (World (new_learner model optimizer g s)
                                    []))))
                     val_loader :: later);
       s1 ← load_model filename (new_learner pm (opt (st w)) g2 (st w));
       '(test_loss, test_accuracy, w1) ←
         validate (World s1 (trace w)) test_loader;
       Ok (test_loss, test_accuracy, figure, w1))).
  { unfold checkpoint_cells. rewrite Hfac. simpl mbind at 1.
    rewrite Hrun. simpl mbind at 1. rewrite Hfac2. reflexivity. }
  rewrite Hcells. clear Hcells. simpl mbind at 1.
  unfold load_model, torch_load. simpl files. split.
  - intros Hv0. destruct (Hgood Hv0)
      as (m & best & msgs & Hfile & Hskm & Hbest & Hloss & _).
    simpl in Hbest. inversion Hbest; subst best.
    rewrite Hfile. simpl mbind at 1. simpl net.
    rewrite (load_state_dict_same_architecture m pm)
      by (rewrite Hskpm, Hskm, Hsk; reflexivity).
    simpl mbind at 1. rewrite (validate_nonempty _ _ Htest). simpl.
    do 3 eexists. split; [reflexivity | ]. simpl.
    split; [reflexivity | ]. split; [exact Hfile | ].
    split; [rewrite Hskm; exact Hsk | ]. split; [exact Hloss | ].
    right. right. right. left. reflexivity.
  - intros Hv0 Hnone. destruct (Hnan Hv0) as [_ Hfiles].
    rewrite Hfiles, Hnone. reflexivity.
Qed.

(** X14: The early-stopping cells of the script, for at least one epoch and
    loaders that are not empty: when the first validation loss is not NaN
    they return the test loss and test accuracy of the model [m] read back
    from the file, whose validation loss equals ([==]) the minimum of the
    validation history, the value at which the figure draws its horizontal
    line; when the first validation loss is NaN and no file was there
    before, they raise [FileNotFoundError]. *)
Theorem early_stopping_cells_evaluate_best (hidden_dims : list Z)
    (optimizer : optim) (filename : string)
    (train_loader val_loader test_loader : dataloader) (n_epochs : Z)
    (s : state) (model : module values) (g : gen) :
  1 <= n_epochs -> train_loader <> [] -> val_loader <> [] ->
  test_loader <> [] ->
  create_model hidden_dims (rng s) = Ok (model, g) ->
  exists (train_losses : list float) (v0 : float) (later : list float)
         (w : world),
    train (World (new_learner model optimizer g s) []) train_loader
      val_loader n_epochs (save_model_if_improved filename)
    = Ok (train_losses, v0 :: later, w)
    /\ (not_nan v0 ->
        exists (m : module values) (figure : list (plot_call float))
               (w1 : world),
          early_stopping_cells hidden_dims optimizer filename train_loader
            val_loader test_loader n_epochs s
          = Ok (val_loss m test_loader, val_accuracy m test_loader, figure, w1)
          /\ net (st w1) = m
          /\ files (st w1) !! filename = Some (state_dict m)
          /\ skeleton m = skeleton model
          /\ (val_loss m val_loader =? min_from v0 later)%float = true
          /\ In (PltAxhline (min_from v0 later)) figure)
    /\ (~ not_nan v0 -> files s !! filename = None ->
        early_stopping_cells hidden_dims optimizer filename train_loader
          val_loader test_loader n_epochs s
        = Raise FileNotFoundError).
Proof.
  intros Hn Htl Hvl Htest Hfac. unfold early_stopping_cells.
  apply checkpoint_cells_run; try assumption.
  intros g1 g1' g2 m1. apply create_model_stable.
Qed.




(** *** Observers that only print or save *)

Lemma same_learner_chain (s1 s2 s1' s2' : state) :
  same_learner s1 s2 -> same_learner s1 s1' -> same_learner s2 s2' ->
  same_learner s1' s2'.
Proof.
  unfold same_learner.
  intros (? & ? & ? & ? & ?) (? & ? & ? & ? & ?) (? & ? & ? & ? & ?).
  repeat split; congruence.
Qed.

Lemma train_step_same_learner (w w' : world) (b : act * labels) :
  same_learner (st w) (st w') ->
  same_learner (st (train_step w b)) (st (train_step w' b))
  /\ fst (train_batch (fst b) (snd b) w)
     = fst (train_batch (fst b) (snd b) w').
Proof.
  intros (H1 & H2 & _ & H4 & H5). unfold same_learner, train_step.
  rewrite !train_batch_spec. simpl. rewrite H1, H2, H4, H5.
  repeat split; reflexivity.
Qed.

Lemma train_steps_same_learner (dl : dataloader) :
  forall w w' : world,
    same_learner (st w) (st w') ->
    same_learner (st (fold_left train_step dl w))
      (st (fold_left train_step dl w'))
    /\ epoch_losses w dl = epoch_losses w' dl.
Proof.
  induction dl as [|b dl IH]; intros w w' H; simpl.
  - split; [exact H | reflexivity].
  - destruct (train_step_same_learner w w' b H) as [Hs Hl].
    destruct (IH _ _ Hs) as [Hs' Hl']. split; [exact Hs' | ].
    rewrite Hl, Hl'. reflexivity.
Qed.

Lemma print_loss_every_n_epochs_spec (n epoch : Z) (a b : list float)
    (l v acc : float) (s : state) :
  n <> 0 ->
  print_loss_every_n_epochs n epoch (a ++ [l]) (b ++ [v]) acc s
  = Ok (if epoch mod n =? 0 then print (MsgEpoch epoch l v acc) s else s,
        (a ++ [l], b ++ [v])).
Proof.
  intros Hn. unfold print_loss_every_n_epochs, Py.int_mod.
  destruct (Z.eqb_spec n 0) as [E|_]; [contradiction | ]. simpl.
  rewrite !last_item_app. destruct (epoch mod n =? 0); reflexivity.
Qed.

Lemma print_loss_every_n_epochs_passive (n : Z) :
  n <> 0 -> passive (print_loss_every_n_epochs n).
Proof.
  intros Hn epoch a b acc s Ha Hb.
  destruct (last_item_nonempty a Ha) as (a0 & la & -> & _).
  destruct (last_item_nonempty b Hb) as (b0 & lb & -> & _).
  rewrite (print_loss_every_n_epochs_spec n epoch a0 b0 la lb acc s Hn).
  eexists. split; [reflexivity | ].
  destruct (epoch mod n =? 0); repeat split; reflexivity.
Qed.

Lemma save_model_if_improved_passive (filename : string) :
  passive (save_model_if_improved filename).
Proof.
  intros epoch a b acc s _ Hb.
  destruct (save_model_if_improved_spec filename epoch a b acc s Hb)
    as (last & best & _ & _ & ->).
  eexists. split; [reflexivity | ].
  destruct (last =? best)%float; repeat split; reflexivity.
Qed.

Lemma train_epochs_passive (cb1 cb2 : observer)
    (train_loader val_loader : dataloader) :
  passive cb1 -> passive cb2 -> train_loader <> [] -> val_loader <> [] ->
  forall (es : list Z) (w1 w2 : world) (a b : list float),
    same_learner (st w1) (st w2) ->
    exists (a' b' : list float) (w1' w2' : world),
      train_epochs cb1 train_loader val_loader es w1 a b
      = Ok (a ++ a', b ++ b', w1')
      /\ train_epochs cb2 train_loader val_loader es w2 a b
         = Ok (a ++ a', b ++ b', w2')
      /\ same_learner (st w1') (st w2').
Proof.
  intros Hc1 Hc2 Htl Hvl. induction es as [|e es IH]; intros w1 w2 a b Hs.
  - exists [], [], w1, w2. simpl. rewrite !app_nil_r.
    split; [reflexivity | ]. split; [reflexivity | exact Hs].
  - destruct (train_epochs_step cb1 train_loader val_loader e es w1 a b
                Htl Hvl) as (l1 & v1 & acc1 & x1 & Ht1 & Hv1 & Hst1 & _ & E1).
    destruct (train_epochs_step cb2 train_loader val_loader e es w2 a b
                Htl Hvl) as (l2 & v2 & acc2 & x2 & Ht2 & Hv2 & Hst2 & _ & E2).
    rewrite E1, E2. clear E1 E2.
    destruct (train_steps_same_learner train_loader w1 w2 Hs) as [Hs' Hl].
    rewrite (train_one_epoch_nonempty _ _ Htl) in Ht1.
    rewrite (train_one_epoch_nonempty _ _ Htl) in Ht2.
    rewrite (validate_nonempty _ _ Hvl) in Hv1.
    rewrite (validate_nonempty _ _ Hvl) in Hv2.
    assert (El : l2 = l1) by (rewrite Hl in Ht1; congruence).
    assert (Ev : v2 = v1 /\ acc2 = acc1).
    { destruct Hs' as (Hn & _). rewrite Hn in Hv1. split; congruence. }
    destruct Ev as [-> ->]. subst l2. clear Ht1 Ht2 Hv1 Hv2.
    assert (Hx : same_learner (st x1) (st x2)).
    { rewrite Hst1, Hst2. destruct Hs' as (? & ? & ? & ? & ?).
      repeat split; simpl; assumption. }
    destruct (Hc1 e (a ++ [l1]) (b ++ [v1]) acc1 (st x1))
      as (s1 & -> & Hp1); [destruct a; discriminate
                          | destruct b; discriminate | ].
    destruct (Hc2 e (a ++ [l1]) (b ++ [v1]) acc1 (st x2))
      as (s2 & -> & Hp2); [destruct a; discriminate
                          | destruct b; discriminate | ].
    simpl mbind.
    destruct (IH (World s1 (trace x1 ++ [EvObserver e]))
                (World s2 (trace x2 ++ [EvObserver e])) (a ++ [l1])
                (b ++ [v1])) as (a' & b' & w1' & w2' & -> & -> & Hfin).
    { exact (same_learner_chain _ _ _ _ Hx Hp1 Hp2). }
    exists (l1 :: a'), (v1 :: b'), w1', w2'. rewrite <- !app_assoc.
    split; [reflexivity | ]. split; [reflexivity | exact Hfin].
Qed.

(** X16: Neither observer of the notebook has a part in the training: a run
    with the reporting observer (for [n <> 0]) and a run with the checkpoint
    policy, from the same world, return the same two histories and end with
    the same model, mode, gradients, optimizer and generator, after the same
    framework calls. *)
Theorem observers_leave_training_alone (w : world)
    (train_loader val_loader : dataloader) (n_epochs n : Z)
    (filename : string) :
  n <> 0 -> train_loader <> [] -> val_loader <> [] ->
  exists (train_losses val_losses : list float) (w1 w2 : world),
    train w train_loader val_loader n_epochs (print_loss_every_n_epochs n)
    = Ok (train_losses, val_losses, w1)
    /\ train w train_loader val_loader n_epochs
         (save_model_if_improved filename)
       = Ok (train_losses, val_losses, w2)
    /\ same_learner (st w1) (st w2)
    /\ trace w1 = trace w2.
Proof.
  intros Hn Htl Hvl. unfold train.
  destruct (train_epochs_passive (print_loss_every_n_epochs n)
              (save_model_if_improved filename) train_loader val_loader
              (print_loss_every_n_epochs_passive n Hn)
              (save_model_if_improved_passive filename) Htl Hvl
              (Py.range n_epochs) w w [] [])
    as (a & b & w1 & w2 & H1 & H2 & Hs).
  { repeat split; reflexivity. }
  exists a, b, w1, w2. simpl in H1, H2.
  split; [exact H1 | ]. split; [exact H2 | ]. split; [exact Hs | ].
  destruct (train_epochs_well_behaved (print_loss_every_n_epochs n)
              train_loader val_loader Htl Hvl
              (print_loss_every_n_epochs_well_behaved n Hn)
              (Py.range n_epochs) w [] [])
    as (a1 & b1 & w1' & H1' & _ & _ & Ht1).
  destruct (train_epochs_well_behaved (save_model_if_improved filename)
              train_loader val_loader Htl Hvl
              (save_model_if_improved_well_behaved filename)
              (Py.range n_epochs) w [] [])
    as (a2 & b2 & w2' & H2' & _ & _ & Ht2).
  rewrite H1 in H1'. rewrite H2 in H2'.
  assert (w1' = w1) by congruence. assert (w2' = w2) by congruence.
  subst. rewrite Ht1, Ht2. reflexivity.
Qed.

(** *** The reporting observer over a run *)

Lemma printed_epochs_app (o1 o2 : list message) :
  printed_epochs (o1 ++ o2) = printed_epochs o1 ++ printed_epochs o2.
Proof. apply flat_map_app. Qed.

Lemma train_epochs_print (n : Z) (train_loader val_loader : dataloader) :
  n <> 0 -> train_loader <> [] -> val_loader <> [] ->
  forall (len k : nat) (w : world) (a b : list float),
    length a = k -> length b = k ->
    exists (a' b' : list float) (w' : world) (msgs : list message),
      train_epochs (print_loss_every_n_epochs n) train_loader val_loader
        (map Z.of_nat (seq k len)) w a b = Ok (a ++ a', b ++ b', w')
      /\ length a' = len /\ length b' = len
      /\ stdout (st w') = stdout (st w) ++ msgs
      /\ files (st w') = files (st w)
      /\ printed_epochs msgs
         = List.filter (fun e => e mod n =? 0) (map Z.of_nat (seq k len))
      /\ Forall (fun m => exists e x y acc,
                   m = MsgEpoch e x y acc
                   /\ (a ++ a') !! Z.to_nat e = Some x
                   /\ (b ++ b') !! Z.to_nat e = Some y) msgs.
Proof.
  intros Hn Htl Hvl. induction len as [|len IH]; intros k w a b Ha Hb.
  - exists [], [], w, []. simpl. rewrite !app_nil_r.
    repeat split; try reflexivity. constructor.
  - simpl seq. simpl map.
    destruct (train_epochs_step (print_loss_every_n_epochs n) train_loader
                val_loader (Z.of_nat k) (map Z.of_nat (seq (S k) len)) w a b
                Htl Hvl) as (l & v & acc & w2 & _ & _ & Hst & _ & ->).
    rewrite (print_loss_every_n_epochs_spec n _ a b l v acc (st w2) Hn).
    simpl mbind.
    destruct (train_steps_io train_loader w) as [Hfiles Hout].
    set (s' := if Z.of_nat k mod n =? 0
               then print (MsgEpoch (Z.of_nat k) l v acc) (st w2)
               else st w2).
    destruct (IH (S k) (World s' (trace w2 ++ [EvObserver (Z.of_nat k)]))
                (a ++ [l]) (b ++ [v]))
      as (a' & b' & w' & msgs & -> & Hla & Hlb & Hso & Hsf & Hpe & Hall);
      [rewrite length_app; simpl; lia | rewrite length_app; simpl; lia | ].
    simpl in Hso, Hsf.
    exists (l :: a'), (v :: b'), w',
           ((if Z.of_nat k mod n =? 0
             then [MsgEpoch (Z.of_nat k) l v acc] else []) ++ msgs).
    rewrite <- !app_assoc in *. simpl in *.
    split; [reflexivity | ]. split; [lia | ]. split; [lia | ].
    assert (Hs'o : stdout s'
                   = stdout (st w)
                     ++ (if Z.of_nat k mod n =? 0
                         then [MsgEpoch (Z.of_nat k) l v acc] else [])).
    { unfold s'. destruct (Z.of_nat k mod n =? 0); simpl; rewrite Hst; simpl;
        rewrite Hout; [reflexivity | rewrite app_nil_r; reflexivity]. }
    assert (Hs'f : files s' = files (st w)).
    { unfold s'. destruct (Z.of_nat k mod n =? 0); simpl; rewrite Hst; simpl;
        exact Hfiles. }
    split; [rewrite Hso, Hs'o, <- app_assoc; reflexivity | ].
    split; [rewrite Hsf; exact Hs'f | ].
    split.
    + rewrite printed_epochs_app, Hpe.
      destruct (Z.of_nat k mod n =? 0); reflexivity.
    + apply Forall_app. split; [ | exact Hall].
      destruct (Z.of_nat k mod n =? 0); constructor; [ | constructor].
      exists (Z.of_nat k), l, v, acc. rewrite Nat2Z.id.
      split; [reflexivity | ].
      split; apply list_lookup_middle; congruence.
Qed.

Lemma filter_mod_1 (l : list Z) : List.filter (fun e => e mod 1 =? 0) l = l.
Proof.
  induction l as [|e l IH]; simpl; [reflexivity | ].
  rewrite Z.mod_1_r, IH. reflexivity.
Qed.

(** X17: A run with the reporting observer, for [n <> 0] and loaders that
    are not empty: it returns, writes no file, and prints one line for each
    epoch of [range(n_epochs)] that is a multiple of [n], in order -- for [n
    = 1], as in the notebook, one line for every epoch -- each line showing
    the entries of the two returned histories at its epoch. *)
Theorem print_loss_every_n_epochs_run (w : world)
    (train_loader val_loader : dataloader) (n_epochs n : Z) :
  n <> 0 -> train_loader <> [] -> val_loader <> [] ->
  exists (train_losses val_losses : list float) (w' : world)
         (msgs : list message),
    train w train_loader val_loader n_epochs (print_loss_every_n_epochs n)
    = Ok (train_losses, val_losses, w')
    /\ stdout (st w') = stdout (st w) ++ msgs
    /\ files (st w') = files (st w)
    /\ printed_epochs msgs
       = List.filter (fun e => e mod n =? 0) (Py.range n_epochs)
    /\ (n = 1 -> printed_epochs msgs = Py.range n_epochs)
    /\ Forall (fun m => exists e x y acc,
                 m = MsgEpoch e x y acc
                 /\ train_losses !! Z.to_nat e = Some x
                 /\ val_losses !! Z.to_nat e = Some y) msgs.
Proof.
  intros Hn Htl Hvl. unfold train, Py.range.
  destruct (train_epochs_print n train_loader val_loader Hn Htl Hvl
              (Z.to_nat n_epochs) 0%nat w [] [] eq_refl eq_refl)
    as (a & b & w' & msgs & Hrun & _ & _ & Hout & Hfiles & Hpe & Hall).
  exists a, b, w', msgs. simpl in Hrun, Hall.
  split; [exact Hrun | ]. split; [exact Hout | ]. split; [exact Hfiles | ].
  split; [exact Hpe | ]. split; [ | exact Hall].
  intros ->. rewrite Hpe. apply filter_mod_1.
Qed.

(** *** The first training cell and the plot *)

(** X18: [plot_train_and_val_loss] raises [ValueError] exactly on an empty
    validation history, and then after it cleared the figure and drew the
    two curves, without legend, title or [show]; otherwise it makes its
    seven calls in order, with the title as given and the horizontal line at
    an entry of the validation history: at most every entry that is not NaN
    when the first entry is not NaN, and the NaN itself when the first entry
    is NaN. *)
Theorem plot_marks_lowest_validation_loss {T : Type}
    (train_l val_l : list float) (title : T) :
  (val_l = [] ->
   plot_train_and_val_loss train_l val_l title
   = ([PltClf; PltPlot train_l "Train loss"; PltPlot [] "Validation loss"],
      Raise ValueError))
  /\ (val_l <> [] ->
      exists lowest : float,
        plot_train_and_val_loss train_l val_l title
        = ([PltClf; PltPlot train_l "Train loss";
            PltPlot val_l "Validation loss"; PltAxhline lowest; PltLegend;
            PltTitle title; PltShow], Ok tt)
        /\ lowest ∈ val_l
        /\ (forall v0 rest, val_l = v0 :: rest -> not_nan v0 ->
            Forall (fun x => not_nan x -> (lowest <=? x)%float = true) val_l)
        /\ (forall v0 rest, val_l = v0 :: rest -> ~ not_nan v0 ->
            lowest = v0)).
Proof.
  split; [intros ->; reflexivity | ].
  intros Hne. destruct val_l as [|v0 rest]; [congruence | ].
  exists (min_from v0 rest). split; [reflexivity | ].
  split; [apply min_from_elem | ]. split.
  - intros v0' rest' E Hv0. injection E as <- <-.
    apply (min_from_lower_bound rest v0 Hv0).
  - intros v0' rest' E Hv0. injection E as <- <-.
    apply min_from_nan, Hv0.
Qed.

(** X19: The first training cell, for widths the factory accepts and loaders
    that are not empty: with no epoch to run it raises [ValueError] (the
    minimum of an empty history, for the title); with [n = 0] it raises
    [ZeroDivisionError] in the first epoch; otherwise it returns histories
    of [n_epochs] entries and a figure whose horizontal line and title both
    show the minimum of the validation history, and writes no file. *)
Theorem reporting_cell_outcome (hidden_dims : list Z) (optimizer : optim)
    (train_loader val_loader : dataloader) (n_epochs n : Z) (s : state) :
  hidden_dims <> [] -> Forall (fun h => 0 <= h) hidden_dims ->
  train_loader <> [] -> val_loader <> [] ->
  (n_epochs <= 0 ->
   reporting_cell hidden_dims optimizer train_loader val_loader n_epochs n s
   = Raise ValueError)
  /\ (1 <= n_epochs -> n = 0 ->
      reporting_cell hidden_dims optimizer train_loader val_loader n_epochs n s
      = Raise ZeroDivisionError)
  /\ (1 <= n_epochs -> n <> 0 ->
      exists (train_losses val_losses : list float) (lowest : float)
             (w : world),
        reporting_cell hidden_dims optimizer train_loader val_loader
          n_epochs n s
        = Ok (train_losses, val_losses,
              [PltClf; PltPlot train_losses "Train loss";
               PltPlot val_losses "Validation loss"; PltAxhline lowest;
               PltLegend; PltTitle lowest; PltShow], w)
        /\ Py.min val_losses = Ok lowest
        /\ length train_losses = Z.to_nat n_epochs
        /\ length val_losses = Z.to_nat n_epochs
        /\ files (st w) = files s).
Proof.
  intros Hne Hpos Htl Hvl.
  destruct (create_model_ok hidden_dims (rng s) Hne Hpos)
    as (model & g & _ & _ & _ & _ & Hfac & _).
  assert (Hcell :
    reporting_cell hidden_dims optimizer train_loader val_loader n_epochs n s
    = ('(train_losses, val_losses, w) ←
         train (World (new_learner model optimizer g s) []) train_loader
           val_loader n_epochs (print_loss_every_n_epochs n);
       figure ← plot_losses train_losses val_losses;
       Ok (train_losses, val_losses, figure, w)))
    by (unfold reporting_cell; rewrite Hfac; reflexivity).
  rewrite Hcell. clear Hcell.
  split; [ | split].
  - intros Hn. unfold train. rewrite (range_nonpos _ Hn). reflexivity.
  - intros Hn ->.
    rewrite (train_first_call_raises _ _ _ _ _ ZeroDivisionError Hn Htl Hvl);
      reflexivity.
  - intros Hn Hn0. unfold train, Py.range.
    destruct (train_epochs_print n train_loader val_loader Hn0 Htl Hvl
                (Z.to_nat n_epochs) 0%nat
                (World (new_learner model optimizer g s) []) [] []
                eq_refl eq_refl)
      as (a & b & w' & msgs & Hrun & Hla & Hlb & _ & Hfiles & _).
    simpl in Hrun, Hfiles. rewrite Hrun. simpl mbind at 1.
    destruct b as [|v0 later]; [simpl in Hlb; lia | ].
    exists a, (v0 :: later), (min_from v0 later), w'.
    split; [reflexivity | ]. split; [reflexivity | ].
    split; [exact Hla | ]. split; [exact Hlb | exact Hfiles].
Qed.

(** *** Checkpoints of the two factories *)

Lemma state_dict_at_index_None (c : module values) (prefix : list nat)
    (i j : nat) (q : list nat) (n : pname) :
  i <> j -> state_dict_at (prefix ++ [i]) c !! (prefix ++ j :: q, n) = None.
Proof.
  intros Hij.
  destruct (state_dict_at (prefix ++ [i]) c !! (prefix ++ j :: q, n))
    as [t|] eqn:E; [ | reflexivity].
  apply state_dict_at_prefix in E as [k Hk]. simpl in Hk.
  rewrite <- app_assoc in Hk. apply app_inv_head in Hk. simpl in Hk.
  congruence.
Qed.

(** The entries of a container under the path of its child [i + j] are
    those of that child. *)
Lemma state_dict_children_index (prefix q : list nat) (n : pname) :
  forall (ms : list (module values)) (i j : nat),
    state_dict_children prefix i ms !! (prefix ++ (i + j)%nat :: q, n)
    = match ms !! j with
      | Some c => state_dict_at (prefix ++ [(i + j)%nat]) c
                  !! (prefix ++ (i + j)%nat :: q, n)
      | None => None
      end.
Proof.
  induction ms as [|c ms IH]; intros i j.
  - simpl. rewrite lookup_empty. destruct j; reflexivity.
  - simpl state_dict_children. destruct j as [|j].
    + rewrite Nat.add_0_r. simpl.
      destruct (state_dict_at (prefix ++ [i]) c !! (prefix ++ i :: q, n))
        as [t|] eqn:E.
      * apply lookup_union_Some_l. exact E.
      * rewrite lookup_union_r by exact E.
        destruct (state_dict_children prefix (S i) ms
                  !! (prefix ++ i :: q, n)) as [t|] eqn:E2; [ | reflexivity].
        apply state_dict_children_prefix in E2 as (j' & Hj' & [k Hk]).
        simpl in Hk. rewrite <- app_assoc in Hk. apply app_inv_head in Hk.
        simpl in Hk. injection Hk as Hk _. lia.
    + rewrite lookup_union_r by (apply state_dict_at_index_None; lia).
      replace (i + S j)%nat with (S i + j)%nat by lia. apply IH.
Qed.

Lemma create_model_fourth_child (hidden_dims : list Z) (g g' : gen)
    (m : module values) :
  create_model hidden_dims g = Ok (m, g') ->
  exists (q : list nat) (t : tensor values),
    state_dict m !! (3%nat :: q, Weight) = Some t.
Proof.
  unfold create_model. intros H.
  apply bind_Ok in H as (h0 & Hh0 & H).
  apply bind_Ok in H as ([lin0 g1] & Hlin0 & H).
  apply bind_Ok in H as ([bs g2] & Hbs & H).
  apply bind_Ok in H as (hl & Hhl & H).
  apply bind_Ok in H as ([out g3] & Hout & H). inversion H; subst; clear H.
  apply nn_Linear_inv in Hout as (_ & _ & wl & bl & ->).
  unfold state_dict. rewrite state_dict_at_Sequential.
  destruct (width_pairs hidden_dims) as [|[i o] pairs]; simpl in Hbs.
  - inversion Hbs; subst. exists [], (Tensor [10; hl] wl).
    rewrite (state_dict_children_index [] [] Weight _ 0 3). simpl.
    apply lookup_insert_eq.
  - apply bind_Ok in Hbs as ([lin g4] & Hlin & Hbs).
    apply bind_Ok in Hbs as ([rest g5] & Hrest & Hbs).
    inversion Hbs; subst.
    apply nn_Linear_inv in Hlin as (_ & _ & w & b & ->).
    exists [0%nat], (Tensor [o; i] w).
    rewrite (state_dict_children_index [] [0%nat] Weight _ 0 3). simpl.
    apply lookup_union_Some_l, lookup_insert_eq.
Qed.

Lemma create_model_with_dropout_fourth_child (hidden_dims : list Z)
    (p : float) (g g' : gen) (m : module values) :
  create_model_with_dropout hidden_dims p g = Ok (m, g') ->
  forall (q : list nat) (n : pname), state_dict m !! (3%nat :: q, n) = None.
Proof.
  unfold create_model_with_dropout. intros H q n.
  apply bind_Ok in H as (h0 & Hh0 & H).
  apply bind_Ok in H as ([lin0 g1] & Hlin0 & H).
  apply bind_Ok in H as (drop & Hdrop & H).
  apply bind_Ok in H as ([bs g2] & Hbs & H).
  apply bind_Ok in H as (hl & Hhl & H).
  apply bind_Ok in H as ([out g3] & Hout & H). inversion H; subst; clear H.
  apply nn_Dropout_inv in Hdrop as (-> & _ & _).
  unfold state_dict. rewrite state_dict_at_Sequential.
  rewrite (state_dict_children_index [] q n _ 0 3). simpl.
  apply lookup_empty.
Qed.

Lemma factories_snapshots_differ (hd1 hd2 : list Z) (p : float)
    (g1 g1' g2 g2' : gen) (m1 m2 : module values) :
  create_model hd1 g1 = Ok (m1, g1') ->
  create_model_with_dropout hd2 p g2 = Ok (m2, g2') ->
  shape <$> state_dict m1 <> shape <$> state_dict m2.
Proof.
  intros H1 H2 E.
  destruct (create_model_fourth_child _ _ _ _ H1) as (q & t & Ht).
  pose proof (create_model_with_dropout_fourth_child _ _ _ _ _ H2 q Weight)
    as Hnone.
  assert (Hl : (shape <$> state_dict m1) !! (3%nat :: q, Weight)
               = (shape <$> state_dict m2) !! (3%nat :: q, Weight))
    by (rewrite E; reflexivity).
  rewrite !lookup_fmap, Ht, Hnone in Hl. discriminate Hl.
Qed.

(** X20: A file written from a model of [create_model] is refused by a model
    of [create_model_with_dropout], and the other way round, whatever the
    hidden widths and the drop probability: the dropout layer after the
    first ReLU shifts the names of all later parameters, so [load_model]
    raises [RuntimeError] and never installs parameters under wrong layers. *)
Theorem factories_checkpoints_not_interchangeable (hd1 hd2 : list Z)
    (p : float) (g1 g1' g2 g2' : gen) (m1 m2 : module values)
    (path : string) (s : state) :
  create_model hd1 g1 = Ok (m1, g1') ->
  create_model_with_dropout hd2 p g2 = Ok (m2, g2') ->
  (files s !! path = Some (state_dict m1) -> net s = m2 ->
   load_model path s = Raise RuntimeError)
  /\ (files s !! path = Some (state_dict m2) -> net s = m1 ->
      load_model path s = Raise RuntimeError).
Proof.
  intros H1 H2.
  pose proof (factories_snapshots_differ _ _ _ _ _ _ _ _ _ H1 H2) as Hne.
  unfold load_model, torch_load. split; intros -> ->; simpl.
  - rewrite (load_state_dict_mismatch _ _ Hne). reflexivity.
  - rewrite load_state_dict_mismatch; [reflexivity | ].
    intros E. apply Hne. symmetry. exact E.
Qed.

End ScriptFacts.

(** ** The first four samples *)

(** X21: [visualize_first_4] looks at the first batch only, and there at the
    first four samples and labels.  It returns exactly when that batch has
    four samples with a channel each and four labels; it then has printed
    the shape, opened a 2 x 2 grid and shown channel 0 of sample [2*i + j]
    with its label at row [i], column [j], row by row, before the one call
    of [show]. *)
Theorem visualize_first_4_grid {I L : Type} (batch : list (list I))
    (labels : list L) (rest : list (list (list I) * list L))
    (p0 p1 p2 p3 : I) (c0 c1 c2 c3 : list I) (more : list (list I))
    (l0 l1 l2 l3 : L) (more_labels : list L) :
  (snd (visualize_first_4 ((batch, labels) :: rest)) = None
   <-> (4 <= length batch)%nat /\ Forall (fun sample => sample <> [])
                                    (take 4 batch)
       /\ (4 <= length labels)%nat)
  /\ (let four := (p0 :: c0) :: (p1 :: c1) :: (p2 :: c2) :: (p3 :: c3)
                  :: more in
      visualize_first_4 ((four, l0 :: l1 :: l2 :: l3 :: more_labels) :: rest)
      = ([VizPrintShape four; VizSubplots 2 2;
          VizImshow 0 0 p0; VizSetTitle 0 0 l0; VizTickParams 0 0;
          VizImshow 0 1 p1; VizSetTitle 0 1 l1; VizTickParams 0 1;
          VizImshow 1 0 p2; VizSetTitle 1 0 l2; VizTickParams 1 0;
          VizImshow 1 1 p3; VizSetTitle 1 1 l3; VizTickParams 1 1;
          VizShow], None)).
Proof.
  split; [ | reflexivity].
  destruct batch as [|[|q0 d0] [|[|q1 d1] [|[|q2 d2] [|[|q3 d3] others]]]];
    destruct labels as [|m0 [|m1 [|m2 [|m3 other_labels]]]];
    (split;
     [ intros H;
       first [ discriminate H
             | simpl; split;
               [lia | split; [repeat constructor; discriminate | lia]] ]
     | intros (H1 & H2 & H3); simpl in H1, H2, H3;
       first [ lia | reflexivity
             | exfalso;
               repeat match goal with
                      | H : Forall _ (_ :: _) |- _ =>
                          inversion H; clear H; subst
                      end;
               congruence ] ]).
Qed.

(** X22: On an empty loader [visualize_first_4] raises [UnboundLocalError]
    before it prints anything; on a first batch of fewer than four samples
    it raises [IndexError] after it printed the shape and opened the grid,
    and never reaches [show]. *)
Theorem visualize_first_4_raises {I L : Type} :
  visualize_first_4 (I := I) (L := L) [] = ([], Some UnboundLocalError)
  /\ (forall (batch : list (list I)) (labels : list L)
             (rest : list (list (list I) * list L)),
        (length batch < 4)%nat ->
        exists calls : list (viz_call I L),
          visualize_first_4 ((batch, labels) :: rest)
          = (VizPrintShape batch :: VizSubplots 2 2 :: calls,
             Some (Builtin IndexError))
          /\ ~ In VizShow calls).
Proof.
  split; [reflexivity | ].
  intros batch labels rest Hlen.
  destruct batch as [|[|q0 d0] [|[|q1 d1] [|[|q2 d2] [|s3 more]]]];
    simpl in Hlen; try lia;
    destruct labels as [|m0 [|m1 [|m2 more_labels]]];
    (eexists; split; [reflexivity | ]); simpl; intuition discriminate.
Qed.

(** ** The notebook on the small framework *)

#[local] Existing Instance Toy.framework.

(** Evaluate the left-hand side of an equation before comparing. *)
Ltac run_lhs :=
  match goal with
  | |- ?l = _ => let r := fresh "r" in set (r := l); vm_compute in r; subst r
  end.

Lemma factories_widths_witness :
  [64; 32] <> [] /\ Forall (fun h => 0 <= h) [64; 32]
  /\ (0 <=? 0.8)%float = true /\ (0.8 <? 1)%float = true
  /\ ((exists m g', create_model [64; 32] 0%nat = Ok (m, g')
        /\ first_affine_in m = Some 784 /\ final_affine_out m = Some 10
        /\ exists i w b, final_layer m = Some (Linear i 10 w b))
      /\ (exists m g',
            create_model_with_dropout [64; 32] 0.8%float 0%nat = Ok (m, g')
            /\ first_affine_in m = Some 784 /\ final_affine_out m = Some 10
            /\ exists i w b, final_layer m = Some (Linear i 10 w b))).
Proof.
  assert (H1 : [64; 32] <> []) by discriminate.
  assert (H2 : Forall (fun h => 0 <= h) [64; 32]) by (repeat constructor; lia).
  assert (H3 : (0 <=? 0.8)%float = true) by reflexivity.
  assert (H4 : (0.8 <? 1)%float = true) by reflexivity.
  exact (conj H1 (conj H2 (conj H3 (conj H4
           (factories_widths [64; 32] 0.8%float 0%nat H1 H2 H3 H4))))).
Defined.

Lemma train_one_epoch_visits_batches_witness :
  Toy.uneven_loader <> []
  /\ (exists avg : float,
        train_one_epoch Toy.scheduled Toy.uneven_loader
        = Ok (avg, fold_left train_step Toy.uneven_loader Toy.scheduled)
        /\ Py.mean (epoch_losses Toy.scheduled Toy.uneven_loader) = Ok avg
        /\ (exists compensated : bool,
              avg = arithmetic_mean compensated
                      (epoch_losses Toy.scheduled Toy.uneven_loader))
        /\ length (epoch_losses Toy.scheduled Toy.uneven_loader)
           = length Toy.uneven_loader
        /\ trace (fold_left train_step Toy.uneven_loader Toy.scheduled)
           = trace Toy.scheduled ++ flat_map batch_events Toy.uneven_loader
        /\ (forall (w : world) (b : act * labels),
              let s := st w in
              let out := forward (training s) (net s) (fst b) (rng s) in
              let gr := Some (backward_op (net s) (training s) (rng s)
                                (fst b) (snd b) None) in
              fst (train_batch (fst b) (snd b) w)
              = cross_entropy (fst out) (snd b)
              /\ st (train_step w b)
                 = State (map_params (step_op (opt s) gr) [] (net s))
                         (training s) gr (step_optim (opt s) gr) (snd out)
                         (files s) (stdout s)))
  /\ epoch_losses Toy.scheduled Toy.uneven_loader = [2; 0.9]%float
  /\ train_one_epoch Toy.scheduled Toy.uneven_loader
     = Ok (1.45%float, fold_left train_step Toy.uneven_loader Toy.scheduled).
Proof.
  assert (H : Toy.uneven_loader <> []) by discriminate.
  assert (H1 : epoch_losses Toy.scheduled Toy.uneven_loader
               = [2; 0.9]%float) by (vm_compute; reflexivity).
  assert (H2 : train_one_epoch Toy.scheduled Toy.uneven_loader
               = Ok (1.45%float,
                     fold_left train_step Toy.uneven_loader Toy.scheduled))
    by (vm_compute; reflexivity).
  exact (conj H
           (conj (train_one_epoch_visits_batches Toy.scheduled
                    Toy.uneven_loader H)
              (conj H1 H2))).
Defined.

Lemma validate_leaves_training_mode_witness :
  Toy.loader <> []
  /\ exists (avg_loss avg_acc : float) (w' : world),
       validate Toy.start Toy.loader = Ok (avg_loss, avg_acc, w')
       /\ training (st w') = true
       /\ (training (st w') = training (st Toy.start)
           <-> training (st Toy.start) = true).
Proof.
  assert (H : Toy.loader <> []) by discriminate.
  exact (conj H (validate_leaves_training_mode Toy.start Toy.loader H)).
Defined.

(** C5 as stated fails: a model in evaluation mode on entry is in training
    mode after the evaluator returns. *)
Lemma validate_does_not_restore_mode :
  exists (avg_loss avg_acc : float) (w' : world),
    validate (Toy.init Toy.model false []) Toy.loader
    = Ok (avg_loss, avg_acc, w')
    /\ training (st (Toy.init Toy.model false [])) = false
    /\ training (st w') = true.
Proof. do 3 eexists. split; [reflexivity | split; reflexivity]. Qed.

Lemma validate_batch_means_witness :
  Toy.uneven_loader <> []
  /\ (exists (avg_loss avg_acc : float) (w' : world),
        validate Toy.start Toy.uneven_loader = Ok (avg_loss, avg_acc, w')
        /\ Py.mean (map (batch_loss (net (st Toy.start))) Toy.uneven_loader)
           = Ok avg_loss
        /\ Py.mean (map (batch_accuracy (net (st Toy.start)))
                      Toy.uneven_loader)
           = Ok avg_acc
        /\ (exists compensated : bool,
              avg_loss
              = arithmetic_mean compensated
                  (map (batch_loss (net (st Toy.start))) Toy.uneven_loader)
              /\ avg_acc
                 = arithmetic_mean compensated
                     (map (batch_accuracy (net (st Toy.start)))
                        Toy.uneven_loader))
        /\ net (st w') = net (st Toy.start)
        /\ state_dict (net (st w')) = state_dict (net (st Toy.start)))
  /\ map (batch_loss (net (st Toy.start))) Toy.uneven_loader = [2; 2]%float
  /\ map (batch_accuracy (net (st Toy.start))) Toy.uneven_loader
     = [1; 0]%float
  /\ outcome (validate Toy.start Toy.uneven_loader) = Ok (2, 0.5)%float
  /\ sample_weighted_accuracy (net (st Toy.start)) Toy.uneven_loader
     = Ok 0.25%float.
Proof.
  assert (H : Toy.uneven_loader <> []) by discriminate.
  assert (H1 : map (batch_loss (net (st Toy.start))) Toy.uneven_loader
               = [2; 2]%float) by (vm_compute; reflexivity).
  assert (H2 : map (batch_accuracy (net (st Toy.start))) Toy.uneven_loader
               = [1; 0]%float) by (vm_compute; reflexivity).
  assert (H3 : outcome (validate Toy.start Toy.uneven_loader)
               = Ok (2, 0.5)%float) by (vm_compute; reflexivity).
  assert (H4 : sample_weighted_accuracy (net (st Toy.start))
                 Toy.uneven_loader = Ok 0.25%float)
    by (vm_compute; reflexivity).
  exact (conj H
           (conj (validate_batch_means Toy.start Toy.uneven_loader H)
              (conj H1 (conj H2 (conj H3 H4))))).
Defined.

(** The accuracy returned weights batches, not samples: a batch of one
    sample classified correctly and a batch of three samples classified
    wrongly give 0.5, where one correct sample out of four is 0.25. *)
Example validate_weights_batches_not_samples :
  outcome (validate Toy.start Toy.uneven_loader) = Ok (2, 0.5)%float
  /\ sample_weighted_accuracy (net (st Toy.start)) Toy.uneven_loader
     = Ok 0.25%float.
Proof. split; reflexivity. Qed.


Lemma checkpoint_policy_witness :
  [0.9; 0.7]%float <> [] /\ Forall Py.not_nan [0.9; 0.7]%float
  /\ exists last best : float,
       Py.last_item [0.9; 0.7]%float = Ok last
       /\ Py.min [0.9; 0.7]%float = Ok best
       /\ improved [0.9; 0.7]%float = Ok (last =? best)%float
       /\ ((last =? best)%float = true ->
           exists s',
             save_model_if_improved "early_stopping.pth" 1 [2; 0.9]%float
               [0.9; 0.7]%float 0.5%float (st Toy.start)
             = Ok (s', ([2; 0.9]%float, [0.9; 0.7]%float))
             /\ files s' = <["early_stopping.pth" :=
                              state_dict (net (st Toy.start))]>
                             (files (st Toy.start))
             /\ files s' !! "early_stopping.pth"
                = Some (state_dict (net (st Toy.start)))
             /\ stdout s' = stdout (st Toy.start) ++ [MsgNewBest 1 last]
             /\ net s' = net (st Toy.start))
       /\ ((last =? best)%float = false ->
           save_model_if_improved "early_stopping.pth" 1 [2; 0.9]%float
             [0.9; 0.7]%float 0.5%float (st Toy.start)
           = Ok (st Toy.start, ([2; 0.9]%float, [0.9; 0.7]%float)))
       /\ (Forall Py.not_nan [0.9; 0.7]%float ->
           ((last =? best)%float = true
            <-> Forall (fun x => (last <=? x)%float = true) [0.9; 0.7]%float))
       /\ (let saved e v :=
             torch_save (state_dict (net (st Toy.start))) "early_stopping.pth"
               (print (MsgNewBest e v) (st Toy.start)) in
           save_model_if_improved "early_stopping.pth" 0 [2; 0.9]%float
             [0.9]%float 0.5%float (st Toy.start)
           = Ok (saved 0 0.9%float, ([2; 0.9]%float, [0.9]%float))
           /\ save_model_if_improved "early_stopping.pth" 1 [2; 0.9]%float
                [0.9; 0.7]%float 0.5%float (st Toy.start)
              = Ok (saved 1 0.7%float, ([2; 0.9]%float, [0.9; 0.7]%float))
           /\ save_model_if_improved "early_stopping.pth" 2 [2; 0.9]%float
                [0.9; 0.7; 0.8]%float 0.5%float (st Toy.start)
              = Ok (st Toy.start, ([2; 0.9]%float, [0.9; 0.7; 0.8]%float))
           /\ save_model_if_improved "early_stopping.pth" 3 [2; 0.9]%float
                [0.9; 0.7; 0.8; 0.7]%float 0.5%float (st Toy.start)
              = Ok (saved 3 0.7%float,
                    ([2; 0.9]%float, [0.9; 0.7; 0.8; 0.7]%float))).
Proof.
  assert (H : [0.9; 0.7]%float <> []) by discriminate.
  assert (Hn : Forall Py.not_nan [0.9; 0.7]%float)
    by (repeat constructor).
  exact (conj H (conj Hn
           (checkpoint_policy "early_stopping.pth" 1 [2; 0.9]%float
              [0.9; 0.7]%float 0.5%float (st Toy.start) H))).
Defined.

(** The history 0.9, 0.7, 0.8, 0.7 met in a run of four epochs: the policy
    reports epochs 0, 1 and 3, and the file holds the parameters of the last
    of them. *)
Example checkpoint_history_run :
  exists (train_losses : list float) (w' : world),
    train (Toy.init Toy.model true [0.9; 0.7; 0.8; 0.7]%float)
      Toy.loader Toy.loader 4 (save_model_if_improved "early_stopping.pth")
    = Ok (train_losses, [0.9; 0.7; 0.8; 0.7]%float, w')
    /\ stdout (st w')
       = [MsgNewBest 0 0.9; MsgNewBest 1 0.7; MsgNewBest 3 0.7]%float
    /\ files (st w') !! "early_stopping.pth" = Some (state_dict (net (st w'))).
Proof.
  do 2 eexists. split; [run_lhs; reflexivity | ].
  split; vm_compute; reflexivity.
Qed.



Lemma mean_over_batches_division_witness :
  Toy.loader <> []
  /\ (exists avg w', train_one_epoch Toy.start Toy.loader = Ok (avg, w')
                     /\ Py.mean (epoch_losses Toy.start Toy.loader)
                        = Ok avg)
  /\ (exists avg_loss avg_acc w',
        validate Toy.start Toy.loader = Ok (avg_loss, avg_acc, w')
        /\ Py.mean (map (batch_loss (net (st Toy.start))) Toy.loader)
           = Ok avg_loss
        /\ Py.mean (map (batch_accuracy (net (st Toy.start))) Toy.loader)
           = Ok avg_acc).
Proof.
  assert (H : Toy.loader <> []) by discriminate.
  destruct mean_over_batches_division as (_ & _ & Htrain & Hval).
  exact (conj H (conj (Htrain Toy.start Toy.loader H)
                      (Hval Toy.start Toy.loader H))).
Defined.

Lemma checkpoint_round_trip_witness :
  skeleton (net Toy.reloading) = skeleton (net Toy.trained)
  /\ files Toy.reloading
     = files (torch_save (state_dict (net Toy.trained)) "early_stopping.pth"
                Toy.trained)
  /\ (exists s1 : state,
        load_model "early_stopping.pth" Toy.reloading = Ok s1
        /\ net s1 = net Toy.trained
        /\ forall (w w1 : world) (dl : dataloader),
             st w = Toy.trained -> st w1 = s1 ->
             outcome (validate w1 dl) = outcome (validate w dl))
  /\ (forall s' : state,
        files s' !! "early_stopping.pth" = None ->
        load_model "early_stopping.pth" s' = Raise FileNotFoundError)
  /\ (forall (s' : state) (sd : snapshot),
        files s' !! "early_stopping.pth" = Some sd ->
        shape <$> sd <> shape <$> state_dict (net s') ->
        load_model "early_stopping.pth" s' = Raise RuntimeError).
Proof.
  assert (H1 : skeleton (net Toy.reloading) = skeleton (net Toy.trained))
    by reflexivity.
  assert (H2 : files Toy.reloading
               = files (torch_save (state_dict (net Toy.trained))
                          "early_stopping.pth" Toy.trained)) by reflexivity.
  exact (conj H1 (conj H2
           (checkpoint_round_trip Toy.trained Toy.reloading
              "early_stopping.pth" H1 H2))).
Defined.

(** Loading fails on the small framework when no file was written, when the
    snapshot comes from a model with other hidden widths, and when it comes
    from the factory without dropout layers (other parameter names). *)
Example load_model_failures :
  load_model "early_stopping.pth" (st Toy.start) = Raise FileNotFoundError
  /\ load_model "early_stopping.pth"
       (torch_save (state_dict Toy.model) "early_stopping.pth"
          (st (Toy.init Toy.small_model true [])))
     = Raise RuntimeError
  /\ load_model "dropout.pth"
       (torch_save (state_dict Toy.model) "dropout.pth"
          (st (Toy.init Toy.model_with_dropout true [])))
     = Raise RuntimeError.
Proof. split; [reflexivity | split; vm_compute; reflexivity]. Qed.

Lemma validate_deterministic_witness :
  net (st (Toy.init Toy.model false [0.5%float])) = net (st Toy.start)
  /\ outcome (validate (Toy.init Toy.model false [0.5%float]) Toy.loader)
     = outcome (validate Toy.start Toy.loader)
  /\ validate Toy.start Toy.loader
     = Ok (2%float, 0.5%float,
           World (st Toy.start) (trace Toy.start ++ validate_events Toy.loader))
  /\ exists w2,
       validate (World (st Toy.start)
                   (trace Toy.start ++ validate_events Toy.loader)) Toy.loader
       = Ok (2%float, 0.5%float, w2).
Proof.
  assert (H1 : net (st (Toy.init Toy.model false [0.5%float]))
               = net (st Toy.start)) by reflexivity.
  assert (H2 : validate Toy.start Toy.loader
               = Ok (2%float, 0.5%float,
                     World (st Toy.start)
                       (trace Toy.start ++ validate_events Toy.loader)))
    by reflexivity.
  destruct validate_deterministic as [Hnet Hagain].
  exact (conj H1 (conj (Hnet Toy.start _ Toy.loader H1)
           (conj H2 (Hagain Toy.start Toy.loader _ _ _ H2)))).
Defined.

Lemma first_epoch_checkpoint_witness :
  1 <= 4 /\ Toy.loader <> [] /\ Toy.uneven_loader <> []
  /\ exists (train_losses : list float) (v0 : float) (later : list float)
            (w' : world),
       train Toy.start Toy.loader Toy.uneven_loader 4
         (save_model_if_improved "dropout.pth")
       = Ok (train_losses, v0 :: later, w')
       /\ (exists acc w2,
             validate (fold_left train_step Toy.loader Toy.start)
               Toy.uneven_loader = Ok (v0, acc, w2))
       /\ (Py.not_nan v0 ->
           (exists msgs,
               stdout (st w')
               = stdout (st Toy.start) ++ MsgNewBest 0 v0 :: msgs)
           /\ is_Some (files (st w') !! "dropout.pth")
           /\ (4 = 1 ->
               files (st w')
               = <["dropout.pth" :=
                     state_dict
                       (net (st (fold_left train_step Toy.loader Toy.start)))]>
                   (files (st Toy.start))))
       /\ (~ Py.not_nan v0 ->
           stdout (st w') = stdout (st Toy.start)
           /\ files (st w') = files (st Toy.start)).
Proof.
  assert (H0 : 1 <= 4) by lia.
  assert (H1 : Toy.loader <> []) by discriminate.
  assert (H2 : Toy.uneven_loader <> []) by discriminate.
  exact (conj H0 (conj H1 (conj H2
           (first_epoch_checkpoint Toy.start Toy.loader Toy.uneven_loader 4
              "dropout.pth" H0 H1 H2)))).
Defined.

(** C10 as stated fails: when the first validation loss is NaN the run
    completes and nothing was written, at epoch 0 or later; and on an empty
    training loader the run raises before the policy is consulted. *)
Lemma nan_loss_is_never_saved :
  (exists (train_losses : list float) (later : list float) (w' : world),
      train (Toy.init Toy.model true [Py.nan; 0.5; 0.4]%float)
        Toy.loader Toy.loader 3 (save_model_if_improved "early_stopping.pth")
      = Ok (train_losses, Py.nan :: later, w')
      /\ stdout (st w') = []
      /\ files (st w') !! "early_stopping.pth" = None
      /\ load_model "early_stopping.pth" (st w') = Raise FileNotFoundError)
  /\ train Toy.start [] Toy.loader 1
       (save_model_if_improved "early_stopping.pth")
     = Raise ZeroDivisionError.
Proof.
  split; [ | vm_compute; reflexivity].
  do 3 eexists. split; [run_lhs; reflexivity | ].
  split; [reflexivity | split; vm_compute; reflexivity].
Qed.

(** The early-stopping part of the notebook: train with the checkpoint
    policy, build a fresh model with the same factory, load the file into
    it and evaluate.  The reloaded model has the loss of the best epoch
    (0.7), the trained one that of the last epoch (0.8). *)
Example early_stopping_script :
  exists (train_losses val_losses : list float) (w' : world)
         (fresh : module values) (g' : gen) (s1 : state),
    train (Toy.init Toy.model true [0.9; 0.7; 0.8]%float) Toy.loader
      Toy.loader 3 (save_model_if_improved "early_stopping.pth")
    = Ok (train_losses, val_losses, w')
    /\ create_model [64; 32] (rng (st w')) = Ok (fresh, g')
    /\ load_model "early_stopping.pth"
         (State fresh true None (opt (st w')) g' (files (st w'))
            (stdout (st w'))) = Ok s1
    /\ outcome (validate (World s1 (trace w')) Toy.loader)
       = Ok (0.7, 0.5)%float
    /\ outcome (validate w' Toy.loader) = Ok (0.8, 0.5)%float.
Proof.
  do 6 eexists. split; [run_lhs; reflexivity | ].
  split; [run_lhs; reflexivity | ]. split; [run_lhs; reflexivity | ].
  split; vm_compute; reflexivity.
Qed.

(** ** The further properties on the small framework *)

Lemma train_without_epochs_witness :
  -3 <= 0
  /\ train Toy.start Toy.loader Toy.loader (-3) (print_loss_every_n_epochs 1)
     = Ok ([], [], Toy.start).
Proof.
  assert (H : -3 <= 0) by lia.
  exact (conj H (train_without_epochs Toy.start Toy.loader Toy.loader (-3)
                   (print_loss_every_n_epochs 1) H)).
Defined.

Lemma train_on_empty_loader_witness :
  1 <= 2 /\ (Toy.loader = [] \/ ([] : dataloader) = [])
  /\ train Toy.start Toy.loader [] 2 (print_loss_every_n_epochs 1)
     = Raise ZeroDivisionError.
Proof.
  assert (H1 : 1 <= 2) by lia.
  assert (H2 : Toy.loader = [] \/ ([] : dataloader) = [])
    by (right; reflexivity).
  exact (conj H1 (conj H2
           (train_on_empty_loader Toy.start Toy.loader [] 2
              (print_loss_every_n_epochs 1) H1 H2))).
Defined.

Lemma train_propagates_observer_exception_witness :
  1 <= 2 /\ Toy.loader <> []
  /\ (forall train_losses val_losses val_acc s,
        print_loss_every_n_epochs 0 0 train_losses val_losses val_acc s
        = Raise ZeroDivisionError)
  /\ train Toy.start Toy.loader Toy.loader 2 (print_loss_every_n_epochs 0)
     = Raise ZeroDivisionError.
Proof.
  assert (H1 : 1 <= 2) by lia.
  assert (H2 : Toy.loader <> []) by discriminate.
  assert (H3 : forall train_losses val_losses val_acc s,
             print_loss_every_n_epochs 0 0 train_losses val_losses val_acc s
             = Raise ZeroDivisionError) by reflexivity.
  exact (conj H1 (conj H2 (conj H3
           (train_propagates_observer_exception Toy.start Toy.loader
              Toy.loader 2 (print_loss_every_n_epochs 0) ZeroDivisionError
              H1 H2 H2 H3)))).
Defined.

Lemma validate_leaves_learner_and_files_witness :
  Toy.uneven_loader <> []
  /\ exists (avg_loss avg_acc : float) (w' : world),
       validate Toy.evaluating Toy.uneven_loader = Ok (avg_loss, avg_acc, w')
       /\ training (st w') = true
       /\ net (st w') = net (st Toy.evaluating)
       /\ grads (st w') = grads (st Toy.evaluating)
       /\ opt (st w') = opt (st Toy.evaluating)
       /\ files (st w') = files (st Toy.evaluating)
       /\ stdout (st w') = stdout (st Toy.evaluating).
Proof.
  assert (H : Toy.uneven_loader <> []) by discriminate.
  exact (conj H
           (validate_leaves_learner_and_files Toy.evaluating
              Toy.uneven_loader H)).
Defined.

Lemma train_one_epoch_keeps_architecture_witness :
  Toy.uneven_loader <> []
  /\ exists (avg : float) (w' : world),
       train_one_epoch Toy.scheduled Toy.uneven_loader = Ok (avg, w')
       /\ skeleton (net (st w')) = skeleton (net (st Toy.scheduled))
       /\ shape <$> state_dict (net (st w'))
          = shape <$> state_dict (net (st Toy.scheduled))
       /\ training (st w') = training (st Toy.scheduled)
       /\ files (st w') = files (st Toy.scheduled)
       /\ stdout (st w') = stdout (st Toy.scheduled).
Proof.
  assert (H : Toy.uneven_loader <> []) by discriminate.
  exact (conj H
           (train_one_epoch_keeps_architecture Toy.scheduled
              Toy.uneven_loader H)).
Defined.

Lemma factories_domain_witness :
  create_model [64; 32] 0%nat = Ok (Toy.model, 3%nat)
  /\ create_model_with_dropout [64; 32] 0.8%float 0%nat
     = Ok (Toy.model_with_dropout, 3%nat)
  /\ ([64; 32] <> [] /\ Forall (fun h => 0 <= h) [64; 32])
  /\ ([64; 32] <> [] /\ Forall (fun h => 0 <= h) [64; 32]
      /\ (0.8 <? 0)%float = false /\ (1 <? 0.8)%float = false).
Proof.
  assert (H1 : create_model [64; 32] 0%nat = Ok (Toy.model, 3%nat))
    by (vm_compute; reflexivity).
  assert (H2 : create_model_with_dropout [64; 32] 0.8%float 0%nat
               = Ok (Toy.model_with_dropout, 3%nat))
    by (vm_compute; reflexivity).
  exact (conj H1 (conj H2
           (conj
              (proj1 (proj2 (proj2 factories_domain)) [64; 32] 0%nat 3%nat
                 Toy.model H1)
              (proj2 (proj2 (proj2 factories_domain)) [64; 32] 0.8%float
                 0%nat 3%nat Toy.model_with_dropout H2)))).
Defined.

Lemma factories_layer_sequence_witness :
  create_model [64; 32] 0%nat = Ok (Toy.model, 3%nat)
  /\ create_model_with_dropout [64; 32] 0.8%float 0%nat
     = Ok (Toy.model_with_dropout, 3%nat)
  /\ map skeleton (leaves Toy.model) = factory_layers [] [64; 32]
  /\ map skeleton (leaves Toy.model_with_dropout)
     = factory_layers [ADropout 0.8%float] [64; 32].
Proof.
  assert (H1 : create_model [64; 32] 0%nat = Ok (Toy.model, 3%nat))
    by (vm_compute; reflexivity).
  assert (H2 : create_model_with_dropout [64; 32] 0.8%float 0%nat
               = Ok (Toy.model_with_dropout, 3%nat))
    by (vm_compute; reflexivity).
  exact (conj H1 (conj H2
           (conj
              (proj1 (factories_layer_sequence [64; 32] 0.8%float 0%nat
                        3%nat Toy.model) H1)
              (proj2 (factories_layer_sequence [64; 32] 0.8%float 0%nat
                        3%nat Toy.model_with_dropout) H2)))).
Defined.

Lemma factories_widths_chain_witness :
  (create_model [64; 32] 0%nat = Ok (Toy.model_with_dropout, 3%nat)
   \/ create_model_with_dropout [64; 32] 0.8%float 0%nat
      = Ok (Toy.model_with_dropout, 3%nat))
  /\ chained (affine_dims Toy.model_with_dropout)
  /\ length (affine_dims Toy.model_with_dropout) = S (length [64; 32]).
Proof.
  assert (H : create_model [64; 32] 0%nat
              = Ok (Toy.model_with_dropout, 3%nat)
              \/ create_model_with_dropout [64; 32] 0.8%float 0%nat
                 = Ok (Toy.model_with_dropout, 3%nat))
    by (right; vm_compute; reflexivity).
  exact (conj H
           (factories_widths_chain [64; 32] 0.8%float 0%nat 3%nat
              Toy.model_with_dropout H)).
Defined.

Lemma create_model_ignores_mode_witness :
  create_model [64; 32] 0%nat = Ok (Toy.model, 3%nat)
  /\ (forall (mode : bool) (x : act) (g0 : gen),
        forward mode Toy.model x g0 = (infer Toy.model x, g0))
  /\ (forall (w : world) (b : act * labels),
        net (st w) = Toy.model ->
        fst (train_batch (fst b) (snd b) w) = batch_loss Toy.model b
        /\ rng (st (train_step w b)) = rng (st w)).
Proof.
  assert (H : create_model [64; 32] 0%nat = Ok (Toy.model, 3%nat))
    by (vm_compute; reflexivity).
  exact (conj H (create_model_ignores_mode [64; 32] 0%nat 3%nat Toy.model H)).
Defined.

Lemma load_model_installs_snapshot_witness :
  load_model "early_stopping.pth" Toy.reloading = Ok Toy.reloaded
  /\ files Toy.reloading !! "early_stopping.pth"
     = Some (state_dict (net Toy.reloaded))
  /\ skeleton (net Toy.reloaded) = skeleton (net Toy.reloading)
  /\ training Toy.reloaded = training Toy.reloading
  /\ grads Toy.reloaded = grads Toy.reloading
  /\ opt Toy.reloaded = opt Toy.reloading
  /\ rng Toy.reloaded = rng Toy.reloading
  /\ files Toy.reloaded = files Toy.reloading
  /\ stdout Toy.reloaded = stdout Toy.reloading
  /\ load_model "early_stopping.pth" Toy.reloaded = Ok Toy.reloaded
  /\ torch_save (state_dict (net Toy.reloaded)) "early_stopping.pth"
       Toy.reloaded
     = Toy.reloaded.
Proof.
  assert (H : load_model "early_stopping.pth" Toy.reloading = Ok Toy.reloaded)
    by (vm_compute; reflexivity).
  exact (conj H
           (load_model_installs_snapshot "early_stopping.pth" Toy.reloading
              Toy.reloaded H)).
Defined.

Lemma load_model_overwrites_all_witness :
  load_model "early_stopping.pth" Toy.reloading = Ok Toy.reloaded
  /\ skeleton (net Toy.other_learner) = skeleton (net Toy.reloading)
  /\ files Toy.other_learner = files Toy.reloading
  /\ exists s1', load_model "early_stopping.pth" Toy.other_learner = Ok s1'
                 /\ net s1' = net Toy.reloaded.
Proof.
  assert (H1 : load_model "early_stopping.pth" Toy.reloading
               = Ok Toy.reloaded) by (vm_compute; reflexivity).
  assert (H2 : skeleton (net Toy.other_learner)
               = skeleton (net Toy.reloading)) by (vm_compute; reflexivity).
  assert (H3 : files Toy.other_learner = files Toy.reloading)
    by reflexivity.
  exact (conj H1 (conj H2 (conj H3
           (load_model_overwrites_all "early_stopping.pth" Toy.reloading
              Toy.other_learner Toy.reloaded H1 H2 H3)))).
Defined.

Lemma checkpoint_file_holds_best_witness :
  1 <= 3 /\ Toy.loader <> []
  /\ exists (train_losses : list float) (v0 : float) (later : list float)
            (w' : world),
       train Toy.scheduled Toy.loader Toy.loader 3
         (save_model_if_improved "early_stopping.pth")
       = Ok (train_losses, v0 :: later, w')
       /\ (Py.not_nan v0 ->
           exists (m : module values) (best : float),
             files (st w') !! "early_stopping.pth" = Some (state_dict m)
             /\ skeleton m = skeleton (net (st Toy.scheduled))
             /\ Py.min (v0 :: later) = Ok best
             /\ (val_loss m Toy.loader =? best)%float = true
             /\ Forall (fun x => Py.not_nan x ->
                                 (val_loss m Toy.loader <=? x)%float = true)
                  (v0 :: later)).
Proof.
  assert (H1 : 1 <= 3) by lia.
  assert (H2 : Toy.loader <> []) by discriminate.
  exact (conj H1 (conj H2
           (checkpoint_file_holds_best Toy.scheduled Toy.loader Toy.loader 3
              "early_stopping.pth" H1 H2 H2))).
Defined.

Lemma checkpoint_reports_never_go_up_witness :
  1 <= 3 /\ Toy.loader <> []
  /\ exists (train_losses : list float) (v0 : float) (later : list float)
            (w' : world) (msgs : list message),
       train Toy.scheduled Toy.loader Toy.loader 3
         (save_model_if_improved "early_stopping.pth")
       = Ok (train_losses, v0 :: later, w')
       /\ stdout (st w') = stdout (st Toy.scheduled) ++ msgs
       /\ non_increasing (reported_losses msgs)
       /\ (Py.not_nan v0 ->
           exists r best : float,
             last (reported_losses msgs) = Some r
             /\ Py.min (v0 :: later) = Ok best /\ (r =? best)%float = true)
       /\ (~ Py.not_nan v0 -> msgs = []).
Proof.
  assert (H1 : 1 <= 3) by lia.
  assert (H2 : Toy.loader <> []) by discriminate.
  exact (conj H1 (conj H2
           (checkpoint_reports_never_go_up Toy.scheduled Toy.loader
              Toy.loader 3 "early_stopping.pth" H1 H2 H2))).
Defined.

Lemma early_stopping_cells_evaluate_best_witness :
  1 <= 3 /\ Toy.loader <> [] /\ Toy.uneven_loader <> []
  /\ create_model [64; 32] (rng (st Toy.start)) = Ok (Toy.model, 3%nat)
  /\ exists (train_losses : list float) (v0 : float) (later : list float)
            (w : world),
       train (World (new_learner Toy.model Toy.schedule 3%nat (st Toy.start))
                [])
         Toy.loader Toy.loader 3 (save_model_if_improved "early_stopping.pth")
       = Ok (train_losses, v0 :: later, w)
       /\ (Py.not_nan v0 ->
           exists (m : module values) (figure : list (plot_call float))
                  (w1 : world),
             early_stopping_cells [64; 32] Toy.schedule "early_stopping.pth"
               Toy.loader Toy.loader Toy.uneven_loader 3 (st Toy.start)
             = Ok (val_loss m Toy.uneven_loader,
                   val_accuracy m Toy.uneven_loader, figure, w1)
             /\ net (st w1) = m
             /\ files (st w1) !! "early_stopping.pth" = Some (state_dict m)
             /\ skeleton m = skeleton Toy.model
             /\ (val_loss m Toy.loader =? Py.min_from v0 later)%float = true
             /\ In (PltAxhline (Py.min_from v0 later)) figure)
       /\ (~ Py.not_nan v0 ->
           files (st Toy.start) !! "early_stopping.pth" = None ->
           early_stopping_cells [64; 32] Toy.schedule "early_stopping.pth"
             Toy.loader Toy.loader Toy.uneven_loader 3 (st Toy.start)
           = Raise FileNotFoundError).
Proof.
  assert (H1 : 1 <= 3) by lia.
  assert (H2 : Toy.loader <> []) by discriminate.
  assert (H3 : Toy.uneven_loader <> []) by discriminate.
  assert (H4 : create_model [64; 32] (rng (st Toy.start))
               = Ok (Toy.model, 3%nat)) by (vm_compute; reflexivity).
  exact (conj H1 (conj H2 (conj H3 (conj H4
           (early_stopping_cells_evaluate_best [64; 32] Toy.schedule
              "early_stopping.pth" Toy.loader Toy.loader Toy.uneven_loader 3
              (st Toy.start) Toy.model 3%nat H1 H2 H2 H3 H4))))).
Defined.


Lemma observers_leave_training_alone_witness :
  1 <> 0 /\ Toy.loader <> []
  /\ exists (train_losses val_losses : list float) (w1 w2 : world),
       train Toy.scheduled Toy.loader Toy.loader 3
         (print_loss_every_n_epochs 1)
       = Ok (train_losses, val_losses, w1)
       /\ train Toy.scheduled Toy.loader Toy.loader 3
            (save_model_if_improved "early_stopping.pth")
          = Ok (train_losses, val_losses, w2)
       /\ same_learner (st w1) (st w2)
       /\ trace w1 = trace w2.
Proof.
  assert (H1 : 1 <> 0) by lia.
  assert (H2 : Toy.loader <> []) by discriminate.
  exact (conj H1 (conj H2
           (observers_leave_training_alone Toy.scheduled Toy.loader
              Toy.loader 3 1 "early_stopping.pth" H1 H2 H2))).
Defined.

Lemma print_loss_every_n_epochs_run_witness :
  2 <> 0 /\ Toy.loader <> []
  /\ exists (train_losses val_losses : list float) (w' : world)
            (msgs : list message),
       train Toy.scheduled Toy.loader Toy.loader 3
         (print_loss_every_n_epochs 2)
       = Ok (train_losses, val_losses, w')
       /\ stdout (st w') = stdout (st Toy.scheduled) ++ msgs
       /\ files (st w') = files (st Toy.scheduled)
       /\ printed_epochs msgs
          = List.filter (fun e => e mod 2 =? 0) (Py.range 3)
       /\ (2 = 1 -> printed_epochs msgs = Py.range 3)
       /\ Forall (fun m => exists e x y acc,
                    m = MsgEpoch e x y acc
                    /\ train_losses !! Z.to_nat e = Some x
                    /\ val_losses !! Z.to_nat e = Some y) msgs.
Proof.
  assert (H1 : 2 <> 0) by lia.
  assert (H2 : Toy.loader <> []) by discriminate.
  exact (conj H1 (conj H2
           (print_loss_every_n_epochs_run Toy.scheduled Toy.loader Toy.loader
              3 2 H1 H2 H2))).
Defined.

Lemma plot_marks_lowest_validation_loss_witness :
  Toy.schedule <> []
  /\ exists lowest : float,
       plot_train_and_val_loss [2; 0.9; 0.7]%float Toy.schedule "best"
       = ([PltClf; PltPlot [2; 0.9; 0.7]%float "Train loss";
           PltPlot Toy.schedule "Validation loss"; PltAxhline lowest;
           PltLegend; PltTitle "best"; PltShow], Ok tt)
       /\ lowest ∈ Toy.schedule
       /\ (forall v0 rest, Toy.schedule = v0 :: rest -> Py.not_nan v0 ->
           Forall (fun x => Py.not_nan x -> (lowest <=? x)%float = true)
             Toy.schedule)
       /\ (forall v0 rest, Toy.schedule = v0 :: rest -> ~ Py.not_nan v0 ->
           lowest = v0).
Proof.
  assert (H : Toy.schedule <> []) by discriminate.
  exact (conj H
           (proj2 (plot_marks_lowest_validation_loss [2; 0.9; 0.7]%float
                     Toy.schedule "best") H)).
Defined.

Lemma reporting_cell_outcome_witness :
  [64; 32] <> [] /\ Forall (fun h => 0 <= h) [64; 32]
  /\ Toy.loader <> [] /\ 1 <= 3 /\ 1 <> 0
  /\ exists (train_losses val_losses : list float) (lowest : float)
            (w : world),
       reporting_cell [64; 32] Toy.schedule Toy.loader Toy.loader 3 1
         (st Toy.start)
       = Ok (train_losses, val_losses,
             [PltClf; PltPlot train_losses "Train loss";
              PltPlot val_losses "Validation loss"; PltAxhline lowest;
              PltLegend; PltTitle lowest; PltShow], w)
       /\ Py.min val_losses = Ok lowest
       /\ length train_losses = Z.to_nat 3
       /\ length val_losses = Z.to_nat 3
       /\ files (st w) = files (st Toy.start).
Proof.
  assert (H1 : [64; 32] <> []) by discriminate.
  assert (H2 : Forall (fun h => 0 <= h) [64; 32])
    by (repeat constructor; lia).
  assert (H3 : Toy.loader <> []) by discriminate.
  assert (H4 : 1 <= 3) by lia.
  assert (H5 : 1 <> 0) by lia.
  exact (conj H1 (conj H2 (conj H3 (conj H4 (conj H5
           (proj2 (proj2
                     (reporting_cell_outcome [64; 32] Toy.schedule Toy.loader
                        Toy.loader 3 1 (st Toy.start) H1 H2 H3 H3))
              H4 H5)))))).
Defined.

Lemma factories_checkpoints_not_interchangeable_witness :
  create_model [64; 32] 0%nat = Ok (Toy.model, 3%nat)
  /\ create_model_with_dropout [64; 32] 0.8%float 0%nat
     = Ok (Toy.model_with_dropout, 3%nat)
  /\ files Toy.mismatched !! "dropout.pth" = Some (state_dict Toy.model)
  /\ net Toy.mismatched = Toy.model_with_dropout
  /\ load_model "dropout.pth" Toy.mismatched = Raise RuntimeError.
Proof.
  assert (H1 : create_model [64; 32] 0%nat = Ok (Toy.model, 3%nat))
    by (vm_compute; reflexivity).
  assert (H2 : create_model_with_dropout [64; 32] 0.8%float 0%nat
               = Ok (Toy.model_with_dropout, 3%nat))
    by (vm_compute; reflexivity).
  assert (H3 : files Toy.mismatched !! "dropout.pth"
               = Some (state_dict Toy.model)) by (vm_compute; reflexivity).
  assert (H4 : net Toy.mismatched = Toy.model_with_dropout) by reflexivity.
  exact (conj H1 (conj H2 (conj H3 (conj H4
           (proj1 (factories_checkpoints_not_interchangeable [64; 32]
                     [64; 32] 0.8%float 0%nat 3%nat 0%nat 3%nat Toy.model
                     Toy.model_with_dropout "dropout.pth" Toy.mismatched
                     H1 H2)
              H3 H4))))).
Defined.

Lemma visualize_first_4_raises_witness :
  (length (fst Toy.short_batch) < 4)%nat
  /\ exists calls : list (viz_call Z Z),
       visualize_first_4 [Toy.short_batch]
       = (VizPrintShape (fst Toy.short_batch) :: VizSubplots 2 2 :: calls,
          Some (Builtin IndexError))
       /\ ~ In VizShow calls.
Proof.
  assert (H : (length (fst Toy.short_batch) < 4)%nat) by (simpl; lia).
  exact (conj H
           (proj2 visualize_first_4_raises (fst Toy.short_batch)
              (snd Toy.short_batch) [] H)).
Defined.

(** The cells on the small framework: the early-stopping cells evaluate the
    model of the second epoch (validation loss 0.7, the lowest), not the one
    training ended with; with a first loss that is NaN nothing is saved and
    the load fails; the first training cell with [n = 2] reports epochs 0
    and 2. *)
Example cells_on_the_small_framework :
  (exists (figure : list (plot_call float)) (w1 : world),
      early_stopping_cells [64; 32] Toy.schedule "early_stopping.pth"
        Toy.loader Toy.loader Toy.uneven_loader 3 (st Toy.start)
      = Ok (0.7%float, 0.5%float, figure, w1)
      /\ In (PltAxhline 0.7%float) figure
      /\ stdout (st w1) = [MsgNewBest 0 0.9; MsgNewBest 1 0.7]%float)
  /\ early_stopping_cells [64; 32] [Py.nan] "early_stopping.pth" Toy.loader
       Toy.loader Toy.uneven_loader 3 (st Toy.start)
     = Raise FileNotFoundError
  /\ (exists (train_losses val_losses : list float)
             (figure : list (plot_call float)) (w : world),
         reporting_cell [64; 32] Toy.schedule Toy.loader Toy.loader 3 2
           (st Toy.start)
         = Ok (train_losses, val_losses, figure, w)
         /\ printed_epochs (stdout (st w)) = [0; 2]).
Proof.
  split; [ | split].
  - do 2 eexists. split; [run_lhs; reflexivity | ].
    split; [vm_compute; tauto | vm_compute; reflexivity].
  - vm_compute. reflexivity.
  - do 4 eexists. split; [run_lhs; reflexivity | vm_compute; reflexivity].
Qed.
